(** * Campus Cloud: sharing, submission and upload handlers

    A shallow embedding of the request handlers of
    [backend/lambdas/share_file.py], [backend/lambdas/submit_assignment.py],
    [backend/lambdas/complete_upload.py] and
    [backend/lambdas/generate_presigned_url.py], and of the share count of
    [backend/lambdas/list_files.py], with the properties of the sharing and
    submission model stated against them.

    Conventions of the embedding.

    - A table of the document store is the list of its items, addressed by
      the primary key the handlers pass to [get_item] / [update_item].
    - A response is the status code with the Python dictionary that
      [create_response] serialises, kept as a JSON value.
    - A handler is a function from the world (tables, stored objects, the
      number of clock readings and identifiers drawn so far) to a response
      and a new world.  An exception that reaches the handler's outermost
      [except Exception] is the 500 response built there.
    - Texts that the code parses ([json.loads], [datetime.fromisoformat]) are
      represented by what the parser makes of them.
    - A text is the list of its characters, and the characters of the model
      are the 256 code points of Latin-1: on the texts made of them
      [String.length] is [len], [substring] is slicing and [lower] is
      [str.lower].
    - The bodies of the share, submit and grade requests are JSON values as
      [json.loads] returns them, of whatever kind; an operation that Python
      refuses on a value of the wrong kind is the exception it raises.  The
      body of an upload request is of whatever kind too, but for its name
      and content type, which are texts, and its size, which is a number.
    - The key schema of the submissions table is declared outside the
      handlers and is a parameter of the environment.
    - Notification dispatch (SNS) and logging have no effect on the tables or
      on the response and are left out. *)

From Stdlib Require Import ZArith List String Ascii Bool Lia DecimalString.
Import ListNotations.

Local Open Scope string_scope.
Local Open Scope list_scope.
Local Open Scope Z_scope.

(** ** Python values *)

(** [if s:] on a string. *)
Definition truthy (s : string) : bool := negb (s =? "")%string.

(** [if not x:] on the result of [dict.get]. *)
Definition present (o : option string) : bool :=
  match o with
  | Some s => truthy s
  | None => false
  end.

(** [needle in haystack] on strings. *)
Definition contains (needle haystack : string) : bool :=
  match index 0 needle haystack with
  | Some _ => true
  | None => false
  end.

(** The lower-case letter of a capital: [A] to [Z], and the capitals of
    Latin-1, which are the code points 192 to 222 without the multiplication
    sign (215). *)
Definition lower_char (c : ascii) : ascii :=
  let n := nat_of_ascii c in
  if orb (andb (Nat.leb 65 n) (Nat.leb n 90))
         (andb (andb (Nat.leb 192 n) (Nat.leb n 222)) (negb (Nat.eqb n 215)))
  then ascii_of_nat (n + 32) else c.

(** [str.lower]. *)
Fixpoint lower (s : string) : string :=
  match s with
  | EmptyString => EmptyString
  | String c s' => String (lower_char c) (lower s')
  end.

(** [s[:n]]. *)
Definition prefix_of (n : nat) (s : string) : string := substring 0 n s.

(** [str(n)] on an integer. *)
Definition str_int (n : Z) : string := NilZero.string_of_int (Z.to_int n).

(** [x in xs] on a list of strings. *)
Definition mem_string (x : string) (xs : list string) : bool :=
  existsb (String.eqb x) xs.

(** An ISO-8601 text, as [datetime.fromisoformat(text.replace("Z", "+00:00"))]
    reads it, or no date at all.  [wall] is the date and time that the text
    spells, in microseconds, whatever UTC offset is written after it;
    [epoch] is the instant that the text names, in seconds, as
    [int(expiry_dt.timestamp())] gives it.  In a text in UTC ([Z] or
    [+00:00]) the date spelt is the instant; with another offset the two
    differ by that offset.

    The handlers compare the date read with
    [datetime.utcnow().replace(tzinfo=expiry.tzinfo)]: two dates that carry
    one and the same [tzinfo], which Python compares by what they spell,
    without applying the offset.  So [fromisoformat] gives [wall]. *)
Inductive iso_text : Type :=
| Iso (wall : Z) (epoch : Z)
| NotIso (raw : string).

Definition fromisoformat (t : iso_text) : option Z :=
  match t with
  | Iso wall _ => Some wall
  | NotIso _ => None
  end.

(** [str(e)] of the [ValueError] that [fromisoformat] raises. *)
Definition isoformat_error (t : iso_text) : string :=
  match t with
  | Iso _ _ => ""
  | NotIso raw => ("Invalid isoformat string: '" ++ raw ++ "'")%string
  end.

Definition iso_truthy (t : iso_text) : bool :=
  match t with
  | Iso _ _ => true
  | NotIso raw => truthy raw
  end.

(** A number as [json.loads] reads it: an integer, or a float, kept as the
    decimal that [str] writes for it, [coefficient * 10 ^ exponent], which
    is what [Decimal(str(x))] holds.  The literals [NaN] and [Infinity],
    which [json.loads] reads although they are not JSON, are left out. *)
Inductive number : Type :=
| Int (z : Z)
| Float (coefficient : Z) (exponent : Z).

Coercion Int : Z >-> number.

(** JSON values.  The values of a request are made of [JNull], [JBool],
    [JNum], [JStr], [JArr] and [JObj], and of [JIso], which is a string
    standing where the handlers read a date.  The responses also have
    [JStamp t], the string [isoformat() + "Z"] of a reading of the clock,
    [JFloat n], the number [float(n)], and [JDump v], a string holding the
    text [json.dumps(v)].  The fields of an object that [json.loads]
    returns have different names. *)
Unset Elimination Schemes.
Inductive json : Type :=
| JNull
| JBool (b : bool)
| JNum (n : number)
| JStr (s : string)
| JIso (t : iso_text)
| JStamp (reading : Z)
| JFloat (n : number)
| JArr (items : list json)
| JObj (fields : list (string * json))
| JDump (v : json).
Set Elimination Schemes.

(** A text handed to [int]: the integer read, or a text on which [int]
    raises [ValueError]. *)
Inductive int_text : Type :=
| IntText (z : Z)
| NotInt (raw : string).

(** A text handed to [json.loads]: the value read, or a text on which
    [json.loads] raises [JSONDecodeError]. *)
Inductive json_text : Type :=
| JsonText (v : json)
| NotJson (raw : string).

Definition opt_json {A : Type} (f : A -> json) (o : option A) : json :=
  match o with
  | Some a => f a
  | None => JNull
  end.

(** [d.get(k)] on the fields of a JSON object. *)
Fixpoint field (k : string) (fields : list (string * json)) : option json :=
  match fields with
  | [] => None
  | (k', v) :: rest => if (k' =? k)%string then Some v else field k rest
  end.

(** *** Python on JSON values *)

(** [type(v).__name__]. *)
Definition type_name (v : json) : string :=
  match v with
  | JNull => "NoneType"
  | JBool _ => "bool"
  | JNum (Int _) => "int"
  | JNum (Float _ _) => "float"
  | JFloat _ => "float"
  | JStr _ => "str"
  | JIso _ => "str"
  | JStamp _ => "str"
  | JDump _ => "str"
  | JArr _ => "list"
  | JObj _ => "dict"
  end.

Definition number_truthy (n : number) : bool :=
  match n with
  | Int z => negb (z =? 0)
  | Float c _ => negb (c =? 0)
  end.

(** [if v:]. *)
Definition json_truthy (v : json) : bool :=
  match v with
  | JNull => false
  | JBool b => b
  | JNum n => number_truthy n
  | JFloat n => number_truthy n
  | JStr s => truthy s
  | JIso t => iso_truthy t
  | JStamp _ => true
  | JDump _ => true
  | JArr [] => false
  | JArr (_ :: _) => true
  | JObj [] => false
  | JObj (_ :: _) => true
  end.

(** [if v:] on the result of [dict.get]. *)
Definition given (o : option json) : bool :=
  match o with
  | Some v => json_truthy v
  | None => false
  end.

(** The result of [dict.get(key)] as a value: [None] is [null]. *)
Definition or_null (o : option json) : json :=
  match o with
  | Some v => v
  | None => JNull
  end.

(** A string that stands where the handlers read a date is [JIso]; a
    [JStr] there is a text that is no date.  A value of another kind is no
    string. *)
Definition date_text (v : json) : option iso_text :=
  match v with
  | JIso t => Some t
  | JStr s => Some (NotIso s)
  | _ => None
  end.

(** [len(v)], for the kinds that have a length. *)
Definition len (v : json) : option nat :=
  match v with
  | JStr s => Some (String.length s)
  | JArr items => Some (List.length items)
  | JObj fields => Some (List.length fields)
  | _ => None
  end.

(** What [for x in v] goes through: the items of a list, the keys of a
    dictionary, the characters of a string. *)
Definition elements (v : json) : list json :=
  match v with
  | JArr items => items
  | JObj fields => map (fun kv => JStr (fst kv)) fields
  | JStr s => map (fun c => JStr (String c "")) (list_ascii_of_string s)
  | _ => []
  end.

(** [needle in v] on a list (one of the items is that string) or on a
    dictionary (one of the keys is). *)
Definition member (needle : string) (v : json) : bool :=
  match v with
  | JArr items =>
      existsb (fun x => match x with
                        | JStr s => (s =? needle)%string
                        | _ => false
                        end) items
  | JObj fields => existsb (fun kv => (fst kv =? needle)%string) fields
  | _ => false
  end.

(** [v[:n]], for a string and for a list. *)
Definition slice (n : nat) (v : json) : option json :=
  match v with
  | JStr s => Some (JStr (prefix_of n s))
  | JArr items => Some (JArr (firstn n items))
  | _ => None
  end.

(** The texts of the exceptions that Python raises on a value of the wrong
    kind. *)
Definition no_attribute (v : json) (name : string) : string :=
  ("'" ++ type_name v ++ "' object has no attribute '" ++ name ++ "'")%string.

Definition not_iterable (v : json) : string :=
  ("argument of type '" ++ type_name v ++ "' is not iterable")%string.

Definition not_subscriptable (v : json) : string :=
  match v with
  | JObj _ => "unhashable type: 'slice'"
  | _ => ("'" ++ type_name v ++ "' object is not subscriptable")%string
  end.

Definition no_len (v : json) : string :=
  ("object of type '" ++ type_name v ++ "' has no len()")%string.

(** [str(e)] when [json.loads] is handed [None], the body of a request that
    has none. *)
Definition no_body : string :=
  "the JSON object must be str, bytes or bytearray, not NoneType".

(** [datetime.fromisoformat(e.replace("Z", "+00:00"))] on the expiry [e]
    of a stored share: the date that it spells, or the text of the
    exception when it is no text ([replace] is missing) or does not
    parse. *)
Definition expiry_of (e : json) : Z + string :=
  match date_text e with
  | None => inr (no_attribute e "replace")
  | Some t =>
      match fromisoformat t with
      | None => inr (isoformat_error t)
      | Some expiry => inl expiry
      end
  end.

(** *** What the document store takes

    The client of the store turns the values of an item into the types of
    the store before it sends them, and raises, with an exception that is
    no [ClientError], on a float and on a number of more than 38 digits. *)

Definition float_error : string :=
  "Float types are not supported. Use Decimal types instead.".

Definition inexact_error : string :=
  "[<class 'decimal.Inexact'>, <class 'decimal.Rounded'>]".

Section FirstError.
Context {A : Type}.
Variable f : A -> option string.

Fixpoint first_error (l : list A) : option string :=
  match l with
  | [] => None
  | x :: rest =>
      match f x with
      | Some text => Some text
      | None => first_error rest
      end
  end.
End FirstError.

(** The exception on which the serialisation of [v] ends, if any. *)
Fixpoint serialize_error (v : json) : option string :=
  match v with
  | JNum (Int z) => if Z.abs z <? 10 ^ 38 then None else Some inexact_error
  | JNum (Float _ _) => Some float_error
  | JFloat _ => Some float_error
  | JArr items => first_error serialize_error items
  | JObj fields => first_error (fun kv => serialize_error (snd kv)) fields
  | _ => None
  end.

Definition opt_serialize_error (o : option json) : option string :=
  match o with
  | Some v => serialize_error v
  | None => None
  end.

(** A [Decimal] that the store holds: at most 38 significant digits, and a
    magnitude from 1E-130 to below 1E+126, or zero. *)
Definition decimal_storable (n : number) : bool :=
  match n with
  | Int z => Z.abs z <? 10 ^ 38
  | Float c e =>
      andb (Z.abs c <? 10 ^ 38)
           (orb (c =? 0)
                (if 0 <=? e then Z.abs c * 10 ^ e <? 10 ^ 126
                 else andb (Z.abs c <? 10 ^ (126 - e))
                           (10 ^ (- 130 - e) <=? Z.abs c)))
  end.

(** ** Responses *)

Record response : Type := mkResponse {
  statusCode : Z;
  headers : list (string * string);
  body : json
}.

Definition cors_headers : list (string * string) :=
  [ ("Content-Type", "application/json");
    ("Access-Control-Allow-Origin", "*");
    ("Access-Control-Allow-Headers", "Content-Type,Authorization");
    ("Access-Control-Allow-Methods", "GET,POST,PUT,DELETE,OPTIONS") ].

Definition create_response (status_code : Z) (b : json) : response :=
  {| statusCode := status_code; headers := cors_headers; body := b |}.

Definition error_body (error message : string) : json :=
  JObj [("error", JStr error); ("message", JStr message)].

(** A field of the dictionary in the body of a response. *)
Definition body_field (name : string) (r : response) : option json :=
  match body r with
  | JObj fields => field name fields
  | _ => None
  end.

(** What the outermost [except Exception as e] of a handler answers; the
    text is [str(e)]. *)
Definition internal_error (text : string) : response :=
  create_response 500 (error_body "Internal Server Error" text).

(** ** Tables *)

Section Table.
Context {R K : Type}.
Variable key : R -> K.
Variable eqb : K -> K -> bool.

(** [table.get_item(Key=k)]: the item stored under [k]. *)
Definition get_item (k : K) (t : list R) : option R :=
  find (fun r => eqb (key r) k) t.

(** [table.update_item(Key=k, UpdateExpression=SET ...)] on a stored item:
    [set] is the effect of the SET clauses. *)
Fixpoint update_item (k : K) (set : R -> R) (t : list R) : list R :=
  match t with
  | [] => []
  | r :: t' =>
      if eqb (key r) k then set r :: t' else r :: update_item k set t'
  end.

(** [table.put_item(Item=r)]: the item takes the place of the one stored
    under its key, or is added. *)
Definition put_item (r : R) (t : list R) : list R :=
  match get_item (key r) t with
  | Some _ => update_item (key r) (fun _ => r) t
  | None => t ++ [r]
  end.

(** [update_item] without a condition creates the item when the key is
    new: [stub] is the item made of the key attributes alone. *)
Definition upsert_item (k : K) (set : R -> R) (stub : R) (t : list R)
  : list R :=
  match get_item k t with
  | Some _ => update_item k set t
  | None => t ++ [set stub]
  end.
End Table.

Definition key2 : Type := string * string.

Definition key2_eqb (a b : key2) : bool :=
  andb (fst a =? fst b)%string (snd a =? snd b)%string.

(** ** Items of the tables *)

(** The files table, keyed by [(userId, fileId)].  Only the key, the status
    and [lastModified] are sure to be there: [handle_failed_upload] can
    create an item from those alone. *)
Module FileItem.
Record t : Type := mk {
  userId : string;
  fileId : string;
  status : string;
  lastModified : option Z;
  filename : option string;
  fileSize : option Z;
  contentType : option string;
  s3Key : option string;
  uploadedAt : option Z;
  checksum : option string;
  virusScanStatus : option string;
  description : option json;
  tags : option json;
  metadata : option json;
  downloadCount : option Z
}.

Definition key (f : t) : key2 := (userId f, fileId f).

Definition stub (k : key2) : t :=
  mk (fst k) (snd k) "" None None None None None None None None None None
     None None.
End FileItem.

(** The shares table, keyed by [(fileId, sharedWithUserId)].  The
    permissions, the message and the expiry of a share are the values of
    the request that made it, of whatever kind. *)
Module Share.
Record t : Type := mk {
  shareId : string;
  fileId : string;
  ownerId : string;
  sharedWithUserId : string;
  sharedWithEmail : string;
  permissions : json;
  sharedAt : Z;
  status : string;
  accessCount : Z;
  message : option json;
  expiresAt : option json;
  ttl : option Z;
  lastAccessedAt : option Z;
  revokedAt : option Z;
  ownerEmail : option string
}.

Definition key (s : t) : key2 := (fileId s, sharedWithUserId s).
End Share.

Module User.
Record t : Type := mk {
  userId : string;
  email : string
}.
End User.

(** The assignments table, keyed by [(courseId, assignmentId)]; the handlers
    only read it, apart from the submission counter. *)
Module Assignment.
Record t : Type := mk {
  courseId : string;
  assignmentId : string;
  instructorId : string;
  instructorEmail : string;
  title : string;
  dueDate : iso_text;
  status : string;
  allowedFileTypes : option (list string);
  maxFileSize : option Z;
  maxSubmissions : option Z;
  submissionCount : Z
}.

Definition key (a : t) : key2 := (courseId a, assignmentId a).
End Assignment.

(** The submissions table.  The comments are the value of the submit
    request, the grade and the maximum grade the [Decimal]s that grading
    stores, the feedback and the feedback file id the values of the grading
    request. *)
Module Submission.
Record t : Type := mk {
  submissionId : string;
  assignmentId : string;
  studentId : string;
  studentEmail : string;
  studentName : string;
  fileId : string;
  filename : string;
  fileSize : Z;
  submittedAt : Z;
  submissionNumber : Z;
  status : string;
  isLate : bool;
  dueDate : iso_text;
  comments : option json;
  grade : option number;
  maxGrade : option number;
  feedback : option json;
  gradedAt : option Z;
  gradedBy : option string;
  gradedByName : option string;
  feedbackFileId : option json
}.

(** The key schema of the table is declared with the table, outside these
    sources.  Every query of the handlers is on [assignmentId], the
    partition key.  For the sort key the sources have one name, in the
    [Key] of the [update_item] of [handle_grade_submission]:
    [studentId#submissionNumber], which that handler makes of the student
    id and the submission number of the item; and the item that
    [handle_submit_assignment] puts has no attribute of that name.  So
    either the table is keyed as the grading says ([StudentAndNumber]), its
    items carry that attribute, and the [put_item] of a submit is refused
    for the missing key; or it is keyed by an attribute that the items of a
    submit carry, or by the partition key alone ([Attribute a], where [a]
    reads the sort key off an item and is constant when there is none), and
    the [update_item] of a grading is refused for a key that does not match
    the schema. *)
Inductive sort_key : Type :=
| StudentAndNumber
| Attribute (a : t -> string).

Definition key (k : sort_key) (s : t) : key2 :=
  (assignmentId s,
   match k with
   | StudentAndNumber =>
       (studentId s ++ "#" ++ str_int (submissionNumber s))%string
   | Attribute a => a s
   end).
End Submission.

(** An object of the bucket, as [head_object] describes it. *)
Module S3Object.
Record t : Type := mk {
  Key : string;
  ContentLength : Z;
  ETag : option string
}.
End S3Object.

(** ** The world and its environment *)

Record World : Type := mkWorld {
  files : list FileItem.t;
  shares : list Share.t;
  users : list User.t;
  assignments : list Assignment.t;
  submissions : list Submission.t;
  bucket : list S3Object.t;
  ticks : nat;  (* readings of the clock taken so far *)
  draws : nat   (* identifiers drawn so far *)
}.

Definition dict : Type := list (string * json).

(** What the handlers do not decide: the clock, the identifier generator,
    the store refusing an item of the shares or of the files table
    ([ClientError] from [put_item]), the sort key of the submissions table,
    the finite number that a text spells for [Decimal] and [float], if it
    spells one, and the way the store cuts a result set into pages, given
    [Limit] and [ExclusiveStartKey] (the page with [LastEvaluatedKey], or
    the text of the exception it raises). *)
Record Env : Type := mkEnv {
  utcnow_at : nat -> Z;
  uuid4_at : nat -> string;
  put_share_refused : Share.t -> bool;
  put_file_refused : FileItem.t -> bool;
  submissions_sort_key : Submission.sort_key;
  decimal_of_text : string -> option number;
  page_shares :
    list Share.t -> Z -> option dict -> (list Share.t * option dict) + string;
  page_submissions :
    list Submission.t -> Z -> option dict ->
    (list Submission.t * option dict) + string
}.

Definition set_files (w : World) (fs : list FileItem.t) : World :=
  mkWorld fs (shares w) (users w) (assignments w) (submissions w) (bucket w)
          (ticks w) (draws w).

Definition set_shares (w : World) (ss : list Share.t) : World :=
  mkWorld (files w) ss (users w) (assignments w) (submissions w) (bucket w)
          (ticks w) (draws w).

Definition set_assignments (w : World) (l : list Assignment.t) : World :=
  mkWorld (files w) (shares w) (users w) l (submissions w) (bucket w)
          (ticks w) (draws w).

Definition set_submissions (w : World) (l : list Submission.t) : World :=
  mkWorld (files w) (shares w) (users w) (assignments w) l (bucket w)
          (ticks w) (draws w).

(** [datetime.utcnow()]. *)
Definition utcnow (env : Env) (w : World) : Z * World :=
  (utcnow_at env (ticks w),
   mkWorld (files w) (shares w) (users w) (assignments w) (submissions w)
           (bucket w) (S (ticks w)) (draws w)).

(** [str(uuid.uuid4())]. *)
Definition uuid4 (env : Env) (w : World) : string * World :=
  (uuid4_at env (draws w),
   mkWorld (files w) (shares w) (users w) (assignments w) (submissions w)
           (bucket w) (ticks w) (S (draws w))).

(** The tables alone: what a request leaves behind. *)
Definition same_tables (w w' : World) : Prop :=
  files w' = files w /\ shares w' = shares w /\ users w' = users w /\
  assignments w' = assignments w /\ submissions w' = submissions w.

(** [files_table.query(IndexName="FileIdIndex", ...)["Items"]]. *)
Definition files_by_id (file_id : string) (w : World) : list FileItem.t :=
  filter (fun f => (FileItem.fileId f =? file_id)%string) (files w).

(** A query on the shares table by its partition key. *)
Definition shares_of_file (file_id : string) (w : World) : list Share.t :=
  filter (fun s => (Share.fileId s =? file_id)%string) (shares w).

(** ** Pagination *)

(** The query string of a paginated listing. *)
Record page_query : Type := mkPageQuery {
  limit : option int_text;
  nextToken : option json_text
}.

Definition int_error (raw : string) : string :=
  ("invalid literal for int() with base 10: '" ++ raw ++ "'")%string.

(** [min(int(query_params.get("limit", default)), 100)]. *)
Definition page_limit (default : Z) (q : page_query) : Z + string :=
  match limit q with
  | None => inl (Z.min default 100)
  | Some (IntText n) => inl (Z.min n 100)
  | Some (NotInt raw) => inr (int_error raw)
  end.

(** The [ExclusiveStartKey] that the token leaves in the query: none without
    a token, with an empty one, or with one on which [json.loads] raises
    [JSONDecodeError] (the handler logs a warning and goes on). *)
Definition start_key (q : page_query) : option json :=
  match nextToken q with
  | None => None
  | Some (NotJson _) => None
  | Some (JsonText v) => Some v
  end.

Definition start_key_error : string :=
  "Parameter validation failed: Invalid type for parameter ExclusiveStartKey".

(** [table.query] with [Limit] and [ExclusiveStartKey]: the
    client accepts a dictionary as start key and nothing else; with one, or
    with none, the store answers. *)
Definition query_page {R : Type}
                      (page : list R -> Z -> option dict ->
                              (list R * option dict) + string)
                      (matching : list R) (limit : Z) (start : option json)
  : (list R * option dict) + string :=
  match start with
  | None => page matching limit None
  | Some (JObj key) => page matching limit (Some key)
  | Some _ => inr start_key_error
  end.

(** [json.dumps(last_key) if last_key else None]. *)
Definition new_next_token (last_key : option dict) : json :=
  match last_key with
  | None => JNull
  | Some [] => JNull
  | Some key => JDump (JObj key)
  end.

(** ** Requests

    What [lambda_handler] reads from the authorizer:
    [claims["sub"]], [claims["email"]], [claims.get("name")] and
    [claims.get("cognito:groups")]. *)
Record claims : Type := mkClaims {
  sub : string;
  claim_email : string;
  claim_name : option string;
  cognito_groups : option string
}.

(** [claims.get("name", user_email)]. *)
Definition name_of (c : claims) : string :=
  match claim_name c with
  | Some n => n
  | None => claim_email c
  end.

(** [claims.get("cognito:groups", "student")]. *)
Definition role_of (c : claims) : string :=
  match cognito_groups c with
  | Some g => g
  | None => "student"
  end.

(** [s.endswith(suffix)]. *)
Definition endswith (suffix s : string) : bool :=
  let n := String.length s in
  let m := String.length suffix in
  if (m <=? n)%nat then (substring (n - m) m s =? suffix)%string else false.

Definition invalid_request : response :=
  create_response 400 (JObj [("error", JStr "Invalid request")]).

(** ** share_file.py *)

Module share_file.

(** The event of a share request: the file id of the path and
    [event["body"]], which is [None] when the request has no body. *)
Record share_event : Type := mkShareEvent {
  fileId : option string;
  body : option json_text
}.

(** [recipient.get("email")], on a recipient that is an object. *)
Definition email (recipient : json) : option json :=
  match recipient with
  | JObj fields => field "email" fields
  | _ => None
  end.

(** [recipient.get("permissions", "read")], on a recipient that is an
    object. *)
Definition permissions (recipient : json) : json :=
  match recipient with
  | JObj fields =>
      match field "permissions" fields with
      | Some p => p
      | None => JStr "read"
      end
  | _ => JStr "read"
  end.

(** [get_user_by_email]. *)
Definition get_user_by_email (email : string) (w : World) : option User.t :=
  find (fun u => (User.email u =? lower email)%string) (users w).

(** [check_existing_share]: the query is on the full primary key. *)
Definition check_existing_share (file_id user_id : string) (w : World)
  : option Share.t :=
  get_item Share.key key2_eqb (file_id, user_id) (shares w).

(** The accumulators of the recipient loop. *)
Record batch : Type := mkBatch {
  world : World;
  successful_shares : list json;
  failed_shares : list json
}.

(** What a pass of the loop ends in: the loop goes on with the batch, or an
    exception leaves the loop and the handler, with the world as the passes
    so far have written it. *)
Inductive outcome : Type :=
| Next (b : batch)
| Raised (text : string) (w : World).

Definition fail (b : batch) (w : World) (entry : json) : batch :=
  mkBatch w (successful_shares b) (failed_shares b ++ [entry]).

Definition failure (email : json) (error : string) : json :=
  JObj [("email", email); ("error", JStr error)].

Definition failed_entry (email error : string) : json :=
  failure (JStr email) error.

Definition missing_email : json := JObj [("error", JStr "Missing email")].

(** The [ttl] attribute: [int(expiry_dt.timestamp())] when the expiry is a
    text that parses; any exception on the way is caught and logged. *)
Definition ttl_of (expires_at : json) : option Z :=
  match date_text expires_at with
  | Some (Iso _ epoch) => Some epoch
  | _ => None
  end.

(** [if message: share_item["message"] = message[:500]]. *)
Definition message_attribute (message : json) : option json + string :=
  if json_truthy message then
    match slice 500 message with
    | Some m => inl (Some m)
    | None => inr (not_subscriptable message)
    end
  else inl None.

(** The item that the loop writes for one recipient; [message] is the
    attribute made of the message of the request. *)
Definition share_item (share_id file_id user_id recipient_user_id
                       recipient_email : string) (permissions : json)
                      (timestamp : Z) (message : option json)
                      (expires_at : option json) : Share.t :=
  let expiry := if given expires_at then expires_at else None in
  Share.mk share_id file_id user_id recipient_user_id recipient_email
           permissions timestamp "active" 0 message expiry
           (match expiry with Some e => ttl_of e | None => None end)
           None None None.

(** The exception on which the serialisation of the item ends, if any: the
    attributes that hold values of the request are the permissions, the
    message and the expiry. *)
Definition share_serialize_error (item : Share.t) : option string :=
  match serialize_error (Share.permissions item) with
  | Some text => Some text
  | None =>
      match opt_serialize_error (Share.message item) with
      | Some text => Some text
      | None => opt_serialize_error (Share.expiresAt item)
      end
  end.

(** The body of the loop from the look-up of the recipient on, for a
    recipient whose email is the text [recipient_email], which has passed
    the checks of the address. *)
Definition share_with_address (env : Env) (file_id user_id : string)
                              (message : json) (expires_at : option json)
                              (b : batch) (recipient_email : string)
                              (permissions : json) : outcome :=
  let w := world b in
  let (recipient_user_id, w1) :=
    match get_user_by_email recipient_email w with
    | None => let (u, w') := uuid4 env w in (("pending-" ++ u)%string, w')
    | Some recipient_user => (User.userId recipient_user, w)
    end in
  let rejected :=
    match check_existing_share file_id recipient_user_id w1 with
    | Some existing_share =>
        (Share.status existing_share =? "active")%string
    | None => false
    end in
  if rejected then
    Next (fail b w1
            (failed_entry recipient_email
                          "File already shared with this user"))
  else
    let (share_id, w2) := uuid4 env w1 in
    let (timestamp, w3) := utcnow env w2 in
    match message_attribute message with
    | inr text => Raised text w3
    | inl stored_message =>
      let item :=
        share_item share_id file_id user_id recipient_user_id
                   recipient_email permissions timestamp stored_message
                   expires_at in
      match share_serialize_error item with
      | Some text => Raised text w3
      | None =>
        if put_share_refused env item then
          Next (fail b w3
                  (failed_entry recipient_email "Failed to create share"))
        else
          Next
            (mkBatch
               (set_shares w3 (put_item Share.key key2_eqb item (shares w3)))
               (successful_shares b ++
                  [JObj [("shareId", JStr share_id);
                         ("email", JStr recipient_email);
                         ("sharedAt", JStamp timestamp);
                         ("expiresAt", or_null expires_at);
                         ("status", JStr "active")]])
               (failed_shares b))
      end
    end.

(** The body of [for recipient in recipients:].  Only the [ClientError] of
    [put_item] is caught in it; what else a pass raises leaves the loop. *)
Definition share_with (env : Env) (file_id user_id user_email : string)
                      (message : json) (expires_at : option json)
                      (b : batch) (recipient : json) : outcome :=
  let w := world b in
  match recipient with
  | JObj _ =>
    match email recipient with
    | None => Next (fail b w missing_email)
    | Some recipient_email =>
      if negb (json_truthy recipient_email) then
        Next (fail b w missing_email)
      else
        match recipient_email with
        | JStr address =>
            if orb (negb (contains "@" address))
                   (negb (contains "." address)) then
              Next (fail b w (failed_entry address "Invalid email format"))
            else if (lower address =? lower user_email)%string then
              Next (fail b w
                      (failed_entry address "Cannot share with yourself"))
            else
              share_with_address env file_id user_id message expires_at b
                                 address (permissions recipient)
        | JArr _ | JObj _ =>
            if orb (negb (member "@" recipient_email))
                   (negb (member "." recipient_email)) then
              Next (fail b w (failure recipient_email "Invalid email format"))
            else Raised (no_attribute recipient_email "lower") w
        | _ => Raised (not_iterable recipient_email) w
        end
    end
  | _ => Raised (no_attribute recipient "get") w
  end.

(** The loop: the passes one after the other, up to the first that
    raises. *)
Fixpoint share_all (step : batch -> json -> outcome) (recipients : list json)
                   (b : batch) : outcome :=
  match recipients with
  | [] => Next b
  | recipient :: rest =>
      match step b recipient with
      | Next b' => share_all step rest b'
      | Raised text w => Raised text w
      end
  end.

(** The response of a batch. *)
Definition share_result (b : batch) : json :=
  JObj [("success", JBool true);
        ("shared", JArr (successful_shares b));
        ("failed", JArr (failed_shares b));
        ("totalShared", JNum (Z.of_nat (List.length (successful_shares b))));
        ("totalFailed", JNum (Z.of_nat (List.length (failed_shares b))))].

(** [handle_share_file]. *)
Definition handle_share_file (env : Env) (event : share_event)
                             (user_id user_email user_name : string)
                             (w : World) : response * World :=
  if negb (present (fileId event)) then
    (create_response 400 (error_body "Bad Request" "File ID is required"), w)
  else
    let file_id := match fileId event with Some f => f | None => "" end in
    match body event with
    | None => (internal_error no_body, w)
    | Some (NotJson _) =>
        (create_response 400
           (error_body "Bad Request" "Invalid JSON in request body"), w)
    | Some (JsonText (JObj fields)) =>
      let recipients :=
        match field "recipients" fields with Some v => v | None => JArr [] end
      in
      let message :=
        match field "message" fields with Some m => m | None => JStr "" end in
      let expires_at := field "expiresAt" fields in
      if negb (json_truthy recipients) then
        (create_response 400
           (error_body "Bad Request" "At least one recipient is required"), w)
      else
      match len recipients with
      | None => (internal_error (no_len recipients), w)
      | Some n =>
      if (n =? 0)%nat then
        (create_response 400
           (error_body "Bad Request" "At least one recipient is required"), w)
      else if (50 <? n)%nat then
        (create_response 400
           (error_body "Bad Request"
                       "Cannot share with more than 50 users at once"), w)
      else
        match files_by_id file_id w with
        | [] =>
            (create_response 404 (error_body "Not Found" "File not found"), w)
        | file_item :: _ =>
          if negb (FileItem.userId file_item =? user_id)%string then
            (create_response 403
               (error_body "Forbidden" "You can only share files you own"), w)
          else if negb (FileItem.status file_item =? "active")%string then
            (create_response 400
               (error_body "Bad Request" "Cannot share inactive file"), w)
          else
            match
              share_all
                (share_with env file_id user_id user_email message
                            expires_at)
                (elements recipients) (mkBatch w [] [])
            with
            | Next b => (create_response 200 (share_result b), world b)
            | Raised text w' => (internal_error text, w')
            end
        end
      end
    | Some (JsonText v) => (internal_error (no_attribute v "get"), w)
    end.

(** *** Listing the shares of a file *)

Definition formatted_share (share : Share.t) : json :=
  JObj ([("shareId", JStr (Share.shareId share));
         ("sharedWith",
          JObj [("userId", JStr (Share.sharedWithUserId share));
                ("email", JStr (Share.sharedWithEmail share))]);
         ("sharedAt", JStamp (Share.sharedAt share));
         ("permissions", Share.permissions share);
         ("status", JStr (Share.status share));
         ("accessCount", JNum (Share.accessCount share))]
        ++ match Share.expiresAt share with
           | Some e => [("expiresAt", e)]
           | None => []
           end
        ++ match Share.lastAccessedAt share with
           | Some t => [("lastAccessedAt", JStamp t)]
           | None => []
           end).

(** The expiry test of the listings:
    [datetime.utcnow().replace(tzinfo=expiry.tzinfo) > expiry], for a share
    that has [expiresAt].  Both sides carry the [tzinfo] of the expiry, so
    the comparison is between the date that the clock spells in UTC and the
    date that the expiry spells, whatever its offset. *)
Definition expired (env : Env) (share : Share.t) (w : World)
  : (bool + string) * World :=
  match Share.expiresAt share with
  | None => (inl false, w)
  | Some e =>
      match expiry_of e with
      | inr text => (inr text, w)
      | inl expiry =>
          let (now, w') := utcnow env w in (inl (now >? expiry), w')
      end
  end.

(** The loop of [handle_list_shares] over the shares of the file. *)
Fixpoint active_shares_loop (env : Env) (l : list Share.t) (w : World)
                            (active_shares : list json)
  : (list json + string) * World :=
  match l with
  | [] => (inl active_shares, w)
  | share :: rest =>
      if negb (Share.status share =? "active")%string then
        active_shares_loop env rest w active_shares
      else
        match expired env share w with
        | (inr text, w') => (inr text, w')
        | (inl true, w') => active_shares_loop env rest w' active_shares
        | (inl false, w') =>
            active_shares_loop env rest w'
                               (active_shares ++ [formatted_share share])
        end
  end.

(** [handle_list_shares]. *)
Definition handle_list_shares (env : Env) (file_id : option string)
                              (user_id : string) (w : World)
  : response * World :=
  if negb (present file_id) then
    (create_response 400 (error_body "Bad Request" "File ID is required"), w)
  else
    let file_id := match file_id with Some f => f | None => "" end in
    match files_by_id file_id w with
    | [] => (create_response 404 (error_body "Not Found" "File not found"), w)
    | file_item :: _ =>
      if negb (FileItem.userId file_item =? user_id)%string then
        (create_response 403
           (error_body "Forbidden"
                       "You can only view shares for files you own"), w)
      else
        match active_shares_loop env (shares_of_file file_id w) w [] with
        | (inr text, w') => (internal_error text, w')
        | (inl active_shares, w') =>
            match FileItem.filename file_item with
            | None => (internal_error "'filename'", w')
            | Some filename =>
                (create_response 200
                   (JObj [("fileId", JStr file_id);
                          ("filename", JStr filename);
                          ("shares", JArr active_shares);
                          ("total",
                           JNum (Z.of_nat (List.length active_shares)))]),
                 w')
            end
        end
    end.

(** *** Revoking a share *)

(** [shares_table.query(IndexName="ShareIdIndex", ...)["Items"]]. *)
Definition shares_by_id (share_id : string) (w : World) : list Share.t :=
  filter (fun s => (Share.shareId s =? share_id)%string) (shares w).

(** [SET #status = :status, revokedAt = :timestamp]. *)
Definition revoked (timestamp : Z) (s : Share.t) : Share.t :=
  Share.mk (Share.shareId s) (Share.fileId s) (Share.ownerId s)
           (Share.sharedWithUserId s) (Share.sharedWithEmail s)
           (Share.permissions s) (Share.sharedAt s) "revoked"
           (Share.accessCount s) (Share.message s) (Share.expiresAt s)
           (Share.ttl s) (Share.lastAccessedAt s) (Some timestamp)
           (Share.ownerEmail s).

Definition revoke_ok (share_id : string) : response :=
  create_response 200
    (JObj [("success", JBool true);
           ("message", JStr "Share access revoked");
           ("shareId", JStr share_id)]).

(** [handle_revoke_share]. *)
Definition handle_revoke_share (env : Env) (file_id share_id : option string)
                               (user_id : string) (w : World)
  : response * World :=
  if orb (negb (present file_id)) (negb (present share_id)) then
    (create_response 400
       (error_body "Bad Request" "File ID and Share ID are required"), w)
  else
    let file_id := match file_id with Some f => f | None => "" end in
    let share_id := match share_id with Some s => s | None => "" end in
    match files_by_id file_id w with
    | [] => (create_response 404 (error_body "Not Found" "File not found"), w)
    | file_item :: _ =>
      if negb (FileItem.userId file_item =? user_id)%string then
        (create_response 403
           (error_body "Forbidden"
                       "You can only revoke shares for files you own"), w)
      else
        match shares_by_id share_id w with
        | [] =>
            (create_response 404 (error_body "Not Found" "Share not found"),
             w)
        | share :: _ =>
          if negb (Share.fileId share =? file_id)%string then
            (create_response 400
               (error_body "Bad Request"
                           "Share does not belong to this file"), w)
          else
            let (timestamp, w1) := utcnow env w in
            (revoke_ok share_id,
             set_shares w1
               (update_item Share.key key2_eqb
                  (file_id, Share.sharedWithUserId share)
                  (revoked timestamp) (shares w1)))
        end
    end.

(** *** Files shared with the caller *)

(** The entry of [shared_files] for a share and its file; a missing
    attribute of the file is a [KeyError]. *)
Definition shared_file (share : Share.t) (file_item : FileItem.t)
  : json + string :=
  match FileItem.filename file_item with
  | None => inr "'filename'"
  | Some filename =>
    match FileItem.fileSize file_item with
    | None => inr "'fileSize'"
    | Some file_size =>
      match FileItem.contentType file_item with
      | None => inr "'contentType'"
      | Some content_type =>
          inl (JObj ([("fileId", JStr (FileItem.fileId file_item));
                      ("filename", JStr filename);
                      ("fileSize", JNum file_size);
                      ("contentType", JStr content_type);
                      ("sharedBy",
                       JObj [("userId", JStr (Share.ownerId share));
                             ("email",
                              JStr match Share.ownerEmail share with
                                   | Some e => e
                                   | None => ""
                                   end)]);
                      ("sharedAt", JStamp (Share.sharedAt share));
                      ("permissions", Share.permissions share)]
                     ++ match Share.expiresAt share with
                        | Some e => [("expiresAt", e)]
                        | None => []
                        end
                     ++ match Share.message share with
                        | Some m => [("message", m)]
                        | None => []
                        end))
      end
    end
  end.

(** The loop of [handle_shared_with_me] over the page of shares. *)
Fixpoint shared_files_loop (env : Env) (l : list Share.t) (w : World)
                           (shared_files : list json)
  : (list json + string) * World :=
  match l with
  | [] => (inl shared_files, w)
  | share :: rest =>
      if negb (Share.status share =? "active")%string then
        shared_files_loop env rest w shared_files
      else
        match expired env share w with
        | (inr text, w') => (inr text, w')
        | (inl true, w') => shared_files_loop env rest w' shared_files
        | (inl false, w') =>
            match files_by_id (Share.fileId share) w' with
            | [] => shared_files_loop env rest w' shared_files
            | file_item :: _ =>
                match shared_file share file_item with
                | inr text => (inr text, w')
                | inl entry =>
                    shared_files_loop env rest w' (shared_files ++ [entry])
                end
            end
        end
  end.

(** [handle_shared_with_me]. *)
Definition handle_shared_with_me (env : Env) (q : page_query)
                                 (user_id : string) (w : World)
  : response * World :=
  match page_limit 20 q with
  | inr text => (internal_error text, w)
  | inl limit =>
    let matching :=
      filter (fun s => (Share.sharedWithUserId s =? user_id)%string)
             (shares w) in
    match query_page (page_shares env) matching limit (start_key q) with
    | inr text => (internal_error text, w)
    | inl (page, last_key) =>
        match shared_files_loop env page w [] with
        | (inr text, w') => (internal_error text, w')
        | (inl shared_files, w') =>
            (create_response 200
               (JObj [("files", JArr shared_files);
                      ("total", JNum (Z.of_nat (List.length shared_files)));
                      ("nextToken", new_next_token last_key)]),
             w')
        end
    end
  end.

(** *** The entry point *)

(** The event of the sharing Lambda. *)
Record event : Type := mkEvent {
  caller : claims;
  httpMethod : string;
  path : string;
  path_fileId : option string;
  path_shareId : option string;
  query : page_query;
  request_body : option json_text
}.

(** [lambda_handler]: the route is read off the method and the path. *)
Definition lambda_handler (env : Env) (e : event) (w : World)
  : response * World :=
  let user_id := sub (caller e) in
  let user_email := claim_email (caller e) in
  let user_name := name_of (caller e) in
  if andb (httpMethod e =? "POST")%string (contains "/share" (path e)) then
    handle_share_file env (mkShareEvent (path_fileId e) (request_body e))
                      user_id user_email user_name w
  else if andb (httpMethod e =? "GET")%string (contains "/shares" (path e))
  then handle_list_shares env (path_fileId e) user_id w
  else if andb (httpMethod e =? "DELETE")%string
               (contains "/shares/" (path e))
  then handle_revoke_share env (path_fileId e) (path_shareId e) user_id w
  else if andb (httpMethod e =? "GET")%string
               (contains "shared-with-me" (path e))
  then handle_shared_with_me env (query e) user_id w
  else (invalid_request, w).

End share_file.

(** ** submit_assignment.py *)

Module submit_assignment.

(** The event of a submit request: the assignment id of the path and
    [event["body"]], which is [None] when the request has no body. *)
Record submit_event : Type := mkSubmitEvent {
  assignmentId : option string;
  body : option json_text
}.

(** [assignments_table.query(IndexName="AssignmentIdIndex", ...)["Items"]]. *)
Definition assignments_by_id (assignment_id : string) (w : World)
  : list Assignment.t :=
  filter (fun a => (Assignment.assignmentId a =? assignment_id)%string)
         (assignments w).

(** The query on the submissions table by its partition key. *)
Definition submissions_of (assignment_id : string) (w : World)
  : list Submission.t :=
  filter (fun s => (Submission.assignmentId s =? assignment_id)%string)
         (submissions w).

(** The same query with [FilterExpression=Attr("studentId").eq(user_id)]. *)
Definition existing_submissions (assignment_id user_id : string) (w : World)
  : list Submission.t :=
  filter (fun s => (Submission.studentId s =? user_id)%string)
         (submissions_of assignment_id w).

(** [assignment.get("maxSubmissions", 1)]. *)
Definition max_submissions (a : Assignment.t) : Z :=
  match Assignment.maxSubmissions a with
  | Some m => m
  | None => 1
  end.

(** [SET submissionCount = submissionCount + :inc]. *)
Definition count_submission (a : Assignment.t) : Assignment.t :=
  Assignment.mk (Assignment.courseId a) (Assignment.assignmentId a)
                (Assignment.instructorId a) (Assignment.instructorEmail a)
                (Assignment.title a) (Assignment.dueDate a)
                (Assignment.status a) (Assignment.allowedFileTypes a)
                (Assignment.maxFileSize a) (Assignment.maxSubmissions a)
                (Assignment.submissionCount a + 1).

Definition limit_reached (max : Z) : response :=
  create_response 403
    (error_body "Forbidden"
       ("Maximum submission limit reached (" ++ str_int max ++ ")")%string).

(** [str(e)] of the [ClientError] of a [put_item] whose item lacks the sort
    key of the table, and of a request whose key does not match the schema
    of the table. *)
Definition missing_key : string :=
  "An error occurred (ValidationException) when calling the PutItem operation: One or more parameter values were invalid: Missing the key studentId#submissionNumber in the item".

Definition key_mismatch (operation : string) : string :=
  ("An error occurred (ValidationException) when calling the " ++ operation
     ++ " operation: The provided key element does not match the schema")
  %string.

(** [str(e)] when [get_item] is given, as the file id of the key, a value
    that is no text: the client refuses to serialise it, or the store
    refuses the key. *)
Definition file_key_error (v : json) : string :=
  match serialize_error v with
  | Some text => text
  | None => key_mismatch "GetItem"
  end.

(** [if comments: submission_item["comments"] = comments[:1000]]. *)
Definition comments_attribute (comments : json) : option json + string :=
  if json_truthy comments then
    match slice 1000 comments with
    | Some c => inl (Some c)
    | None => inr (not_subscriptable comments)
    end
  else inl None.

(** The item written for a submission; [comments] is the attribute made of
    the comments of the request. *)
Definition submission_item (submission_id assignment_id user_id user_email
                            user_name file_id filename : string)
                           (file_size timestamp submission_number : Z)
                           (is_late : bool) (due_date : iso_text)
                           (comments : option json) : Submission.t :=
  Submission.mk submission_id assignment_id user_id user_email user_name
                file_id filename file_size timestamp submission_number
                "submitted" is_late due_date comments
                None None None None None None None.

Definition created (submission_id assignment_id file_id filename user_id
                    user_email user_name : string)
                   (timestamp submission_number : Z) (is_late : bool)
                   (comments : json) : response :=
  create_response 201
    (JObj [("submissionId", JStr submission_id);
           ("assignmentId", JStr assignment_id);
           ("fileId", JStr file_id);
           ("filename", JStr filename);
           ("student",
            JObj [("userId", JStr user_id);
                  ("email", JStr user_email);
                  ("name", JStr user_name)]);
           ("submittedAt", JStamp timestamp);
           ("submissionNumber", JNum submission_number);
           ("status", JStr "submitted");
           ("isLate", JBool is_late);
           ("comments", comments)]).

(** [handle_submit_assignment]. *)
Definition handle_submit_assignment (env : Env) (event : submit_event)
                                    (user_id user_email user_name : string)
                                    (w : World) : response * World :=
  if negb (present (assignmentId event)) then
    (create_response 400
       (error_body "Bad Request" "Assignment ID is required"), w)
  else
  let assignment_id :=
    match assignmentId event with Some a => a | None => "" end in
  match body event with
  | None => (internal_error no_body, w)
  | Some (NotJson _) =>
      (create_response 400
         (error_body "Bad Request" "Invalid JSON in request body"), w)
  | Some (JsonText (JObj fields)) =>
  let file_id := field "fileId" fields in
  let comments :=
    match field "comments" fields with Some c => c | None => JStr "" end in
  if negb (given file_id) then
    (create_response 400 (error_body "Bad Request" "File ID is required"), w)
  else
  match assignments_by_id assignment_id w with
  | [] =>
      (create_response 404 (error_body "Not Found" "Assignment not found"), w)
  | assignment :: _ =>
  if negb (Assignment.status assignment =? "active")%string then
    (create_response 400
       (error_body "Bad Request"
          ("Assignment is not active (status: "
             ++ Assignment.status assignment ++ ")")%string), w)
  else
  match fromisoformat (Assignment.dueDate assignment) with
  | None =>
      (internal_error (isoformat_error (Assignment.dueDate assignment)), w)
  | Some due_date =>
  let (now, w1) := utcnow env w in
  let is_late := now >? due_date in
  match or_null file_id with
  | JStr file_id =>
  match get_item FileItem.key key2_eqb (user_id, file_id) (files w1) with
  | None =>
      (create_response 404
         (error_body "Not Found" "File not found or you don't have access"),
       w1)
  | Some file_item =>
  if negb (FileItem.status file_item =? "active")%string then
    (create_response 400
       (error_body "Bad Request"
                   "File is not active and cannot be submitted"), w1)
  else
  match
    match Assignment.allowedFileTypes assignment with
    | None => inl None
    | Some allowed =>
        match FileItem.contentType file_item with
        | None => inr "'contentType'"
        | Some content_type =>
            if negb (mem_string content_type allowed)
            then inl (Some (content_type, allowed)) else inl None
        end
    end
  with
  | inr text => (internal_error text, w1)
  | inl (Some (content_type, allowed)) =>
      (create_response 400
         (JObj [("error", JStr "Bad Request");
                ("message",
                 JStr ("File type " ++ content_type
                         ++ " is not allowed for this assignment")%string);
                ("allowedTypes", JArr (map JStr allowed))]), w1)
  | inl None =>
  match
    match Assignment.maxFileSize assignment with
    | None => inl None
    | Some max_size =>
        match FileItem.fileSize file_item with
        | None => inr "'fileSize'"
        | Some file_size =>
            if file_size >? max_size then inl (Some max_size) else inl None
        end
    end
  with
  | inr text => (internal_error text, w1)
  | inl (Some max_size) =>
      (create_response 400
         (JObj [("error", JStr "Payload Too Large");
                ("message", JStr "File size exceeds maximum allowed size");
                ("maxSize", JNum max_size)]), w1)
  | inl None =>
  let submission_count :=
    Z.of_nat (List.length (existing_submissions assignment_id user_id w1)) in
  if submission_count >=? max_submissions assignment then
    (limit_reached (max_submissions assignment), w1)
  else
  let (submission_id, w2) := uuid4 env w1 in
  let (timestamp, w3) := utcnow env w2 in
  let submission_number := submission_count + 1 in
  match FileItem.filename file_item with
  | None => (internal_error "'filename'", w3)
  | Some filename =>
  match FileItem.fileSize file_item with
  | None => (internal_error "'fileSize'", w3)
  | Some file_size =>
  match comments_attribute comments with
  | inr text => (internal_error text, w3)
  | inl stored_comments =>
  let item :=
    submission_item submission_id assignment_id user_id user_email user_name
                    file_id filename file_size timestamp submission_number
                    is_late (Assignment.dueDate assignment) stored_comments in
  match opt_serialize_error stored_comments with
  | Some text => (internal_error text, w3)
  | None =>
  match submissions_sort_key env with
  | Submission.StudentAndNumber => (internal_error missing_key, w3)
  | Submission.Attribute _ =>
  let w4 :=
    set_submissions w3
      (put_item (Submission.key (submissions_sort_key env)) key2_eqb item
                (submissions w3)) in
  let w5 :=
    set_assignments w4
      (update_item Assignment.key key2_eqb
         (Assignment.courseId assignment, assignment_id)
         count_submission (assignments w4)) in
  (created submission_id assignment_id file_id filename user_id user_email
           user_name timestamp submission_number is_late comments, w5)
  end end end end end end end end
  | v => (internal_error (file_key_error v), w1)
  end end end
  | Some (JsonText v) => (internal_error (no_attribute v "get"), w)
  end.

(** *** Listing and grading *)

(** ["instructor" in role.lower() or "admin" in role.lower()]. *)
Definition is_instructor (user_role : string) : bool :=
  orb (contains "instructor" (lower user_role))
      (contains "admin" (lower user_role)).

Definition optional_field {A : Type} (name : string) (f : A -> json)
                          (o : option A) : list (string * json) :=
  match o with
  | Some a => [(name, f a)]
  | None => []
  end.

(** [format_submission]. *)
Definition format_submission (submission : Submission.t) : json :=
  JObj ([("submissionId", JStr (Submission.submissionId submission));
         ("student",
          JObj [("userId", JStr (Submission.studentId submission));
                ("email", JStr (Submission.studentEmail submission));
                ("name", JStr (Submission.studentName submission))]);
         ("fileId", JStr (Submission.fileId submission));
         ("filename", JStr (Submission.filename submission));
         ("fileSize", JNum (Submission.fileSize submission));
         ("submittedAt", JStamp (Submission.submittedAt submission));
         ("submissionNumber", JNum (Submission.submissionNumber submission));
         ("status", JStr (Submission.status submission));
         ("isLate", JBool (Submission.isLate submission))]
        ++ optional_field "comments" (fun c => c)
                          (Submission.comments submission)
        ++ match Submission.grade submission with
           | Some g =>
               [("grade", JFloat g);
                ("maxGrade",
                 JFloat match Submission.maxGrade submission with
                        | Some m => m
                        | None => Int 100
                        end)]
           | None => []
           end
        ++ optional_field "feedback" (fun f => f)
                          (Submission.feedback submission)
        ++ optional_field "feedbackFileId" (fun f => f)
                          (Submission.feedbackFileId submission)
        ++ match Submission.gradedAt submission with
           | Some t =>
               [("gradedAt", JStamp t);
                ("gradedBy",
                 JObj [("userId",
                        opt_json JStr (Submission.gradedBy submission));
                       ("name",
                        opt_json JStr (Submission.gradedByName submission))])]
           | None => []
           end).

(** The query string of [GET /assignments/{assignmentId}/submissions]. *)
Record list_query : Type := mkListQuery {
  status : option string;
  paging : page_query
}.

Definition count (p : Submission.t -> bool) (l : list Submission.t) : json :=
  JNum (Z.of_nat (List.length (filter p l))).

(** The [statistics] block, over every submission of the assignment. *)
Definition statistics (all_submissions : list Submission.t) : json :=
  JObj [("totalSubmissions", count (fun _ => true) all_submissions);
        ("onTime", count (fun s => negb (Submission.isLate s)) all_submissions);
        ("late", count Submission.isLate all_submissions);
        ("graded",
         count (fun s => (Submission.status s =? "graded")%string)
               all_submissions);
        ("pending",
         count (fun s => (Submission.status s =? "submitted")%string)
               all_submissions)].

(** [handle_list_submissions]. *)
Definition handle_list_submissions (env : Env) (assignment_id : option string)
                                   (q : list_query)
                                   (user_id user_role : string) (w : World)
  : response * World :=
  if negb (is_instructor user_role) then
    (create_response 403
       (error_body "Forbidden" "Only instructors can view all submissions"),
     w)
  else if negb (present assignment_id) then
    (create_response 400
       (error_body "Bad Request" "Assignment ID is required"), w)
  else
  let assignment_id :=
    match assignment_id with Some a => a | None => "" end in
  match page_limit 50 (paging q) with
  | inr text => (internal_error text, w)
  | inl limit =>
  match assignments_by_id assignment_id w with
  | [] =>
      (create_response 404 (error_body "Not Found" "Assignment not found"), w)
  | assignment :: _ =>
  if negb (Assignment.instructorId assignment =? user_id)%string then
    (create_response 403
       (error_body "Forbidden"
          "You can only view submissions for your own assignments"), w)
  else
  match query_page (page_submissions env) (submissions_of assignment_id w)
                   limit (start_key (paging q)) with
  | inr text => (internal_error text, w)
  | inl (page, last_key) =>
      let submissions :=
        match status q with
        | Some status_filter =>
            if truthy status_filter then
              filter (fun s => (Submission.status s =? status_filter)%string)
                     page
            else page
        | None => page
        end in
      let formatted_submissions := map format_submission submissions in
      (create_response 200
         (JObj [("assignmentId", JStr assignment_id);
                ("assignmentTitle", JStr (Assignment.title assignment));
                ("submissions", JArr formatted_submissions);
                ("total",
                 JNum (Z.of_nat (List.length formatted_submissions)));
                ("statistics", statistics (submissions_of assignment_id w));
                ("nextToken", new_next_token last_key)]), w)
  end end end.

(** The event of a grading request: the ids of the path and
    [event["body"]]. *)
Record grade_event : Type := mkGradeEvent {
  g_assignmentId : option string;
  g_submissionId : option string;
  g_body : option json_text
}.

(** [submissions_table.query(IndexName="SubmissionIdIndex", ...)["Items"]]. *)
Definition submissions_by_id (submission_id : string) (w : World)
  : list Submission.t :=
  filter (fun s => (Submission.submissionId s =? submission_id)%string)
         (submissions w).

(** [str(e)] of the [InvalidOperation] that [Decimal] raises on a text
    that spells no number. *)
Definition invalid_operation : string :=
  "[<class 'decimal.ConversionSyntax'>]".

(** [Decimal(str(v))]: the integer, the decimal that [str] writes for a
    float, the number that a string spells; [str] of a value of another kind
    ([None], [True], a list, a dictionary) spells no number. *)
Definition decimal (env : Env) (v : json) : option number :=
  match v with
  | JNum n => Some n
  | JStr s => decimal_of_text env s
  | _ => None
  end.

(** The update expression of [handle_grade_submission]; [feedback] is
    [feedback[:2000]]. *)
Definition graded (grade max_grade : number) (feedback : json)
                  (timestamp : Z) (user_id user_name : string)
                  (feedback_file_id : option json) (s : Submission.t)
  : Submission.t :=
  Submission.mk (Submission.submissionId s) (Submission.assignmentId s)
                (Submission.studentId s) (Submission.studentEmail s)
                (Submission.studentName s) (Submission.fileId s)
                (Submission.filename s) (Submission.fileSize s)
                (Submission.submittedAt s) (Submission.submissionNumber s)
                "graded" (Submission.isLate s) (Submission.dueDate s)
                (Submission.comments s)
                (Some grade) (Some max_grade)
                (Some feedback) (Some timestamp)
                (Some user_id) (Some user_name)
                (if given feedback_file_id then feedback_file_id
                 else Submission.feedbackFileId s).

(** The exception on which the serialisation of the values of the update
    ends, if any. *)
Definition grade_serialize_error (grade max_grade : number)
                                 (feedback : json)
                                 (feedback_file_id : option json)
  : option string :=
  if negb (decimal_storable grade) then Some inexact_error
  else if negb (decimal_storable max_grade) then Some inexact_error
  else
    match serialize_error feedback with
    | Some text => Some text
    | None =>
        if given feedback_file_id then opt_serialize_error feedback_file_id
        else None
    end.

(** The answer to a grading: [float(grade)], [float(max_grade)] and the
    feedback as the request gave it. *)
Definition graded_ok (submission_id : string) (grade max_grade : number)
                     (feedback : json) (timestamp : Z)
                     (user_id user_name : string) : response :=
  create_response 200
    (JObj [("success", JBool true);
           ("submission",
            JObj [("submissionId", JStr submission_id);
                  ("grade", JFloat grade);
                  ("maxGrade", JFloat max_grade);
                  ("feedback", feedback);
                  ("gradedAt", JStamp timestamp);
                  ("gradedBy",
                   JObj [("userId", JStr user_id);
                         ("name", JStr user_name)]);
                  ("status", JStr "graded")])]).

(** [handle_grade_submission]. *)
Definition handle_grade_submission (env : Env) (event : grade_event)
                                   (user_id user_role user_name : string)
                                   (w : World) : response * World :=
  if negb (is_instructor user_role) then
    (create_response 403
       (error_body "Forbidden" "Only instructors can grade submissions"), w)
  else if orb (negb (present (g_assignmentId event)))
              (negb (present (g_submissionId event))) then
    (create_response 400
       (error_body "Bad Request"
                   "Assignment ID and Submission ID are required"), w)
  else
  let assignment_id :=
    match g_assignmentId event with Some a => a | None => "" end in
  let submission_id :=
    match g_submissionId event with Some s => s | None => "" end in
  match g_body event with
  | None => (internal_error no_body, w)
  | Some (NotJson _) =>
      (create_response 400
         (error_body "Bad Request" "Invalid JSON in request body"), w)
  | Some (JsonText (JObj fields)) =>
  let grade := or_null (field "grade" fields) in
  let max_grade :=
    match field "maxGrade" fields with Some m => m | None => JNum 100 end in
  let feedback :=
    match field "feedback" fields with Some f => f | None => JStr "" end in
  let feedback_file_id := field "feedbackFileId" fields in
  match grade with
  | JNull =>
      (create_response 400 (error_body "Bad Request" "Grade is required"), w)
  | _ =>
  match assignments_by_id assignment_id w with
  | [] =>
      (create_response 404 (error_body "Not Found" "Assignment not found"), w)
  | assignment :: _ =>
  if negb (Assignment.instructorId assignment =? user_id)%string then
    (create_response 403
       (error_body "Forbidden"
          "You can only grade submissions for your own assignments"), w)
  else
  match submissions_by_id submission_id w with
  | [] =>
      (create_response 404 (error_body "Not Found" "Submission not found"), w)
  | submission :: _ =>
  if negb (Submission.assignmentId submission =? assignment_id)%string then
    (create_response 400
       (error_body "Bad Request"
                   "Submission does not belong to this assignment"), w)
  else
  let (timestamp, w1) := utcnow env w in
  match decimal env grade with
  | None => (internal_error invalid_operation, w1)
  | Some grade_value =>
  match decimal env max_grade with
  | None => (internal_error invalid_operation, w1)
  | Some max_grade_value =>
  match slice 2000 feedback with
  | None => (internal_error (not_subscriptable feedback), w1)
  | Some stored_feedback =>
  match grade_serialize_error grade_value max_grade_value stored_feedback
                              feedback_file_id with
  | Some text => (internal_error text, w1)
  | None =>
  match submissions_sort_key env with
  | Submission.Attribute _ => (internal_error (key_mismatch "UpdateItem"), w1)
  | Submission.StudentAndNumber =>
  (graded_ok submission_id grade_value max_grade_value feedback timestamp
             user_id user_name,
   set_submissions w1
     (update_item (Submission.key Submission.StudentAndNumber) key2_eqb
        (assignment_id,
         (Submission.studentId submission ++ "#"
            ++ str_int (Submission.submissionNumber submission))%string)
        (graded grade_value max_grade_value stored_feedback timestamp user_id
                user_name feedback_file_id)
        (submissions w1)))
  end end end end end end end end
  | Some (JsonText v) => (internal_error (no_attribute v "get"), w)
  end.

(** *** The submissions of the caller *)

(** [handle_get_my_submissions]. *)
Definition handle_get_my_submissions (assignment_id : option string)
                                     (user_id : string) (w : World)
  : response * World :=
  if negb (present assignment_id) then
    (create_response 400
       (error_body "Bad Request" "Assignment ID is required"), w)
  else
    let assignment_id :=
      match assignment_id with Some a => a | None => "" end in
    let submissions := existing_submissions assignment_id user_id w in
    let formatted_submissions := map format_submission submissions in
    (create_response 200
       (JObj [("assignmentId", JStr assignment_id);
              ("submissions", JArr formatted_submissions);
              ("total",
               JNum (Z.of_nat (List.length formatted_submissions)))]), w).

(** *** The entry point *)

Record event : Type := mkEvent {
  caller : claims;
  httpMethod : string;
  path : string;
  path_assignmentId : option string;
  path_submissionId : option string;
  query : list_query;
  body_json : option json_text
}.

(** [lambda_handler]. *)
Definition lambda_handler (env : Env) (e : event) (w : World)
  : response * World :=
  let user_id := sub (caller e) in
  let user_email := claim_email (caller e) in
  let user_name := name_of (caller e) in
  let user_role := role_of (caller e) in
  if andb (httpMethod e =? "POST")%string (endswith "/submit" (path e)) then
    handle_submit_assignment
      env (mkSubmitEvent (path_assignmentId e) (body_json e))
      user_id user_email user_name w
  else if andb (httpMethod e =? "GET")%string
               (andb (contains "/submissions" (path e))
                     (endswith "/me" (path e)))
  then handle_get_my_submissions (path_assignmentId e) user_id w
  else if andb (httpMethod e =? "GET")%string
               (contains "/submissions" (path e))
  then handle_list_submissions env (path_assignmentId e) (query e) user_id
                               user_role w
  else if andb (httpMethod e =? "PUT")%string (contains "/grade" (path e))
  then handle_grade_submission
         env
         (mkGradeEvent (path_assignmentId e) (path_submissionId e)
                       (body_json e))
         user_id user_role user_name w
  else (invalid_request, w).

End submit_assignment.

(** ** complete_upload.py *)

Module complete_upload.

(** The body of the complete-upload request. *)
Record complete_body : Type := mkCompleteBody {
  uploadSuccess : bool;
  s3Key : option string;
  checksum : option string
}.

Record complete_event : Type := mkCompleteEvent {
  fileId : option string;
  body : option complete_body
}.

Definition quote : ascii := ascii_of_nat 34.

Fixpoint lstrip_quotes (s : string) : string :=
  match s with
  | EmptyString => EmptyString
  | String c s' => if Ascii.eqb c quote then lstrip_quotes s' else s
  end.

Fixpoint rstrip_quotes (s : string) : string :=
  match s with
  | EmptyString => EmptyString
  | String c s' =>
      let r := rstrip_quotes s' in
      if andb (Ascii.eqb c quote) (negb (truthy r)) then EmptyString
      else String c r
  end.

(** The [ETag] of the response without the double quotes at its ends, or
    the empty string when there is none. *)
Definition s3_etag (o : S3Object.t) : string :=
  match S3Object.ETag o with
  | Some e => rstrip_quotes (lstrip_quotes e)
  | None => ""
  end.

(** [s3_client.head_object(Bucket=S3_BUCKET, Key=s3_key)]. *)
Definition head_object (s3_key : string) (w : World) : option S3Object.t :=
  find (fun o => (S3Object.Key o =? s3_key)%string) (bucket w).

(** [format_file_response]; a missing attribute is a [KeyError]. *)
Definition format_file_response (file_item : FileItem.t) (user_email : string)
  : json + string :=
  match FileItem.filename file_item with
  | None => inr "'filename'"
  | Some filename =>
  match FileItem.fileSize file_item with
  | None => inr "'fileSize'"
  | Some file_size =>
  match FileItem.contentType file_item with
  | None => inr "'contentType'"
  | Some content_type =>
  match FileItem.uploadedAt file_item with
  | None => inr "'uploadedAt'"
  | Some uploaded_at =>
  match FileItem.s3Key file_item with
  | None => inr "'s3Key'"
  | Some s3_key =>
      inl (JObj
        [("fileId", JStr (FileItem.fileId file_item));
         ("filename", JStr filename);
         ("fileSize", JNum file_size);
         ("contentType", JStr content_type);
         ("uploadedAt", JStamp uploaded_at);
         ("lastModified",
          JStamp match FileItem.lastModified file_item with
                 | Some t => t
                 | None => uploaded_at
                 end);
         ("status", JStr (FileItem.status file_item));
         ("s3Key", JStr s3_key);
         ("owner",
          JObj [("userId", JStr (FileItem.userId file_item));
                ("email", JStr user_email)]);
         ("description",
          match FileItem.description file_item with
          | Some d => d
          | None => JStr ""
          end);
         ("tags",
          match FileItem.tags file_item with
          | Some l => l
          | None => JArr []
          end);
         ("metadata",
          match FileItem.metadata file_item with
          | Some m => m
          | None => JObj []
          end);
         ("downloadCount",
          JNum match FileItem.downloadCount file_item with
               | Some n => n
               | None => 0
               end);
         ("checksum", opt_json JStr (FileItem.checksum file_item));
         ("virusScanStatus",
          JStr match FileItem.virusScanStatus file_item with
               | Some v => v
               | None => "pending"
               end)])
  end end end end end.

(** What [except KeyError as e] answers. *)
Definition missing_field (text : string) : response :=
  create_response 400
    (error_body "Bad Request" ("Missing required field: " ++ text)%string).

(** [SET #status = :status, lastModified = :timestamp] with the status
    [failed]. *)
Definition marked_failed (timestamp : Z) (f : FileItem.t) : FileItem.t :=
  FileItem.mk (FileItem.userId f) (FileItem.fileId f) "failed"
              (Some timestamp) (FileItem.filename f) (FileItem.fileSize f)
              (FileItem.contentType f) (FileItem.s3Key f)
              (FileItem.uploadedAt f) (FileItem.checksum f)
              (FileItem.virusScanStatus f) (FileItem.description f)
              (FileItem.tags f) (FileItem.metadata f)
              (FileItem.downloadCount f).

(** [handle_failed_upload]. *)
Definition handle_failed_upload (env : Env) (user_id file_id : string)
                                (w : World) : response * World :=
  let (timestamp, w1) := utcnow env w in
  (create_response 200
     (JObj [("success", JBool false);
            ("message", JStr "Upload marked as failed");
            ("fileId", JStr file_id)]),
   set_files w1
     (upsert_item FileItem.key key2_eqb (user_id, file_id)
        (marked_failed timestamp) (FileItem.stub (user_id, file_id))
        (files w1))).

(** The update expression of a completed upload. *)
Definition completed (timestamp actual_file_size : Z)
                     (checksum : option string) (etag : string)
                     (f : FileItem.t) : FileItem.t :=
  FileItem.mk (FileItem.userId f) (FileItem.fileId f) "active"
              (Some timestamp) (FileItem.filename f)
              (if actual_file_size =?
                  match FileItem.fileSize f with Some n => n | None => 0 end
               then FileItem.fileSize f else Some actual_file_size)
              (FileItem.contentType f) (FileItem.s3Key f)
              (FileItem.uploadedAt f)
              (if present checksum then checksum
               else if truthy etag then Some etag
               else FileItem.checksum f)
              (Some "pending") (FileItem.description f)
              (FileItem.tags f) (FileItem.metadata f)
              (FileItem.downloadCount f).

Definition completed_response (message : string) (file_item : FileItem.t)
                              (user_email : string) : response :=
  match format_file_response file_item user_email with
  | inr text => missing_field text
  | inl file =>
      create_response 200
        (JObj [("success", JBool true);
               ("message", JStr message);
               ("file", file)])
  end.

(** [lambda_handler]. *)
Definition lambda_handler (env : Env) (event : complete_event)
                          (user_id user_email : string) (w : World)
  : response * World :=
  if negb (present (fileId event)) then
    (create_response 400 (error_body "Bad Request" "File ID is required"), w)
  else
  let file_id := match fileId event with Some f => f | None => "" end in
  match body event with
  | None =>
      (create_response 400
         (error_body "Bad Request" "Invalid JSON in request body"), w)
  | Some body =>
  if negb (uploadSuccess body) then handle_failed_upload env user_id file_id w
  else if negb (present (s3Key body)) then
    (create_response 400 (error_body "Bad Request" "S3 key is required"), w)
  else
  let s3_key := match s3Key body with Some k => k | None => "" end in
  match get_item FileItem.key key2_eqb (user_id, file_id) (files w) with
  | None => (create_response 404 (error_body "Not Found" "File not found"), w)
  | Some file_item =>
  if negb (FileItem.userId file_item =? user_id)%string then
    (create_response 403
       (error_body "Forbidden" "File does not belong to user"), w)
  else if (FileItem.status file_item =? "active")%string then
    (completed_response "File already completed" file_item user_email, w)
  else
  match head_object s3_key w with
  | None =>
      (create_response 404
         (error_body "Not Found"
                     "File not found in S3. Upload may have failed."), w)
  | Some s3_response =>
  let (timestamp, w1) := utcnow env w in
  let w2 :=
    set_files w1
      (update_item FileItem.key key2_eqb (user_id, file_id)
         (completed timestamp (S3Object.ContentLength s3_response)
                    (checksum body) (s3_etag s3_response))
         (files w1)) in
  match get_item FileItem.key key2_eqb (user_id, file_id) (files w2) with
  | None => (missing_field "'Item'", w2)
  | Some updated_file =>
      (completed_response "Upload completed successfully" updated_file
                          user_email, w2)
  end end end end.

End complete_upload.

(** ** generate_presigned_url.py *)

Module generate_presigned_url.

(** The settings read from the environment.  [max_file_size_mb] is the text
    of the float [MAX_FILE_SIZE / 1024 / 1024]. *)
Record Config : Type := mkConfig {
  S3_BUCKET : string;
  UPLOAD_URL_EXPIRATION : Z;
  DOWNLOAD_URL_EXPIRATION : Z;
  MAX_FILE_SIZE : Z;
  max_file_size_mb : string
}.

(** The defaults of the module. *)
Definition default_config : Config :=
  mkConfig "campus-cloud-files-bucket" 300 900 104857600 "100.0".

(** The storage client: what it signs is its own business. *)
Record Signer : Type := mkSigner {
  (* bucket, key, content type, file name, user id, file id, upper bound of
     the content length, expiry: the url and the fields of the form *)
  generate_presigned_post :
    string -> string -> string -> string -> string -> string -> Z -> Z ->
    string * json;
  (* bucket, key, content disposition, content type, expiry *)
  generate_presigned_url :
    string -> string -> string -> string -> Z -> string
}.

Definition ALLOWED_CONTENT_TYPES : list string :=
  [ "application/pdf";
    "application/msword";
    "application/vnd.openxmlformats-officedocument.wordprocessingml.document";
    "application/vnd.ms-excel";
    "application/vnd.openxmlformats-officedocument.spreadsheetml.sheet";
    "application/vnd.ms-powerpoint";
    "application/vnd.openxmlformats-officedocument.presentationml.presentation";
    "text/plain";
    "text/csv";
    "image/jpeg";
    "image/png";
    "image/gif";
    "application/zip";
    "application/x-zip-compressed";
    "video/mp4";
    "video/mpeg" ].

(** [check_file_share_access]: an exception (an expiry that is no text or
    does not parse) is logged and answered [False].  The expiry test is that
    of the listings, on the dates as they are spelt. *)
Definition check_file_share_access (env : Env) (file_id user_id : string)
                                   (w : World) : bool * World :=
  match get_item Share.key key2_eqb (file_id, user_id) (shares w) with
  | None => (false, w)
  | Some share =>
      if negb (Share.status share =? "active")%string then (false, w)
      else
        match Share.expiresAt share with
        | None => (true, w)
        | Some e =>
            match expiry_of e with
            | inr _ => (false, w)
            | inl expiry =>
                let (now, w') := utcnow env w in
                (negb (now >? expiry), w')
            end
        end
  end.

(** [SET downloadCount = downloadCount + :inc]. *)
Definition count_download (f : FileItem.t) : FileItem.t :=
  FileItem.mk (FileItem.userId f) (FileItem.fileId f) (FileItem.status f)
              (FileItem.lastModified f) (FileItem.filename f)
              (FileItem.fileSize f) (FileItem.contentType f)
              (FileItem.s3Key f) (FileItem.uploadedAt f)
              (FileItem.checksum f) (FileItem.virusScanStatus f)
              (FileItem.description f) (FileItem.tags f)
              (FileItem.metadata f)
              (option_map (fun n => n + 1) (FileItem.downloadCount f)).

(** [str(e)] when the store refuses to add to an attribute that the item
    does not have. *)
Definition no_such_attribute : string :=
  "An error occurred (ValidationException) when calling the UpdateItem operation: The provided expression refers to an attribute that does not exist in the item".

Definition content_disposition (filename : string) : string :=
  ("attachment; filename=" ++ String (ascii_of_nat 34) filename
     ++ String (ascii_of_nat 34) "")%string.

(** [handle_download_url]. *)
Definition handle_download_url (cfg : Config) (signer : Signer) (env : Env)
                               (file_id : option string) (user_id : string)
                               (w : World) : response * World :=
  if negb (present file_id) then
    (create_response 400 (error_body "Bad Request" "File ID is required"), w)
  else
  let file_id := match file_id with Some f => f | None => "" end in
  match files_by_id file_id w with
  | [] => (create_response 404 (error_body "Not Found" "File not found"), w)
  | file_item :: _ =>
  let (has_access, w1) :=
    if (FileItem.userId file_item =? user_id)%string then (true, w)
    else check_file_share_access env file_id user_id w in
  if negb has_access then
    (create_response 403
       (error_body "Forbidden" "You do not have access to this file"), w1)
  else if negb (FileItem.status file_item =? "active")%string then
    (create_response 400
       (error_body "Bad Request"
          ("File is not available (status: " ++ FileItem.status file_item
             ++ ")")%string), w1)
  else
  match FileItem.s3Key file_item with
  | None => (internal_error "'s3Key'", w1)
  | Some s3_key =>
  match FileItem.filename file_item with
  | None => (internal_error "'filename'", w1)
  | Some filename =>
  match FileItem.contentType file_item with
  | None => (internal_error "'contentType'", w1)
  | Some content_type =>
  let download_url :=
    generate_presigned_url signer (S3_BUCKET cfg) s3_key
                           (content_disposition filename) content_type
                           (DOWNLOAD_URL_EXPIRATION cfg) in
  match FileItem.downloadCount file_item with
  | None => (internal_error no_such_attribute, w1)
  | Some _ =>
  let w2 :=
    set_files w1
      (update_item FileItem.key key2_eqb
         (FileItem.userId file_item, file_id) count_download (files w1)) in
  match FileItem.fileSize file_item with
  | None => (internal_error "'fileSize'", w2)
  | Some file_size =>
      (create_response 200
         (JObj [("downloadUrl", JStr download_url);
                ("filename", JStr filename);
                ("contentType", JStr content_type);
                ("fileSize", JNum file_size);
                ("expiresIn", JNum (DOWNLOAD_URL_EXPIRATION cfg))]), w2)
  end end end end end end.

(** The body of [POST /upload-url], for the requests of the interface: a
    JSON object whose [filename] and [contentType], when it has them, are
    texts, and whose [fileSize], when it has one, is a number.  [metadata]
    is the value under that key, of whatever kind. *)
Record upload_body : Type := mkUploadBody {
  filename : option string;
  contentType : option string;
  fileSize : option number;
  metadata : option json
}.

(** [event["body"]] of an upload request: a text that [json.loads] reads as
    an object, or as a value of another kind, or does not read, or
    nothing. *)
Inductive upload_request : Type :=
| Object (b : upload_body)
| NotAnObject (v : json)
| Unreadable (raw : string)
| NoBody.

Definition missing_field (text : string) : response :=
  create_response 400
    (error_body "Bad Request" ("Missing required field: " ++ text)%string).

(** [str(e)] of the [TypeError] of [body["filename"]] on a body that is no
    object. *)
Definition no_item_access (v : json) : string :=
  match v with
  | JArr _ => "list indices must be integers or slices, not str"
  | JStr _ => "string indices must be integers, not 'str'"
  | _ => ("'" ++ type_name v ++ "' object is not subscriptable")%string
  end.

(** [file_size <= bound], on an integer and on a float. *)
Definition number_leb (n : number) (bound : Z) : bool :=
  match n with
  | Int z => z <=? bound
  | Float c e =>
      if 0 <=? e then c * 10 ^ e <=? bound else c <=? bound * 10 ^ (- e)
  end.

(** [validate_upload_request]: the error dictionary, or [None]. *)
Definition validate_upload_request (cfg : Config) (filename content_type
                                    : string) (file_size : number)
  : option json :=
  if orb (negb (truthy filename)) (255 <? String.length filename)%nat then
    Some (error_body "Bad Request"
                     "Filename must be between 1 and 255 characters")
  else if negb (mem_string content_type ALLOWED_CONTENT_TYPES) then
    Some (JObj [("error", JStr "Bad Request");
                ("message",
                 JStr ("Content type " ++ content_type
                         ++ " is not allowed")%string);
                ("allowedTypes", JArr (map JStr ALLOWED_CONTENT_TYPES))])
  else if number_leb file_size 0 then
    Some (error_body "Bad Request" "File size must be greater than 0")
  else if negb (number_leb file_size (MAX_FILE_SIZE cfg)) then
    Some (JObj [("error", JStr "Payload Too Large");
                ("message",
                 JStr ("File size exceeds maximum allowed size of "
                         ++ str_int (MAX_FILE_SIZE cfg) ++ " bytes ("
                         ++ max_file_size_mb cfg ++ "MB)")%string);
                ("maxSize", JNum (MAX_FILE_SIZE cfg))])
  else None.

(** [body.get("metadata", {})]. *)
Definition metadata_of (body : upload_body) : json :=
  match metadata body with
  | Some m => m
  | None => JObj []
  end.

(** The item of a pending upload; [description] and [tags] are what
    [metadata.get] gave.  The attributes [s3Bucket] and [isPublic] of the
    source item are read by no handler and have no field in
    [FileItem.t]. *)
Definition pending_file (user_id file_id filename : string) (file_size : Z)
                        (content_type s3_key : string) (timestamp : Z)
                        (description tags metadata : json) : FileItem.t :=
  FileItem.mk user_id file_id "pending" (Some timestamp) (Some filename)
              (Some file_size) (Some content_type) (Some s3_key)
              (Some timestamp) None None
              (Some description) (Some tags) (Some metadata) (Some 0).

(** [str(e)] of a [ClientError] of [put_item]. *)
Definition put_refused : string :=
  "An error occurred (ValidationException) when calling the PutItem operation".

(** [handle_upload_url].  Its own handlers catch [JSONDecodeError] and
    [KeyError]; any other exception is answered by [lambda_handler], with
    the 500 of [internal_error]. *)
Definition handle_upload_url (cfg : Config) (signer : Signer) (env : Env)
                             (body : upload_request) (user_id : string)
                             (w : World) : response * World :=
  match body with
  | NoBody => (internal_error no_body, w)
  | Unreadable _ =>
      (create_response 400
         (error_body "Bad Request" "Invalid JSON in request body"), w)
  | NotAnObject v => (internal_error (no_item_access v), w)
  | Object body =>
  match filename body with
  | None => (missing_field "'filename'", w)
  | Some filename =>
  match contentType body with
  | None => (missing_field "'contentType'", w)
  | Some content_type =>
  match fileSize body with
  | None => (missing_field "'fileSize'", w)
  | Some file_size =>
  match validate_upload_request cfg filename content_type file_size with
  | Some validation_error => (create_response 400 validation_error, w)
  | None =>
  let (file_id, w1) := uuid4 env w in
  let s3_key := ("users/" ++ user_id ++ "/files/" ++ file_id)%string in
  let (timestamp, w2) := utcnow env w1 in
  match metadata_of body with
  | JObj fields =>
  let description :=
    match field "description" fields with Some d => d | None => JStr "" end in
  let tags :=
    match field "tags" fields with Some t => t | None => JArr [] end in
  match file_size with
  | Float _ _ => (internal_error float_error, w2)
  | Int size =>
  match serialize_error (JArr [JNum size; description; tags; JObj fields]) with
  | Some text => (internal_error text, w2)
  | None =>
  let item :=
    pending_file user_id file_id filename size content_type s3_key
                 timestamp description tags (JObj fields) in
  if put_file_refused env item then (internal_error put_refused, w2)
  else
  let presigned_post :=
    generate_presigned_post signer (S3_BUCKET cfg) s3_key content_type
                            filename user_id file_id (size + 1000)
                            (UPLOAD_URL_EXPIRATION cfg) in
  (create_response 200
     (JObj [("fileId", JStr file_id);
            ("uploadUrl", JStr (fst presigned_post));
            ("uploadFields", snd presigned_post);
            ("expiresIn", JNum (UPLOAD_URL_EXPIRATION cfg));
            ("uploadMethod", JStr "POST");
            ("s3Key", JStr s3_key)]),
   set_files w2 (put_item FileItem.key key2_eqb item (files w2)))
  end end
  | v => (internal_error (no_attribute v "get"), w2)
  end end end end end
  end.

End generate_presigned_url.

(** ** list_files.py *)

Module list_files.

(** [get_share_count]: the [Count] of the query on the shares of the file
    with [FilterExpression=Attr("status").eq("active")]. *)
Definition get_share_count (file_id : string) (w : World) : Z :=
  Z.of_nat
    (List.length
       (filter (fun s => (Share.status s =? "active")%string)
               (shares_of_file file_id w))).

End list_files.

(** * Vocabulary of the properties *)

(** ** Sample data

    A small world used to run the handlers on concrete requests. *)

Module Sample.

(** A clock that starts at 1000, a store that takes every item, a
    submissions table keyed by the submission id. *)
Definition env : Env :=
  {| utcnow_at := fun n => 1000 + Z.of_nat n;
     uuid4_at := fun n => ("id-" ++ str_int (Z.of_nat n))%string;
     put_share_refused := fun _ => false;
     put_file_refused := fun _ => false;
     submissions_sort_key := Submission.Attribute Submission.submissionId;
     decimal_of_text := fun s => if (s =? "85")%string then Some (Int 85)
                                 else None;
     page_shares := fun items limit _ =>
       inl (firstn (Z.to_nat limit) items, None);
     page_submissions := fun items limit _ =>
       inl (firstn (Z.to_nat limit) items, None) |}.

(** The same with a submissions table keyed as the grading addresses it. *)
Definition grading_env : Env :=
  {| utcnow_at := utcnow_at env;
     uuid4_at := uuid4_at env;
     put_share_refused := put_share_refused env;
     put_file_refused := put_file_refused env;
     submissions_sort_key := Submission.StudentAndNumber;
     decimal_of_text := decimal_of_text env;
     page_shares := page_shares env;
     page_submissions := page_submissions env |}.

Definition alice : User.t := User.mk "u-alice" "alice@campus.edu".
Definition bob : User.t := User.mk "u-bob" "bob@campus.edu".

Definition report (status : string) : FileItem.t :=
  FileItem.mk "u-alice" "f-report" status (Some 10) (Some "report.pdf")
              (Some 2048) (Some "application/pdf")
              (Some "users/u-alice/files/f-report") (Some 10) None
              (Some "pending") None None None None.

(** A share of the report with bob. *)
Definition share_with_bob (status : string) (expires_at : option json)
                          (revoked_at : option Z) : Share.t :=
  Share.mk "s-1" "f-report" "u-alice" "u-bob" "bob@campus.edu" (JStr "read")
           20 status 0 None expires_at None None revoked_at None.

(** A date in UTC: the date spelt is the instant. *)
Definition utc (wall : Z) : json := JIso (Iso wall (wall / 1000000)).

Definition essay : Assignment.t :=
  Assignment.mk "c-101" "a-essay" "u-carol" "carol@campus.edu" "Essay"
                (Iso 5000 0) "active" (Some ["application/pdf"]) (Some 4096)
                (Some 2) 0.

(** The first submission of alice for the essay, as stored once carol has
    graded it. *)
Definition graded_essay : Submission.t :=
  Submission.mk "sub-1" "a-essay" "u-alice" "alice@campus.edu" "Alice"
                "f-report" "report.pdf" 2048 900 1 "graded" false
                (Iso 5000 0) None (Some (Int 50)) (Some (Int 100))
                (Some (JStr "ok")) (Some 950) (Some "u-carol") (Some "Carol")
                None.

(** Submissions that are not alice's for the essay: one of bob for the
    essay, and one of alice for a quiz. *)
Definition other_submissions : list Submission.t :=
  [ Submission.mk "sub-7" "a-essay" "u-bob" "bob@campus.edu" "Bob"
                  "f-draft" "draft.pdf" 1024 800 1 "submitted" false
                  (Iso 5000 0) None None None None None None None None;
    Submission.mk "sub-8" "a-quiz" "u-alice" "alice@campus.edu" "Alice"
                  "f-report" "report.pdf" 2048 850 1 "submitted" false
                  (Iso 9000 0) None None None None None None None None ].

Definition world (file_status : string) (shares : list Share.t)
                 (submissions : list Submission.t) : World :=
  {| files := [report file_status];
     shares := shares;
     users := [alice; bob];
     assignments := [essay];
     submissions := submissions;
     bucket := [S3Object.mk "users/u-alice/files/f-report" 2048 None];
     ticks := 0;
     draws := 0 |}.

End Sample.

(** ** Sample requests of the upload and download handlers *)

Module Example.

(** A file of alice with every attribute that an upload stores. *)
Definition notes (status : string) : FileItem.t :=
  FileItem.mk "u-alice" "f-notes" status (Some 10) (Some "notes.pdf")
              (Some 2048) (Some "application/pdf")
              (Some "users/u-alice/files/f-notes") (Some 10) None
              (Some "pending") (Some (JStr "")) (Some (JArr []))
              (Some (JObj [])) (Some 3).

(** A share of the notes with bob. *)
Definition share_of_notes (status : string) (expires_at : option json)
  : Share.t :=
  Share.mk "s-9" "f-notes" "u-alice" "u-bob" "bob@campus.edu" (JStr "read")
           20 status 0 None expires_at None None None None.

Definition world (file_status : string) (shares : list Share.t) : World :=
  {| files := [notes file_status];
     shares := shares;
     users := [Sample.alice; Sample.bob];
     assignments := [Sample.essay];
     submissions := [];
     bucket := [S3Object.mk "users/u-alice/files/f-notes" 2048 None;
                S3Object.mk "users/u-alice/files/id-0" 4096
                            (Some "0123abcd")];
     ticks := 0;
     draws := 0 |}.

Definition signer : generate_presigned_url.Signer :=
  generate_presigned_url.mkSigner
    (fun bucket key _ _ _ _ _ _ =>
       (("https://" ++ bucket)%string, JObj [("key", JStr key)]))
    (fun bucket key _ _ _ => ("https://" ++ bucket ++ "/" ++ key)%string).

Definition to_bob : json := JObj [("email", JStr "bob@campus.edu")].

Definition to_dave : json := JObj [("email", JStr "dave@campus.edu")].

(** The body of an upload request for a PDF of 4096 bytes. *)
Definition upload : generate_presigned_url.upload_request :=
  generate_presigned_url.Object
    (generate_presigned_url.mkUploadBody
       (Some "essay.pdf") (Some "application/pdf") (Some (Int 4096)) None).

End Example.

(** ** Requests *)

(** The client of the store serialises [v]. *)
Definition storable (v : json) : bool :=
  match serialize_error v with
  | None => true
  | Some _ => false
  end.

(** The body of a share request: an object with these recipients and, when
    given, this message and this expiry. *)
Definition share_request (recipients : list json) (message expires_at
                          : option json) : json_text :=
  JsonText
    (JObj (("recipients", JArr recipients)
           :: match message with Some m => [("message", m)] | None => [] end
           ++ match expires_at with
              | Some e => [("expiresAt", e)]
              | None => []
              end)).

(** [body.get("message", "")]. *)
Definition message_of (message : option json) : json :=
  match message with
  | Some m => m
  | None => JStr ""
  end.

(** A recipient on which a pass of the loop raises nothing: an object whose
    email, when it has one, is a text or a value that counts as none
    ([null], [false], 0, an empty list or object), and whose permissions
    the client of the store serialises. *)
Definition regular_recipient (r : json) : bool :=
  match r with
  | JObj _ =>
      andb match share_file.email r with
           | None => true
           | Some (JStr _) => true
           | Some v => negb (json_truthy v)
           end
           (storable (share_file.permissions r))
  | _ => false
  end.

(** A message and an expiry on which a pass raises nothing: the message is
    absent or empty, or a text or a list (which has a prefix) that the
    client of the store serialises, and so is the expiry when it is
    given. *)
Definition regular_message (message : json) : bool :=
  match share_file.message_attribute message with
  | inl (Some m) => storable m
  | inl None => true
  | inr _ => false
  end.

Definition regular_expiry (expires_at : option json) : bool :=
  if given expires_at then storable (or_null expires_at) else true.

(** The outcome of the loop on the first [k] recipients of a share
    request. *)
Definition batch_after (env : Env) (file_id user_id user_email : string)
                       (message : json) (expires_at : option json)
                       (recipients : list json) (w : World) (k : nat)
  : share_file.outcome :=
  share_file.share_all
    (share_file.share_with env file_id user_id user_email message expires_at)
    (firstn k recipients) (share_file.mkBatch w [] []).

(** The world that a pass, or the loop, leaves. *)
Definition world_of (o : share_file.outcome) : World :=
  match o with
  | share_file.Next b => share_file.world b
  | share_file.Raised _ w => w
  end.

(** The batch that a pass hands on to the next; after a pass that raised,
    the world it left with nothing shared. *)
Definition batch_of (o : share_file.outcome) : share_file.batch :=
  match o with
  | share_file.Next b => b
  | share_file.Raised _ w => share_file.mkBatch w [] []
  end.

(** The shares that the loop of [handle_list_shares] keeps. *)
Fixpoint kept_shares (env : Env) (l : list Share.t) (w : World)
  : list Share.t :=
  match l with
  | [] => []
  | share :: rest =>
      if negb (Share.status share =? "active")%string then
        kept_shares env rest w
      else
        match share_file.expired env share w with
        | (inr _, _) => []
        | (inl true, w') => kept_shares env rest w'
        | (inl false, w') => share :: kept_shares env rest w'
        end
  end.

(** The file passes the type check of the assignment. *)
Definition type_allowed (a : Assignment.t) (f : FileItem.t) : bool :=
  match Assignment.allowedFileTypes a with
  | None => true
  | Some allowed =>
      match FileItem.contentType f with
      | Some content_type => mem_string content_type allowed
      | None => false
      end
  end.

(** The file passes the size check of the assignment. *)
Definition size_allowed (a : Assignment.t) (f : FileItem.t) : bool :=
  match Assignment.maxFileSize a with
  | None => true
  | Some max_size =>
      match FileItem.fileSize f with
      | Some file_size => negb (file_size >? max_size)
      | None => false
      end
  end.

(** The body of a submit request for the file [file_id], with these
    comments when there are any. *)
Definition submit_request (file_id : string) (comments : option string)
  : json_text :=
  JsonText
    (JObj (("fileId", JStr file_id)
           :: match comments with
              | Some c => [("comments", JStr c)]
              | None => []
              end)).

(** The request gets as far as the count of the submissions: ids given,
    assignment found and active with a due date that parses, file found
    under the caller and active, of an allowed type and size, with the name
    and size that the submission copies. *)
Definition submittable (assignment_id user_id file_id : string) (w : World)
                       (a : Assignment.t) (f : FileItem.t) : Prop :=
  truthy assignment_id = true
  /\ truthy file_id = true
  /\ (exists others,
         submit_assignment.assignments_by_id assignment_id w = a :: others)
  /\ Assignment.status a = "active"
  /\ (exists d, fromisoformat (Assignment.dueDate a) = Some d)
  /\ get_item FileItem.key key2_eqb (user_id, file_id) (files w) = Some f
  /\ FileItem.status f = "active"
  /\ type_allowed a f = true
  /\ size_allowed a f = true
  /\ (exists filename, FileItem.filename f = Some filename)
  /\ (exists file_size, FileItem.fileSize f = Some file_size).

(** The number of stored submissions of the student [user_id] for the
    assignment [assignment_id]: the items of the table that carry both
    ids. *)
Definition submission_count (assignment_id user_id : string) (w : World)
  : Z :=
  Z.of_nat
    (List.length
       (filter (fun s =>
                  andb (Submission.assignmentId s =? assignment_id)%string
                       (Submission.studentId s =? user_id)%string)
               (submissions w))).

Definition due (a : Assignment.t) : Z :=
  match fromisoformat (Assignment.dueDate a) with Some d => d | None => 0 end.

(** The item that an accepted request writes. *)
Definition new_submission (env : Env)
                          (assignment_id user_id user_email user_name
                           file_id : string)
                          (comments : option string) (w : World)
                          (a : Assignment.t) (f : FileItem.t)
  : Submission.t :=
  submit_assignment.submission_item
    (uuid4_at env (draws w)) assignment_id user_id user_email user_name
    file_id
    match FileItem.filename f with Some n => n | None => "" end
    match FileItem.fileSize f with Some n => n | None => 0 end
    (utcnow_at env (S (ticks w)))
    (submission_count assignment_id user_id w + 1)
    (utcnow_at env (ticks w) >? due a) (Assignment.dueDate a)
    match comments with
    | Some c => if truthy c then Some (JStr (prefix_of 1000 c)) else None
    | None => None
    end.

(** The world that an accepted request leaves. *)
Definition submitted_world (env : Env)
                           (assignment_id user_id user_email user_name
                            file_id : string)
                           (comments : option string) (w : World)
                           (a : Assignment.t) (f : FileItem.t)
  : World :=
  mkWorld (files w) (shares w) (users w)
          (update_item Assignment.key key2_eqb
             (Assignment.courseId a, assignment_id)
             submit_assignment.count_submission
             (assignments w))
          (put_item (Submission.key (submissions_sort_key env)) key2_eqb
                    (new_submission env assignment_id user_id user_email
                                    user_name file_id comments w a f)
                    (submissions w))
          (bucket w) (S (S (ticks w))) (S (draws w)).

(** The table holds nothing under the key of the item: putting it adds an
    item and replaces none. *)
Definition key_is_new (env : Env) (item : Submission.t) (w : World) : Prop :=
  get_item (Submission.key (submissions_sort_key env)) key2_eqb
           (Submission.key (submissions_sort_key env) item) (submissions w)
  = None.

(** The grading request gets as far as the update: the caller has an
    instructor role and is the instructor of the assignment, and the
    submission found under the id belongs to the assignment and is the item
    that the table, keyed as the grading addresses it, holds under its
    key. *)
Definition gradable (assignment_id submission_id user_id user_role : string)
                    (w : World) (a : Assignment.t) (s : Submission.t)
  : Prop :=
  submit_assignment.is_instructor user_role = true
  /\ truthy assignment_id = true
  /\ truthy submission_id = true
  /\ (exists others,
         submit_assignment.assignments_by_id assignment_id w = a :: others)
  /\ Assignment.instructorId a = user_id
  /\ (exists others,
         submit_assignment.submissions_by_id submission_id w = s :: others)
  /\ Submission.assignmentId s = assignment_id
  /\ get_item (Submission.key Submission.StudentAndNumber) key2_eqb
              (Submission.key Submission.StudentAndNumber s) (submissions w)
     = Some s.

(** The values of a grading request that the handler can store: the grade
    is a number, or a text that spells one, and so is the maximum grade
    (100 when the request has none); the feedback (empty when the request
    has none) is a text or a list, of which [fb] is the first 2000
    characters or items; the [Decimal]s [g] and [m] are within the limits
    of the store, and neither the feedback nor the feedback file id holds a
    float or an integer of more than 38 digits. *)
Definition grading (env : Env) (fields : list (string * json))
                   (g m : number) (fb : json) : Prop :=
  submit_assignment.decimal env (or_null (field "grade" fields)) = Some g
  /\ submit_assignment.decimal
       env match field "maxGrade" fields with
           | Some x => x
           | None => JNum 100
           end = Some m
  /\ slice 2000 match field "feedback" fields with
                | Some x => x
                | None => JStr ""
                end = Some fb
  /\ decimal_storable g = true
  /\ decimal_storable m = true
  /\ storable fb = true
  /\ (given (field "feedbackFileId" fields) = true ->
      storable (or_null (field "feedbackFileId" fields)) = true).

(** A share as a request of [owner] with address [owner_email] creates it
    in a world whose registered users are [registered]: the recipient
    address has an [@] and a dot and is not the address of the owner, the
    grantee is the registered user of that address or a placeholder, and
    the share starts [active], never accessed. *)
Definition created_share (registered : list User.t)
                         (file_id owner owner_email : string) (s : Share.t)
  : Prop :=
  Share.fileId s = file_id
  /\ Share.ownerId s = owner
  /\ Share.status s = "active"
  /\ Share.accessCount s = 0
  /\ Share.revokedAt s = None
  /\ contains "@" (Share.sharedWithEmail s) = true
  /\ contains "." (Share.sharedWithEmail s) = true
  /\ lower (Share.sharedWithEmail s) <> lower owner_email
  /\ match find (fun u => (User.email u =? lower (Share.sharedWithEmail s))
                           %string) registered with
     | Some u => Share.sharedWithUserId s = User.userId u
     | None =>
         exists id, Share.sharedWithUserId s = ("pending-" ++ id)%string
     end.

(** The share has no expiry, or its expiry spells a date that no reading of
    the clock exceeds. *)
Definition never_expires (env : Env) (s : Share.t) : Prop :=
  match Share.expiresAt s with
  | None => True
  | Some e => exists t, expiry_of e = inl t /\ forall n, utcnow_at env n <= t
  end.

(** The expiry of a share request that leaves the share open at the
    reading [now] of the clock: none, one that counts as none, or a text
    that spells a date not before [now]. *)
Definition open_at (now : Z) (expires_at : option json) : Prop :=
  given expires_at = false
  \/ exists t, expiry_of (or_null expires_at) = inl t /\ now <= t.

(** The item that [handle_upload_url] puts for the caller [user_id] in the
    world [w], for a request with this name, content type, size and
    metadata: the identifier is the next one drawn and the date the next
    reading of the clock. *)
Definition upload_item (env : Env) (user_id : string) (w : World)
                       (name content_type : string) (size : Z)
                       (fields : list (string * json)) : FileItem.t :=
  let file_id := uuid4_at env (draws w) in
  generate_presigned_url.pending_file
    user_id file_id name size content_type
    ("users/" ++ user_id ++ "/files/" ++ file_id)%string
    (utcnow_at env (ticks w))
    match field "description" fields with Some d => d | None => JStr "" end
    match field "tags" fields with Some t => t | None => JArr [] end
    (JObj fields).

(** An upload request that [handle_upload_url] grants to the caller
    [user_id] in the world [w]: a JSON object with a name of 1 to 255
    characters, one of the allowed content types, a size that is an integer
    above 0 and not above the maximum, and no metadata or metadata that is
    an object holding neither a float nor an integer of more than 38
    digits; and the store takes the item. *)
Definition uploadable (cfg : generate_presigned_url.Config) (env : Env)
                      (body : generate_presigned_url.upload_request)
                      (user_id : string) (w : World)
                      (name content_type : string) (size : Z) : Prop :=
  exists b fields,
    body = generate_presigned_url.Object b
    /\ generate_presigned_url.filename b = Some name
    /\ generate_presigned_url.contentType b = Some content_type
    /\ generate_presigned_url.fileSize b = Some (Int size)
    /\ name <> ""
    /\ (String.length name <= 255)%nat
    /\ In content_type generate_presigned_url.ALLOWED_CONTENT_TYPES
    /\ 0 < size <= generate_presigned_url.MAX_FILE_SIZE cfg
    /\ generate_presigned_url.metadata_of b = JObj fields
    /\ storable (JArr [JNum size; JObj fields]) = true
    /\ put_file_refused
         env (upload_item env user_id w name content_type size fields)
       = false.

(** An upload request that [handle_upload_url] turns down as the client's
    error: a body that is no JSON, an object without one of the three
    fields, or a name, content type and size that
    [validate_upload_request] does not accept. *)
Definition refused_upload (cfg : generate_presigned_url.Config)
                          (body : generate_presigned_url.upload_request)
  : Prop :=
  match body with
  | generate_presigned_url.Unreadable _ => True
  | generate_presigned_url.Object b =>
      match generate_presigned_url.filename b,
            generate_presigned_url.contentType b,
            generate_presigned_url.fileSize b with
      | Some name, Some content_type, Some size =>
          generate_presigned_url.validate_upload_request
            cfg name content_type size <> None
      | _, _, _ => True
      end
  | _ => False
  end.

(** A submission as a submit request of [user_id] for the assignment
    [assignment_id] writes it in the world [w]: it is the caller's, not
    graded, for a file that the caller holds [active], and its number is
    within the maximum of the assignment, which is [active]. *)
Definition submitted_by (user_id : string) (assignment_id : option string)
                        (w : World) (s : Submission.t) : Prop :=
  Submission.studentId s = user_id
  /\ assignment_id = Some (Submission.assignmentId s)
  /\ Submission.status s = "submitted"
  /\ Submission.grade s = None
  /\ Submission.gradedAt s = None
  /\ Submission.gradedBy s = None
  /\ (exists f,
        get_item FileItem.key key2_eqb (user_id, Submission.fileId s)
                 (files w) = Some f
        /\ FileItem.status f = "active")
  /\ (exists a others,
        submit_assignment.assignments_by_id (Submission.assignmentId s) w
        = a :: others
        /\ Assignment.status a = "active"
        /\ 1 <= Submission.submissionNumber s
           <= submit_assignment.max_submissions a).

(** A submission as a grading request of [user_id] writes it in the world
    [w]: the caller has an instructor role and is the instructor of the
    assignment of the path, and the item is a submission of that assignment
    stored in [w], with the grade, the feedback and the status [graded] put
    in. *)
Definition graded_by (user_id user_role user_name : string)
                     (assignment_id : option string) (w : World)
                     (s : Submission.t) : Prop :=
  submit_assignment.is_instructor user_role = true
  /\ exists s0 a others grade max_grade feedback timestamp feedback_file_id,
       In s0 (submissions w)
       /\ s = submit_assignment.graded grade max_grade feedback timestamp
                                       user_id user_name feedback_file_id s0
       /\ assignment_id = Some (Submission.assignmentId s0)
       /\ submit_assignment.assignments_by_id (Submission.assignmentId s0) w
          = a :: others
       /\ Assignment.instructorId a = user_id.

(** * Properties *)

(** ** Keys and tables *)

Lemma key2_eqb_eq (a b : key2) : key2_eqb a b = true <-> a = b.
Proof.
  destruct a as [a1 a2], b as [b1 b2]; unfold key2_eqb; simpl.
  rewrite andb_true_iff, !String.eqb_eq.
  split; [intros [-> ->]; reflexivity | intros H; inversion H; auto].
Qed.


Section TableFacts.
Context {R K : Type}.
Variable key : R -> K.
Variable eqb : K -> K -> bool.
Hypothesis eqb_eq : forall a b, eqb a b = true <-> a = b.

Lemma eqb_neq (a b : K) : a <> b -> eqb a b = false.
Proof.
  intros Hne; destruct (eqb a b) eqn:E; [|reflexivity].
  apply eqb_eq in E; contradiction.
Qed.

Lemma get_item_key (k : K) (t : list R) (r : R) :
  get_item key eqb k t = Some r -> key r = k.
Proof.
  unfold get_item; intros H; apply find_some in H.
  apply eqb_eq; tauto.
Qed.

Lemma get_item_In (k : K) (t : list R) (r : R) :
  get_item key eqb k t = Some r -> In r t.
Proof. unfold get_item; intros H; apply find_some in H; tauto. Qed.

Lemma get_item_none (k : K) (t : list R) :
  get_item key eqb k t = None <-> forall r, In r t -> key r <> k.
Proof.
  unfold get_item; split.
  - intros H r Hin Hk.
    pose proof (find_none _ _ H r Hin) as Hf; simpl in Hf.
    rewrite Hk in Hf.
    assert (eqb k k = true) by (apply eqb_eq; reflexivity); congruence.
  - intros H; induction t as [|r t IH]; simpl; [reflexivity|].
    rewrite eqb_neq by (apply H; left; reflexivity).
    apply IH; intros r' Hin; apply H; right; assumption.
Qed.

Lemma get_item_app (k : K) (t : list R) (r x : R) :
  get_item key eqb k t = Some r -> get_item key eqb k (t ++ [x]) = Some r.
Proof.
  unfold get_item; induction t as [|y t IH]; simpl; [discriminate|].
  destruct (eqb (key y) k); auto.
Qed.

Lemma get_item_app_new (k : K) (t : list R) (x : R) :
  get_item key eqb k t = None ->
  get_item key eqb k (t ++ [x]) = if eqb (key x) k then Some x else None.
Proof.
  unfold get_item; induction t as [|y t IH]; simpl; [reflexivity|].
  destruct (eqb (key y) k); [discriminate | auto].
Qed.

Lemma update_item_absent (k : K) (set : R -> R) (t : list R) :
  get_item key eqb k t = None -> update_item key eqb k set t = t.
Proof.
  unfold get_item; induction t as [|y t IH]; simpl; [reflexivity|].
  destruct (eqb (key y) k); [discriminate|].
  intros H; rewrite IH by assumption; reflexivity.
Qed.

Lemma get_item_update (k : K) (set : R -> R) (t : list R) (r : R) :
  key (set r) = k ->
  get_item key eqb k t = Some r ->
  get_item key eqb k (update_item key eqb k set t) = Some (set r).
Proof.
  intros Hset; unfold get_item; induction t as [|y t IH]; simpl;
    [discriminate|].
  destruct (eqb (key y) k) eqn:E; simpl.
  - intros H; inversion H; subst y.
    assert (Hk : eqb (key (set r)) k = true) by (apply eqb_eq; exact Hset).
    rewrite Hk; reflexivity.
  - rewrite E; exact IH.
Qed.

Lemma get_item_update_other (k k' : K) (set : R -> R) (t : list R) :
  (forall r, key (set r) = key r) ->
  k' <> k ->
  get_item key eqb k' (update_item key eqb k set t) = get_item key eqb k' t.
Proof.
  intros Hset Hne; unfold get_item; induction t as [|y t IH]; simpl;
    [reflexivity|].
  destruct (eqb (key y) k) eqn:E; simpl.
  - apply eqb_eq in E.
    rewrite Hset, E, (eqb_neq k k') by congruence; reflexivity.
  - rewrite IH; reflexivity.
Qed.

Lemma update_item_map {A : Type} (f : R -> A) (k : K) (set : R -> R)
      (t : list R) :
  (forall r, f (set r) = f r) ->
  map f (update_item key eqb k set t) = map f t.
Proof.
  intros Hf; induction t as [|y t IH]; simpl; [reflexivity|].
  destruct (eqb (key y) k); simpl; [rewrite Hf | rewrite IH]; reflexivity.
Qed.

Lemma filter_update_first (p : R -> bool) (k : K) (set : R -> R)
      (t : list R) (a : R) (rest : list R) :
  (forall r, p (set r) = p r) ->
  (forall r, key r = k -> p r = true) ->
  key a = k ->
  filter p t = a :: rest ->
  filter p (update_item key eqb k set t) = set a :: rest.
Proof.
  intros Hset Hp Ha; induction t as [|y t IH]; simpl; [discriminate|].
  destruct (eqb (key y) k) eqn:E; simpl.
  - apply eqb_eq in E; rewrite Hset, (Hp y E).
    intros H; inversion H; reflexivity.
  - destruct (p y) eqn:Py; [|exact IH].
    intros H; inversion H; subst y.
    rewrite <- Ha in E.
    assert (eqb (key a) (key a) = true) by (apply eqb_eq; reflexivity).
    congruence.
Qed.

Lemma filter_update_skip (p : R -> bool) (k : K) (set : R -> R)
      (t : list R) :
  (forall r, p (set r) = p r) ->
  (forall r, key r = k -> p r = false) ->
  filter p (update_item key eqb k set t) = filter p t.
Proof.
  intros Hset Hp; induction t as [|y t IH]; simpl; [reflexivity|].
  destruct (eqb (key y) k) eqn:E; simpl.
  - apply eqb_eq in E; rewrite Hset, (Hp y E); reflexivity.
  - rewrite IH; reflexivity.
Qed.

Lemma put_item_new (r : R) (t : list R) :
  get_item key eqb (key r) t = None -> put_item key eqb r t = t ++ [r].
Proof. unfold put_item; intros ->; reflexivity. Qed.

Lemma update_item_In (k : K) (r r' : R) (t : list R) :
  get_item key eqb k t = Some r' ->
  In r (update_item key eqb k (fun _ => r) t).
Proof.
  unfold get_item; induction t as [|y t IH]; simpl; [discriminate|].
  destruct (eqb (key y) k); [left; reflexivity | right; auto].
Qed.

Lemma put_item_In (r : R) (t : list R) : In r (put_item key eqb r t).
Proof.
  unfold put_item; destruct (get_item key eqb (key r) t) eqn:E.
  - apply (update_item_In _ _ _ _ E).
  - apply in_or_app; right; left; reflexivity.
Qed.

End TableFacts.


(** ** Share creation: every recipient is accounted for *)

Lemma storable_true (v : json) :
  storable v = true <-> serialize_error v = None.
Proof.
  unfold storable; destruct (serialize_error v); split; intros H;
    try reflexivity; discriminate.
Qed.

Section ShareBatch.
Import share_file.
Variable env : Env.
Variables file_id user_id user_email : string.
Variable message : json.
Variable expires_at : option json.

Let step : batch -> json -> outcome :=
  share_with env file_id user_id user_email message expires_at.

(** What a regular request stores is serialised. *)
Lemma share_item_serializes
      (share_id grantee address : string) (p : json) (t : Z)
      (m : option json) :
  storable p = true ->
  match m with Some x => storable x = true | None => True end ->
  regular_expiry expires_at = true ->
  share_serialize_error
    (share_item share_id file_id user_id grantee address p t m expires_at)
  = None.
Proof.
  intros Hp Hm He; unfold share_serialize_error, share_item.
  cbn [Share.permissions Share.message Share.expiresAt].
  apply storable_true in Hp; rewrite Hp.
  destruct m as [x|]; cbn [opt_serialize_error].
  - apply storable_true in Hm; rewrite Hm.
    unfold regular_expiry in He.
    destruct (given expires_at); [|reflexivity].
    destruct expires_at as [e|]; [|reflexivity].
    apply storable_true in He; exact He.
  - unfold regular_expiry in He.
    destruct (given expires_at); [|reflexivity].
    destruct expires_at as [e|]; [|reflexivity].
    apply storable_true in He; exact He.
Qed.

(** A pass for a text address, with regular values: one entry is added, to
    one of the two lists, and the loop goes on. *)
Lemma share_with_address_adds_one (b : batch) (address : string) (p : json) :
  storable p = true ->
  regular_message message = true ->
  regular_expiry expires_at = true ->
  exists b',
    share_with_address env file_id user_id message expires_at b address p
    = Next b'
    /\ ((exists e, successful_shares b' = successful_shares b ++ [e]
                   /\ failed_shares b' = failed_shares b)
        \/ (exists e, failed_shares b' = failed_shares b ++ [e]
                      /\ successful_shares b' = successful_shares b)).
Proof.
  intros Hp Hm He; unfold share_with_address, fail, uuid4, utcnow.
  unfold regular_message in Hm.
  destruct (message_attribute message) as [m|text]; [|discriminate].
  assert (Hm' : match m with Some x => storable x = true | None => True end)
    by (destruct m; [exact Hm | exact I]).
  destruct (get_user_by_email address (world b)) as [u|];
    cbv beta iota zeta;
    (match goal with
     | |- context [check_existing_share ?f ?u ?w] =>
         destruct (check_existing_share f u w) as [existing|];
         [destruct (Share.status existing =? "active")%string|]
     end;
     try (eexists; split;
          [reflexivity | right; eexists; split; reflexivity]));
    (rewrite share_item_serializes; [|exact Hp | exact Hm' | exact He]);
    (destruct (put_share_refused env _);
     eexists; (split; [reflexivity|]); [right | left];
     eexists; split; reflexivity).
Qed.

(** A pass for a regular recipient. *)
Lemma share_with_adds_one (b : batch) (r : json) :
  regular_recipient r = true ->
  regular_message message = true ->
  regular_expiry expires_at = true ->
  exists b',
    step b r = Next b'
    /\ ((exists e, successful_shares b' = successful_shares b ++ [e]
                   /\ failed_shares b' = failed_shares b)
        \/ (exists e, failed_shares b' = failed_shares b ++ [e]
                      /\ successful_shares b' = successful_shares b)).
Proof.
  intros Hr Hm He; unfold step, share_with, fail.
  destruct r; try discriminate.
  unfold regular_recipient in Hr; apply andb_true_iff in Hr.
  destruct Hr as [Hemail Hp].
  destruct (email (JObj fields)) as [v|];
    [|eexists; split; [reflexivity | right; eexists; split; reflexivity]].
  destruct (json_truthy v) eqn:Hv; cbn [negb];
    [|eexists; split; [reflexivity | right; eexists; split; reflexivity]].
  destruct v; try (cbn in Hemail; discriminate Hemail).
  destruct (orb _ _);
    [eexists; split; [reflexivity | right; eexists; split; reflexivity]|].
  destruct (String.eqb _ _);
    [eexists; split; [reflexivity | right; eexists; split; reflexivity]|].
  apply share_with_address_adds_one; assumption.
Qed.

Lemma share_all_next (l : list json) (b before : batch) (k : nat) (r : json) :
  nth_error l k = Some r ->
  share_all step (firstn k l) b = Next before ->
  share_all step (firstn (S k) l) b = step before r.
Proof.
  revert b k; induction l as [|x l IH]; intros b k H.
  - destruct k; discriminate.
  - destruct k as [|k]; cbn [firstn share_all nth_error] in *.
    + inversion H; subst x; intros Hb; inversion Hb; subst before.
      destruct (step b r); reflexivity.
    + destruct (step b x) as [b'|text w']; [|discriminate].
      apply (IH b' k H).
Qed.

(** On regular recipients the loop reaches its end, with one entry for
    each. *)
Lemma share_all_regular (l : list json) (b : batch) :
  Forall (fun r => regular_recipient r = true) l ->
  regular_message message = true ->
  regular_expiry expires_at = true ->
  exists b',
    share_all step l b = Next b'
    /\ (List.length (successful_shares b') + List.length (failed_shares b')
        = List.length (successful_shares b) + List.length (failed_shares b)
          + List.length l)%nat.
Proof.
  intros Hl Hm He; revert b; induction Hl as [|r l Hr Hl IH]; intros b.
  - exists b; split; [reflexivity | cbn; lia].
  - cbn [share_all].
    destruct (share_with_adds_one b r Hr Hm He) as [b1 [-> Hone]].
    destruct (IH b1) as [b' [-> Hcount]].
    exists b'; split; [reflexivity|].
    destruct Hone as [[e [Hs Hf]] | [e [Hf Hs]]];
      rewrite Hs, Hf, ?length_app in Hcount; cbn [List.length] in *; lia.
Qed.

Lemma firstn_regular (l : list json) (k : nat) :
  Forall (fun r => regular_recipient r = true) l ->
  Forall (fun r => regular_recipient r = true) (firstn k l).
Proof.
  intros Hl; revert k; induction Hl as [|r l Hr Hl IH]; intros k.
  - destruct k; constructor.
  - destruct k as [|k]; cbn [firstn]; constructor; [exact Hr | apply IH].
Qed.

End ShareBatch.

(** What [handle_share_file] does once the file-level checks have passed,
    for a body that is an object with a list of 1 to 50 recipients. *)
Lemma share_file_loop
      (env : Env) (event : share_file.share_event)
      (user_id user_email user_name : string) (w : World)
      (file_id : string) (fields : list (string * json))
      (recipients : list json)
      (file_item : FileItem.t) (others : list FileItem.t) :
  share_file.fileId event = Some file_id ->
  truthy file_id = true ->
  share_file.body event = Some (JsonText (JObj fields)) ->
  field "recipients" fields = Some (JArr recipients) ->
  (1 <= List.length recipients <= 50)%nat ->
  files_by_id file_id w = file_item :: others ->
  FileItem.userId file_item = user_id ->
  FileItem.status file_item = "active" ->
  share_file.handle_share_file env event user_id user_email user_name w
  = match batch_after env file_id user_id user_email
                      (message_of (field "message" fields))
                      (field "expiresAt" fields) recipients w
                      (List.length recipients) with
    | share_file.Next b =>
        (create_response 200 (share_file.share_result b), share_file.world b)
    | share_file.Raised text w' => (internal_error text, w')
    end.
Proof.
  intros Hid Hfile Hbody Hrec Hlen Hfound Hown Hact.
  unfold share_file.handle_share_file, present, batch_after, message_of.
  rewrite Hid, Hfile, Hbody, Hrec; cbn [negb len elements].
  destruct recipients as [|r rest]; [cbn in Hlen; lia|].
  cbn [json_truthy negb].
  destruct (Nat.eqb_spec (List.length (r :: rest)) 0) as [E|_];
    [cbn in E; lia|].
  destruct (Nat.ltb_spec 50 (List.length (r :: rest))) as [E|_]; [lia|].
  rewrite Hfound, Hown, Hact, String.eqb_refl; cbn [negb].
  rewrite firstn_all; reflexivity.
Qed.

(** The accounting that C7 asks for, on the requests on which no pass of
    the loop raises.  A share
    request that passes the file-level checks (file id given, file found,
    owned by the caller and active, a list of 1 to 50 recipients), whose
    recipients are objects with an email that is a text or counts as none
    and with permissions that the client of the store serialises, and whose
    message and expiry are regular too, is answered 200 with the two lists
    built by the loop: every recipient, in turn, adds exactly one entry to
    [shared] or to [failed] and the loop goes on to the next one;
    [totalShared] and [totalFailed] are the lengths of the two lists and
    add up to the number of recipients. *)
Theorem share_batch_accounts_for_every_recipient
        (env : Env) (event : share_file.share_event)
        (user_id user_email user_name : string) (w : World)
        (file_id : string) (fields : list (string * json))
        (recipients : list json)
        (file_item : FileItem.t) (others : list FileItem.t) :
  share_file.fileId event = Some file_id ->
  truthy file_id = true ->
  share_file.body event = Some (JsonText (JObj fields)) ->
  field "recipients" fields = Some (JArr recipients) ->
  (1 <= List.length recipients <= 50)%nat ->
  files_by_id file_id w = file_item :: others ->
  FileItem.userId file_item = user_id ->
  FileItem.status file_item = "active" ->
  Forall (fun r => regular_recipient r = true) recipients ->
  regular_message (message_of (field "message" fields)) = true ->
  regular_expiry (field "expiresAt" fields) = true ->
  let n := List.length recipients in
  let message := message_of (field "message" fields) in
  let expires_at := field "expiresAt" fields in
  let after :=
    batch_after env file_id user_id user_email message expires_at recipients
                w in
  exists final,
    after n = share_file.Next final
    /\ share_file.handle_share_file env event user_id user_email user_name w
       = (create_response 200
            (JObj [("success", JBool true);
                   ("shared", JArr (share_file.successful_shares final));
                   ("failed", JArr (share_file.failed_shares final));
                   ("totalShared",
                    JNum (Z.of_nat
                            (List.length
                               (share_file.successful_shares final))));
                   ("totalFailed",
                    JNum (Z.of_nat
                            (List.length (share_file.failed_shares final))))]),
          share_file.world final)
    /\ (forall k r,
          nth_error recipients k = Some r ->
          exists before next,
            after k = share_file.Next before
            /\ after (S k) = share_file.Next next
            /\ share_file.share_with env file_id user_id user_email message
                                     expires_at before r
               = share_file.Next next
            /\ ((exists e,
                    share_file.successful_shares next
                    = share_file.successful_shares before ++ [e]
                    /\ share_file.failed_shares next
                       = share_file.failed_shares before)
                \/ (exists e,
                       share_file.failed_shares next
                       = share_file.failed_shares before ++ [e]
                       /\ share_file.successful_shares next
                          = share_file.successful_shares before)))
    /\ (List.length (share_file.successful_shares final)
        + List.length (share_file.failed_shares final) = n)%nat.
Proof.
  intros Hid Hfile Hbody Hrec Hlen Hfound Hown Hact Hreg Hm He n message
         expires_at after.
  pose proof (share_file_loop env event user_id user_email user_name w
                file_id fields recipients file_item others Hid Hfile Hbody
                Hrec Hlen Hfound Hown Hact) as Hloop.
  fold message expires_at n in Hloop; fold after in Hloop.
  destruct (share_all_regular env file_id user_id user_email message
              expires_at (firstn n recipients) (share_file.mkBatch w [] [])
              (firstn_regular recipients n Hreg) Hm He)
    as [final [Hfinal Hcount]].
  exists final.
  assert (Hn : after n = share_file.Next final) by exact Hfinal.
  split; [exact Hn | split; [|split]].
  - rewrite Hloop, Hn; reflexivity.
  - intros k r Hk.
    destruct (share_all_regular env file_id user_id user_email message
                expires_at (firstn k recipients) (share_file.mkBatch w [] [])
                (firstn_regular recipients k Hreg) Hm He)
      as [before [Hbefore _]].
    assert (Hr : regular_recipient r = true).
    { apply (proj1 (Forall_forall _ _) Hreg), (nth_error_In _ _ Hk). }
    destruct (share_with_adds_one env file_id user_id user_email message
                expires_at before r Hr Hm He) as [next [Hnext Hone]].
    exists before, next.
    split; [exact Hbefore|].
    split; [|split; [exact Hnext | exact Hone]].
    unfold after, batch_after.
    rewrite (share_all_next env file_id user_id user_email message
                            expires_at _ _ _ _ _ Hk Hbefore).
    exact Hnext.
  - unfold n in Hcount; rewrite firstn_all in Hcount.
    cbn [share_file.successful_shares share_file.failed_shares List.length]
      in Hcount.
    fold n in Hcount; lia.
Qed.

(** The batch of the sample: a stranger, a malformed address, the owner and
    a registered user. *)
Lemma share_batch_accounts_for_every_recipient_witness :
  let recipients :=
    [JObj [("email", JStr "dan@campus.edu")];
     JObj [("email", JStr "not-an-email")];
     JObj [("email", JStr "Alice@campus.edu"); ("permissions", JStr "write")];
     JObj [("email", JStr "bob@campus.edu")]] in
  let w := Sample.world "active" [] [] in
  let result :=
    share_file.handle_share_file
      Sample.env
      (share_file.mkShareEvent (Some "f-report")
                               (Some (share_request recipients None None)))
      "u-alice" "alice@campus.edu" "Alice" w in
  statusCode (fst result) = 200
  /\ body_field "totalShared" (fst result) = Some (JNum 2)
  /\ body_field "totalFailed" (fst result) = Some (JNum 2).
Proof.
  intros recipients w result.
  destruct (share_batch_accounts_for_every_recipient
              Sample.env
              (share_file.mkShareEvent
                 (Some "f-report")
                 (Some (share_request recipients None None)))
              "u-alice" "alice@campus.edu" "Alice" w "f-report"
              [("recipients", JArr recipients)] recipients
              (Sample.report "active") [])
    as (final & _ & Hanswer & _ & _);
    [reflexivity | reflexivity | reflexivity | reflexivity
     | cbn; lia | reflexivity | reflexivity | reflexivity
     | repeat constructor | reflexivity | reflexivity |].
  fold result in Hanswer.
  repeat split; vm_compute; reflexivity.
Defined.

(** C7.  The loop catches the [ClientError] of [put_item] and nothing else,
    so a recipient on which a pass raises ends the batch.  This request,
    which passes the file-level checks, has three recipients, the second
    with a number for its email.  The pass for it raises, the request is
    answered 500 with neither list, the share made for the first recipient
    stays in the table and the third recipient, who alone is answered 200
    and shared with, is not looked at. *)
Theorem malformed_recipient_ends_the_batch :
  let recipients :=
    [JObj [("email", JStr "bob@campus.edu")];
     JObj [("email", JNum 123)];
     JObj [("email", JStr "dan@campus.edu")]] in
  let w := Sample.world "active" [] [] in
  let result :=
    share_file.handle_share_file
      Sample.env
      (share_file.mkShareEvent (Some "f-report")
                               (Some (share_request recipients None None)))
      "u-alice" "alice@campus.edu" "Alice" w in
  fst result = internal_error "argument of type 'int' is not iterable"
  /\ body_field "shared" (fst result) = None
  /\ body_field "failed" (fst result) = None
  /\ map Share.sharedWithEmail (shares (snd result)) = ["bob@campus.edu"]
  /\ statusCode
       (fst (share_file.handle_share_file
               Sample.env
               (share_file.mkShareEvent
                  (Some "f-report")
                  (Some (share_request
                           [JObj [("email", JStr "dan@campus.edu")]]
                           None None)))
               "u-alice" "alice@campus.edu" "Alice" w)) = 200.
Proof. repeat split; vm_compute; reflexivity. Qed.

(** ** Share creation: the duplicate test *)

Lemma app_one_neq {A : Type} (l : list A) (x : A) : l <> l ++ [x].
Proof.
  intros H; apply (f_equal (@List.length A)) in H.
  rewrite length_app in H; simpl in H; lia.
Qed.

(** The pass for a recipient whose email is a text. *)
Lemma share_with_text
      (env : Env) (file_id user_id user_email : string) (message : json)
      (expires_at : option json) (b : share_file.batch) (r : json)
      (address : string) :
  share_file.email r = Some (JStr address) ->
  share_file.share_with env file_id user_id user_email message expires_at b r
  = if negb (truthy address) then
      share_file.Next
        (share_file.fail b (share_file.world b) share_file.missing_email)
    else if orb (negb (contains "@" address)) (negb (contains "." address))
    then
      share_file.Next
        (share_file.fail b (share_file.world b)
           (share_file.failed_entry address "Invalid email format"))
    else if (lower address =? lower user_email)%string then
      share_file.Next
        (share_file.fail b (share_file.world b)
           (share_file.failed_entry address "Cannot share with yourself"))
    else
      share_file.share_with_address env file_id user_id message expires_at b
                                    address (share_file.permissions r).
Proof.
  intros He; destruct r; try discriminate He.
  unfold share_file.share_with; rewrite He; reflexivity.
Qed.

(** A pass for a text address that has passed the checks of the address
    ends in one of four ways. *)
Lemma share_with_address_cases
      (env : Env) (file_id user_id : string) (message : json)
      (expires_at : option json) (b : share_file.batch) (address : string)
      (p : json) :
  let w := share_file.world b in
  let grantee :=
    match share_file.get_user_by_email address w with
    | Some u => User.userId u
    | None => ("pending-" ++ uuid4_at env (draws w))%string
    end in
  let w1 :=
    match share_file.get_user_by_email address w with
    | Some u => w
    | None => snd (uuid4 env w)
    end in
  let w3 := snd (utcnow env (snd (uuid4 env w1))) in
  let outcome :=
    share_file.share_with_address env file_id user_id message expires_at b
                                  address p in
  (outcome
   = share_file.Next
       (share_file.fail b w1
          (share_file.failed_entry address
                                   "File already shared with this user"))
   /\ exists s,
        share_file.check_existing_share file_id grantee w1 = Some s
        /\ Share.status s = "active")
  \/ (match share_file.check_existing_share file_id grantee w1 with
      | Some s => Share.status s <> "active"
      | None => True
      end
      /\ ((exists text, outcome = share_file.Raised text w3)
          \/ outcome
             = share_file.Next
                 (share_file.fail b w3
                    (share_file.failed_entry address
                                             "Failed to create share"))
          \/ exists m,
               share_file.message_attribute message = inl m
               /\ let item :=
                    share_file.share_item
                      (uuid4_at env (draws w1)) file_id user_id grantee
                      address p (utcnow_at env (ticks w1)) m expires_at in
                  share_file.share_serialize_error item = None
                  /\ put_share_refused env item = false
                  /\ outcome
                     = share_file.Next
                         (share_file.mkBatch
                            (set_shares w3
                               (put_item Share.key key2_eqb item
                                         (shares w1)))
                            (share_file.successful_shares b
                               ++ [JObj [("shareId",
                                          JStr (uuid4_at env (draws w1)));
                                         ("email", JStr address);
                                         ("sharedAt",
                                          JStamp (utcnow_at env (ticks w1)));
                                         ("expiresAt", or_null expires_at);
                                         ("status", JStr "active")]])
                            (share_file.failed_shares b)))).
Proof.
  intros w grantee w1 w3 outcome.
  unfold outcome, share_file.share_with_address.
  fold w.
  assert (Hlook :
            match share_file.get_user_by_email address w with
            | Some recipient_user => (User.userId recipient_user, w)
            | None =>
                let (u, w') := uuid4 env w in (("pending-" ++ u)%string, w')
            end = (grantee, w1)).
  { unfold grantee, w1, uuid4.
    destruct (share_file.get_user_by_email address w); reflexivity. }
  rewrite Hlook; clear Hlook.
  destruct (share_file.check_existing_share file_id grantee w1) as [s|]
    eqn:Hcheck.
  - destruct (String.eqb_spec (Share.status s) "active") as [Hact|Hact].
    + left; split; [reflexivity | exists s; split; [reflexivity | exact Hact]].
    + right; split; [exact Hact|].
      unfold uuid4, utcnow, w3; cbv beta iota zeta; cbn [snd ticks draws].
      destruct (share_file.message_attribute message) as [m|text];
        [|left; eexists; reflexivity].
      destruct (share_file.share_serialize_error _) eqn:Hser;
        [left; eexists; reflexivity|].
      destruct (put_share_refused env _) eqn:Hput;
        [right; left; reflexivity|].
      right; right; exists m; split; [reflexivity|].
      cbv zeta; split; [exact Hser | split; [exact Hput | reflexivity]].
  - right; split; [exact I|].
    unfold uuid4, utcnow, w3; cbv beta iota zeta; cbn [snd ticks draws].
    destruct (share_file.message_attribute message) as [m|text];
      [|left; eexists; reflexivity].
    destruct (share_file.share_serialize_error _) eqn:Hser;
      [left; eexists; reflexivity|].
    destruct (put_share_refused env _) eqn:Hput;
      [right; left; reflexivity|].
    right; right; exists m; split; [reflexivity|].
    cbv zeta; split; [exact Hser | split; [exact Hput | reflexivity]].
Qed.

(** For a recipient that is a registered user and passes the address
    checks, the loop body answers "File already shared with this user"
    exactly when the item stored under (file, user id) has the status
    [active]; the expiry of that item is not looked at. *)
Lemma duplicate_test_reads_status_only
      (env : Env) (file_id user_id user_email : string) (message : json)
      (expires_at : option json) (b : share_file.batch)
      (r : json) (address : string) (u : User.t) :
  share_file.email r = Some (JStr address) ->
  truthy address = true ->
  contains "@" address = true ->
  contains "." address = true ->
  (lower address =? lower user_email)%string = false ->
  share_file.get_user_by_email address (share_file.world b) = Some u ->
  (exists b',
      share_file.share_with env file_id user_id user_email message
                            expires_at b r = share_file.Next b'
      /\ share_file.failed_shares b'
         = share_file.failed_shares b
           ++ [share_file.failed_entry address
                                       "File already shared with this user"])
  <->
  exists s,
    share_file.check_existing_share file_id (User.userId u)
                                    (share_file.world b) = Some s
    /\ Share.status s = "active".
Proof.
  intros He Ht Hat Hdot Hself Hu.
  rewrite (share_with_text env file_id user_id user_email message expires_at
                           b r address He).
  rewrite Ht, Hat, Hdot, Hself; cbn [negb orb].
  pose proof (share_with_address_cases env file_id user_id message expires_at
                                       b address (share_file.permissions r))
    as Hcases.
  cbv zeta in Hcases; rewrite Hu in Hcases.
  destruct Hcases as [[-> Hs] | [Hnot Hcases]].
  - split; [intros _; exact Hs|].
    intros _; eexists; split; [reflexivity | reflexivity].
  - split.
    + intros (b' & Hb' & Hfailed).
      destruct Hcases as [[text Hr] | [Hr | (m & _ & _ & _ & Hr)]];
        rewrite Hr in Hb'; inversion Hb'; subst b';
        cbn [share_file.fail share_file.failed_shares] in Hfailed.
      * apply app_inv_head in Hfailed; inversion Hfailed.
      * exfalso; exact (app_one_neq _ _ Hfailed).
    + intros (s & Hs & Hact); rewrite Hs in Hnot; contradiction.
Qed.

(** C1. An owner shares the report with bob, for whom the table holds a
    share of that file whose expiry (500) is behind the clock (1000): the
    listings count that share as expired, and the request is still turned
    down as "File already shared with this user". *)
Theorem expired_share_blocks_new_share :
  let stored := Sample.share_with_bob "active" (Some (Sample.utc 500)) None in
  let w := Sample.world "active" [stored] [] in
  let event :=
    share_file.mkShareEvent
      (Some "f-report")
      (Some (JsonText
               (JObj [("recipients",
                       JArr [JObj [("email", JStr "bob@campus.edu")]])]))) in
  share_file.check_existing_share "f-report" "u-bob" w = Some stored
  /\ fst (share_file.expired Sample.env stored w) = inl true
  /\ fst (share_file.handle_share_file Sample.env event "u-alice"
                                       "alice@campus.edu" "Alice" w)
     = create_response 200
         (JObj [("success", JBool true);
                ("shared", JArr []);
                ("failed",
                 JArr [share_file.failed_entry
                         "bob@campus.edu"
                         "File already shared with this user"]);
                ("totalShared", JNum 0);
                ("totalFailed", JNum 1)]).
Proof. repeat split; vm_compute; reflexivity. Qed.

(** ** Listing the shares of a file *)

Section Listing.
Import share_file.
Variable env : Env.


Lemma expired_ticks (share : Share.t) (w w' : World) (o : bool + string) :
  expired env share w = (o, w') ->
  same_tables w w' /\ (ticks w <= ticks w')%nat.
Proof.
  unfold expired, utcnow, same_tables.
  destruct (Share.expiresAt share) as [e|];
    [destruct (expiry_of e)|]; intros H; inversion H; subst; simpl;
    repeat split; lia.
Qed.

(** A share with an expiry passes the test only when the expiry spells a
    date, and on a reading of the clock that is not beyond that date. *)
Lemma expired_false (share : Share.t) (w w' : World) :
  expired env share w = (inl false, w') ->
  forall e, Share.expiresAt share = Some e ->
  exists r, expiry_of e = inl r /\ utcnow_at env (ticks w) <= r
            /\ ticks w' = S (ticks w).
Proof.
  unfold expired, utcnow; intros H e He; rewrite He in H.
  destruct (expiry_of e) as [r|text]; [|discriminate].
  inversion H as [[Hgt Hw]]; exists r; simpl.
  repeat split; try reflexivity.
  rewrite Z.gtb_ltb in Hgt.
  destruct (Z.ltb_spec r (utcnow_at env (ticks w))); [discriminate | lia].
Qed.

Lemma active_shares_loop_kept (l : list Share.t) (w w' : World)
      (acc out : list json) :
  active_shares_loop env l w acc = (inl out, w') ->
  out = acc ++ map formatted_share (kept_shares env l w).
Proof.
  revert w acc; induction l as [|share rest IH]; intros w acc; simpl.
  - intros H; inversion H; rewrite app_nil_r; reflexivity.
  - destruct (negb (Share.status share =? "active")%string); [apply IH|].
    destruct (expired env share w) as [[[|]|text] w1].
    + apply IH.
    + intros H; apply IH in H; rewrite H, <- app_assoc; reflexivity.
    + discriminate.
Qed.

Lemma active_shares_loop_world (l : list Share.t) (w w' : World)
      (acc : list json) (o : list json + string) :
  active_shares_loop env l w acc = (o, w') ->
  same_tables w w' /\ (ticks w <= ticks w')%nat.
Proof.
  revert w acc; induction l as [|share rest IH]; intros w acc; simpl.
  - intros H; inversion H; subst; unfold same_tables; repeat split; lia.
  - destruct (negb (Share.status share =? "active")%string); [apply IH|].
    destruct (expired env share w) as [[[|]|text] w1] eqn:E;
      apply expired_ticks in E; destruct E as [[Ef [Es [Eu [Ea Eb]]]] Et];
      intros H;
      try (apply IH in H; destruct H as [[Hf [Hs [Hu [Ha Hb]]]] Ht];
           unfold same_tables; repeat split; try congruence; lia).
    inversion H; subst; unfold same_tables; repeat split; try congruence; lia.
Qed.

(** What the kept shares have in common. *)
Lemma kept_shares_sound (l : list Share.t) (w w' : World)
      (acc out : list json) :
  active_shares_loop env l w acc = (inl out, w') ->
  forall s, In s (kept_shares env l w) ->
    In s l
    /\ Share.status s = "active"
    /\ forall e, Share.expiresAt s = Some e ->
       exists r n, expiry_of e = inl r /\ (ticks w <= n < ticks w')%nat
                   /\ utcnow_at env n <= r.
Proof.
  revert w acc; induction l as [|share rest IH]; intros w acc; simpl;
    [intros _ s []|].
  destruct (Share.status share =? "active")%string eqn:Hact; simpl.
  - destruct (expired env share w) as [[[|]|text] w1] eqn:E;
      [| |discriminate].
    + intros H s Hin.
      pose proof (expired_ticks _ _ _ _ E) as [_ Ht].
      destruct (IH _ _ H s Hin) as [Hl [Hs He]].
      split; [right; exact Hl | split; [exact Hs|]].
      intros e Hexp; destruct (He e Hexp) as [r [n [? [? ?]]]].
      exists r, n; repeat split; try assumption; lia.
    + intros H s [<- | Hin].
      * split; [left; reflexivity | split; [apply String.eqb_eq, Hact|]].
        intros e Hexp.
        destruct (expired_false _ _ _ E e Hexp) as [r [Hr [Hle Ht]]].
        pose proof (active_shares_loop_world _ _ _ _ _ H) as [_ Ht'].
        exists r, (ticks w); repeat split; try assumption; lia.
      * pose proof (expired_ticks _ _ _ _ E) as [_ Ht].
        destruct (IH _ _ H s Hin) as [Hl [Hs He]].
        split; [right; exact Hl | split; [exact Hs|]].
        intros e Hexp; destruct (He e Hexp) as [r [n [? [? ?]]]].
        exists r, n; repeat split; try assumption; lia.
  - intros H s Hin.
    destruct (IH _ _ H s Hin) as [Hl [Hs He]].
    split; [right; exact Hl | split; [exact Hs | exact He]].
Qed.

End Listing.




(** The expiry is read as it is spelt.  The text
    [1970-01-01T05:00:00+05:00] spells five hours past midnight and names
    the instant of midnight UTC, which is the [ttl] that the share request
    stores for it.  On a clock that reads a millisecond past that instant
    the share is listed, and a download is granted on it: the date spelt is
    ahead of the date that the clock spells. *)
Lemma expiry_is_compared_as_spelt :
  let expiry := JIso (Iso 18000000000 0) in
  let stored := Sample.share_with_bob "active" (Some expiry) None in
  let w := Sample.world "active" [stored] [] in
  share_file.ttl_of expiry = Some 0
  /\ utcnow_at Sample.env (ticks w) = 1000
  /\ fst (share_file.expired Sample.env stored w) = inl false
  /\ body_field "total"
                (fst (share_file.handle_list_shares
                        Sample.env (Some "f-report") "u-alice" w))
     = Some (JNum 1)
  /\ fst (generate_presigned_url.check_file_share_access
            Sample.env "f-report" "u-bob" w) = true.
Proof. repeat split; vm_compute; reflexivity. Qed.

(** ** Revocation *)

(** A revocation by the owner, of a share of the file that the table holds
    under its key, whatever the status of the share: the answer is the
    success response and the stored item is stamped with the reading of the
    clock. *)
Lemma revoke_share_any_status
      (env : Env) (file_id share_id user_id : string) (w : World)
      (file_item : FileItem.t) (others : list FileItem.t)
      (share : Share.t) (others' : list Share.t) :
  truthy file_id = true ->
  truthy share_id = true ->
  files_by_id file_id w = file_item :: others ->
  FileItem.userId file_item = user_id ->
  share_file.shares_by_id share_id w = share :: others' ->
  Share.fileId share = file_id ->
  get_item Share.key key2_eqb (Share.key share) (shares w) = Some share ->
  let now := utcnow_at env (ticks w) in
  let result :=
    share_file.handle_revoke_share env (Some file_id) (Some share_id)
                                   user_id w in
  fst result = share_file.revoke_ok share_id
  /\ get_item Share.key key2_eqb (Share.key share) (shares (snd result))
     = Some (share_file.revoked now share).
Proof.
  intros Hf Hs Hfile Hown Hshare Hbelongs Hstored now result.
  assert (Hk : Share.key share = (file_id, Share.sharedWithUserId share))
    by (unfold Share.key; rewrite Hbelongs; reflexivity).
  rewrite Hk in Hstored |- *.
  unfold result, share_file.handle_revoke_share, present.
  rewrite Hf, Hs, Hfile, Hown, Hshare, Hbelongs, !String.eqb_refl; simpl.
  split; [reflexivity|].
  apply (get_item_update Share.key key2_eqb key2_eqb_eq); [|exact Hstored].
  unfold Share.key; simpl; rewrite Hbelongs; reflexivity.
Qed.

(** C10. Revoking a share that is already [revoked] (by the owner of the
    file, the share belonging to that file) is answered with the success
    response of any revocation, and the stored share gets the reading of
    the clock at this request as its [revokedAt]: the table changes unless
    the old stamp happens to be that very reading. *)
Theorem revoking_a_revoked_share_restamps_it
        (env : Env) (file_id share_id user_id : string) (w : World)
        (file_item : FileItem.t) (others : list FileItem.t)
        (share : Share.t) (others' : list Share.t) :
  truthy file_id = true ->
  truthy share_id = true ->
  files_by_id file_id w = file_item :: others ->
  FileItem.userId file_item = user_id ->
  share_file.shares_by_id share_id w = share :: others' ->
  Share.fileId share = file_id ->
  get_item Share.key key2_eqb (Share.key share) (shares w) = Some share ->
  Share.status share = "revoked" ->
  let now := utcnow_at env (ticks w) in
  let result :=
    share_file.handle_revoke_share env (Some file_id) (Some share_id)
                                   user_id w in
  fst result
  = create_response 200
      (JObj [("success", JBool true);
             ("message", JStr "Share access revoked");
             ("shareId", JStr share_id)])
  /\ (exists stored,
         get_item Share.key key2_eqb (Share.key share) (shares (snd result))
         = Some stored
         /\ Share.status stored = "revoked"
         /\ Share.revokedAt stored = Some now)
  /\ (Share.revokedAt share <> Some now -> shares (snd result) <> shares w).
Proof.
  intros Hf Hs Hfile Hown Hshare Hbelongs Hstored Hrevoked now result.
  destruct (revoke_share_any_status env file_id share_id user_id w file_item
              others share others' Hf Hs Hfile Hown Hshare Hbelongs Hstored)
    as [Hresp Hnew].
  fold result in Hresp, Hnew; fold now in Hnew.
  split; [exact Hresp | split].
  - exists (share_file.revoked now share); repeat split; assumption.
  - intros Hstamp Heq; rewrite Heq, Hstored in Hnew.
    inversion Hnew as [Hsame].
    apply (f_equal Share.revokedAt) in Hsame; simpl in Hsame.
    apply Hstamp; exact Hsame.
Qed.

Lemma revoking_a_revoked_share_restamps_it_witness :
  let old := Sample.share_with_bob "revoked" None (Some 30) in
  let w := Sample.world "active" [old] [] in
  let result :=
    share_file.handle_revoke_share Sample.env (Some "f-report") (Some "s-1")
                                   "u-alice" w in
  statusCode (fst result) = 200
  /\ shares (snd result) <> shares w.
Proof.
  intros old w result.
  destruct (revoking_a_revoked_share_restamps_it
              Sample.env "f-report" "s-1" "u-alice" w
              (Sample.report "active") [] old [])
    as [Hresp [_ Hchanged]]; try reflexivity.
  fold result in Hresp, Hchanged.
  split; [rewrite Hresp; reflexivity|].
  apply Hchanged; vm_compute; discriminate.
Defined.

(** ** Pagination tokens *)

(** C9, for the tokens that the handlers do set aside.  A [nextToken] on
    which [json.loads] raises [JSONDecodeError] leaves no start key in the
    query, and both paginated listings answer as they do without a token:
    the query starts from the beginning. *)
Theorem undecodable_token_restarts_listing
        (env : Env) (limit : option int_text) (raw : string)
        (assignment_id status : option string)
        (user_id user_role : string) (w : World) :
  start_key (mkPageQuery limit (Some (NotJson raw))) = None
  /\ share_file.handle_shared_with_me
       env (mkPageQuery limit (Some (NotJson raw))) user_id w
     = share_file.handle_shared_with_me
         env (mkPageQuery limit None) user_id w
  /\ submit_assignment.handle_list_submissions
       env assignment_id
       (submit_assignment.mkListQuery
          status (mkPageQuery limit (Some (NotJson raw))))
       user_id user_role w
     = submit_assignment.handle_list_submissions
         env assignment_id
         (submit_assignment.mkListQuery status (mkPageQuery limit None))
         user_id user_role w.
Proof. repeat split. Qed.

(** A token that is JSON but not a dictionary reaches the query as its start
    key, the client refuses it, and the listing answers 500. *)
Lemma token_of_another_shape_fails_the_listing
      (env : Env) (v : json) (user_id : string) (w : World) :
  (forall key, v <> JObj key) ->
  fst (share_file.handle_shared_with_me
         env (mkPageQuery None (Some (JsonText v))) user_id w)
  = internal_error start_key_error.
Proof.
  intros Hv; unfold share_file.handle_shared_with_me; simpl.
  destruct v; try reflexivity.
  exfalso; apply (Hv fields); reflexivity.
Qed.

(** C9 as stated fails: the token [123] is JSON, it is not of the shape of a
    start key, and neither listing sets it aside; the request that is
    answered 200 without a token is answered 500 with it. *)
Lemma number_token_fails_the_listing :
  let w :=
    Sample.world "active" [Sample.share_with_bob "active" None None] [] in
  let token := Some (JsonText (JNum 123)) in
  statusCode (fst (share_file.handle_shared_with_me
                     Sample.env (mkPageQuery None None) "u-bob" w)) = 200
  /\ statusCode (fst (share_file.handle_shared_with_me
                        Sample.env (mkPageQuery None token) "u-bob" w)) = 500
  /\ statusCode (fst (submit_assignment.handle_list_submissions
                        Sample.env (Some "a-essay")
                        (submit_assignment.mkListQuery
                           None (mkPageQuery None None))
                        "u-carol" "instructor" w)) = 200
  /\ statusCode (fst (submit_assignment.handle_list_submissions
                        Sample.env (Some "a-essay")
                        (submit_assignment.mkListQuery
                           None (mkPageQuery None token))
                        "u-carol" "instructor" w)) = 500.
Proof. repeat split; vm_compute; reflexivity. Qed.

(** ** Submission *)

Lemma filter_filter_andb {A : Type} (p q : A -> bool) (l : list A) :
  filter q (filter p l) = filter (fun x => andb (p x) (q x)) l.
Proof.
  induction l as [|x l IH]; simpl; [reflexivity|].
  destruct (p x); simpl; [destruct (q x); rewrite IH; reflexivity | exact IH].
Qed.

(** The count that the handler takes is the number of the stored
    submissions that carry both the assignment id and the student id. *)
Lemma existing_submissions_count
      (assignment_id user_id : string) (w : World) :
  Z.of_nat
    (List.length
       (submit_assignment.existing_submissions assignment_id user_id w))
  = submission_count assignment_id user_id w.
Proof.
  unfold submission_count, submit_assignment.existing_submissions,
    submit_assignment.submissions_of.
  rewrite filter_filter_andb; reflexivity.
Qed.

Section Submit.
Import submit_assignment.
Variable env : Env.
Variables assignment_id user_id user_email user_name file_id : string.
Variable comments : option string.

Let event : submit_event :=
  mkSubmitEvent (Some assignment_id) (Some (submit_request file_id comments)).

(** What a request that reaches the count is answered. *)
Lemma submit_outcome (w : World) (a : Assignment.t) (f : FileItem.t) :
  submittable assignment_id user_id file_id w a f ->
  handle_submit_assignment env event user_id user_email user_name w
  = if submission_count assignment_id user_id w >=? max_submissions a then
      (limit_reached (max_submissions a), snd (utcnow env w))
    else
      match submissions_sort_key env with
      | Submission.StudentAndNumber =>
          (internal_error missing_key,
           snd (utcnow env (snd (uuid4 env (snd (utcnow env w))))))
      | Submission.Attribute _ =>
          (created (uuid4_at env (draws w)) assignment_id file_id
                   match FileItem.filename f with Some n => n | None => "" end
                   user_id user_email user_name
                   (utcnow_at env (S (ticks w)))
                   (submission_count assignment_id user_id w + 1)
                   (utcnow_at env (ticks w) >? due a)
                   match comments with Some c => JStr c | None => JStr "" end,
           submitted_world env assignment_id user_id user_email user_name
                           file_id comments w a f)
      end.
Proof.
  intros (Ha & Hf & [others Hfound] & Hact & [d Hd] & Hfile & Hfact & Htype
          & Hsize & [filename Hname] & [file_size Hfsize]).
  rewrite <- (existing_submissions_count assignment_id user_id w).
  unfold handle_submit_assignment, event, submit_request, present, given.
  cbn [assignmentId body].
  rewrite Ha; cbn [negb].
  assert (Hfid : field "fileId"
                       (("fileId", JStr file_id)
                        :: match comments with
                           | Some c => [("comments", JStr c)]
                           | None => []
                           end) = Some (JStr file_id)) by reflexivity.
  rewrite Hfid; cbn [json_truthy or_null]; rewrite Hf; cbn [negb].
  rewrite Hfound, Hact; cbn [String.eqb Ascii.eqb Bool.eqb negb].
  unfold submitted_world, new_submission, due.
  rewrite Hd.
  unfold utcnow at 1; cbv beta iota zeta; cbn [files].
  rewrite Hfile, Hfact, String.eqb_refl; cbn [negb].
  unfold type_allowed in Htype; unfold size_allowed in Hsize.
  rewrite Hname, Hfsize in *.
  assert (Hcount : existing_submissions
                     assignment_id user_id
                     {| files := files w; shares := shares w;
                        users := users w; assignments := assignments w;
                        submissions := submissions w; bucket := bucket w;
                        ticks := S (ticks w); draws := draws w |}
                   = existing_submissions assignment_id user_id w)
    by reflexivity.
  rewrite Hcount.
  rewrite <- (existing_submissions_count assignment_id user_id w).
  destruct (Assignment.allowedFileTypes a) as [allowed|];
    [destruct (FileItem.contentType f) as [ct|]; [|discriminate];
     rewrite Htype; cbn [negb]|];
    (destruct (Assignment.maxFileSize a) as [max_size|];
     [destruct (file_size >? max_size); [discriminate|]|]);
    (destruct (Z.of_nat (List.length
                           (existing_submissions assignment_id user_id w))
               >=? max_submissions a); [reflexivity|]);
    unfold uuid4, utcnow; cbv beta iota zeta;
    (destruct comments as [c|];
     [cbn [field String.eqb Ascii.eqb Bool.eqb];
      unfold comments_attribute; cbn [json_truthy slice];
      destruct (truthy c); cbn [opt_serialize_error serialize_error]|
      cbn [field]; unfold comments_attribute;
      cbn [json_truthy truthy String.eqb negb opt_serialize_error]]);
    destruct (submissions_sort_key env); reflexivity.
Qed.

End Submit.

Section SubmitSequence.
Import submit_assignment.
Variable env : Env.
Variables assignment_id user_id user_email user_name file_id : string.
Variable comments : option string.

Let count := submission_count assignment_id user_id.
Let after :=
  submitted_world env assignment_id user_id user_email user_name file_id
                  comments.
Let item :=
  new_submission env assignment_id user_id user_email user_name file_id
                 comments.

(** An accepted submit whose item has a new key adds one to the count. *)
Lemma count_after (w : World) (a : Assignment.t) (f : FileItem.t) :
  key_is_new env (item w a f) w -> count (after w a f) = count w + 1.
Proof.
  intros Hnew; unfold count, submission_count, after, submitted_world.
  cbn [submissions].
  fold (item w a f).
  rewrite (put_item_new _ key2_eqb _ _ Hnew).
  rewrite filter_app, length_app.
  unfold item, new_submission, submission_item.
  cbn [filter Submission.assignmentId Submission.studentId].
  rewrite !String.eqb_refl; cbn [andb List.length]; lia.
Qed.

Lemma submittable_after (w : World) (a : Assignment.t) (f : FileItem.t) :
  submittable assignment_id user_id file_id w a f ->
  submittable assignment_id user_id file_id (after w a f)
              (count_submission a) f.
Proof.
  intros (Ha & Hf & [others Hfound] & Hact & Hd & Hfile & Hfact & Htype
          & Hsize & Hname & Hfsize).
  repeat split; try assumption.
  exists others.
  unfold assignments_by_id, after, submitted_world; simpl.
  assert (Hid : Assignment.assignmentId a = assignment_id).
  { assert (Hin : In a (assignments_by_id assignment_id w))
      by (rewrite Hfound; left; reflexivity).
    apply filter_In in Hin; apply String.eqb_eq; tauto. }
  apply (filter_update_first Assignment.key key2_eqb key2_eqb_eq);
    try reflexivity; try exact Hfound.
  - intros r Hr; unfold Assignment.key in Hr; inversion Hr.
    apply String.eqb_refl.
  - unfold Assignment.key; rewrite Hid; reflexivity.
Qed.

End SubmitSequence.

(** Only the 201 branch of [handle_submit_assignment] writes. *)
Lemma submit_writes_only_on_201
      (env : Env) (event : submit_assignment.submit_event)
      (user_id user_email user_name : string) (w w' : World)
      (r : response) :
  submit_assignment.handle_submit_assignment env event user_id user_email
                                             user_name w = (r, w') ->
  statusCode r <> 201 ->
  same_tables w w'.
Proof.
  unfold submit_assignment.handle_submit_assignment, same_tables.
  unfold utcnow, uuid4.
  intros H Hcode.
  repeat (cbv beta iota zeta in H;
          match type of H with
          | context [match ?x with _ => _ end] => destruct x
          end);
    simpl in H; inversion H; subst; simpl in *;
    try (repeat split; reflexivity);
    exfalso; apply Hcode; reflexivity.
Qed.

(** C8. A submit that is answered with a client error (400, 403 or 404:
    missing assignment or file id, body that is not JSON, assignment not
    found or not active, file not found or not active, content type not
    allowed, file too large, submission limit reached) leaves every table
    as it was: no submission is written and the counter of the assignment
    is not touched. *)
Theorem rejected_submit_leaves_tables_unchanged
        (env : Env) (event : submit_assignment.submit_event)
        (user_id user_email user_name : string) (w w' : World)
        (r : response) :
  submit_assignment.handle_submit_assignment env event user_id user_email
                                             user_name w = (r, w') ->
  400 <= statusCode r < 500 ->
  submissions w' = submissions w
  /\ map Assignment.submissionCount (assignments w')
     = map Assignment.submissionCount (assignments w)
  /\ same_tables w w'.
Proof.
  intros H Hcode.
  assert (Hsame : same_tables w w')
    by (apply (submit_writes_only_on_201 _ _ _ _ _ _ _ _ H); lia).
  destruct Hsame as (Hf & Hs & Hu & Ha & Hb).
  split; [exact Hb | split; [rewrite Ha; reflexivity|]].
  repeat split; assumption.
Qed.

Lemma rejected_submit_leaves_tables_unchanged_witness :
  let w := Sample.world "pending" [] [] in
  let event :=
    submit_assignment.mkSubmitEvent
      (Some "a-essay") (Some (submit_request "f-report" None)) in
  let result :=
    submit_assignment.handle_submit_assignment
      Sample.env event "u-alice" "alice@campus.edu" "Alice" w in
  statusCode (fst result) = 400 /\ same_tables w (snd result).
Proof.
  intros w event result; split; [vm_compute; reflexivity|].
  apply (rejected_submit_leaves_tables_unchanged
           Sample.env event "u-alice" "alice@campus.edu" "Alice" w
           (snd result) (fst result)).
  - vm_compute; reflexivity.
  - vm_compute; split; [discriminate | reflexivity].
Defined.

(** The numbering that C2 asks for, on a submissions table whose sort key
    is an attribute of the items that a submit puts.  A submit that reaches
    the count, for a student
    with [c] stored submissions for the assignment: below the maximum of
    the assignment it is answered 201 with [submissionNumber = c + 1] and a
    new submission of the student with that number is in the table; at or
    above the maximum it is answered 403 "Maximum submission limit reached"
    and every table is as before.  With a maximum of 2 and no submission
    yet, three submits made one after the other, the first two putting
    their items under keys that are new, get the numbers 1 and 2 and a 403,
    and the third leaves the two submissions of the first two.  The count
    [c] is taken on the table itself: the items that carry the assignment
    id and the student id. *)
Theorem submit_numbers_up_to_the_maximum
        (env : Env)
        (assignment_id user_id user_email user_name file_id : string)
        (comments : option string) (w : World)
        (a : Assignment.t) (f : FileItem.t)
        (sort : Submission.t -> string) :
  submissions_sort_key env = Submission.Attribute sort ->
  submittable assignment_id user_id file_id w a f ->
  let submit :=
    submit_assignment.handle_submit_assignment
      env
      (submit_assignment.mkSubmitEvent
         (Some assignment_id) (Some (submit_request file_id comments)))
      user_id user_email user_name in
  let count := submission_count assignment_id user_id in
  let limit := submit_assignment.max_submissions a in
  let item :=
    new_submission env assignment_id user_id user_email user_name file_id
                   comments in
  (count w < limit ->
     statusCode (fst (submit w)) = 201
     /\ body_field "submissionNumber" (fst (submit w))
        = Some (JNum (count w + 1))
     /\ In (item w a f) (submissions (snd (submit w)))
     /\ Submission.assignmentId (item w a f) = assignment_id
     /\ Submission.studentId (item w a f) = user_id
     /\ Submission.submissionNumber (item w a f) = count w + 1
     /\ Submission.submissionId (item w a f) = uuid4_at env (draws w)
     /\ Submission.status (item w a f) = "submitted"
     /\ (key_is_new env (item w a f) w ->
         count (snd (submit w)) = count w + 1))
  /\ (limit <= count w ->
        fst (submit w)
        = create_response 403
            (error_body "Forbidden"
               ("Maximum submission limit reached (" ++ str_int limit ++ ")")
               %string)
        /\ same_tables w (snd (submit w)))
  /\ (Assignment.maxSubmissions a = Some 2 ->
      count w = 0 ->
      let first := submit w in
      let second := submit (snd first) in
      let third := submit (snd second) in
      key_is_new env (item w a f) w ->
      key_is_new env (item (snd first) a f) (snd first) ->
      body_field "submissionNumber" (fst first) = Some (JNum 1)
      /\ body_field "submissionNumber" (fst second) = Some (JNum 2)
      /\ fst third
         = create_response 403
             (error_body "Forbidden" "Maximum submission limit reached (2)")
      /\ submissions (snd third) = submissions (snd second)
      /\ count (snd third) = 2).
Proof.
  intros Hkey Hok submit count limit item.
  pose proof (submit_outcome env assignment_id user_id user_email user_name
                             file_id comments w a f Hok) as Hout.
  rewrite Hkey in Hout.
  fold submit in Hout; fold (count w) in Hout; fold limit in Hout.
  split; [|split].
  - intros Hlt; rewrite Hout.
    destruct (Z.geb_spec (count w) limit) as [Hge|_]; [lia|].
    cbn [fst snd].
    split; [reflexivity|].
    split; [reflexivity|].
    split; [unfold submitted_world; cbn [submissions]; apply put_item_In|].
    split; [reflexivity|].
    split; [reflexivity|].
    split; [reflexivity|].
    split; [reflexivity|].
    split; [reflexivity|].
    apply count_after.
  - intros Hle; rewrite Hout.
    destruct (Z.geb_spec (count w) limit) as [_|Hlt]; [|lia]; simpl.
    repeat split.
  - intros Hmax Hzero first second third Hnew0 Hnew1.
    assert (Hlimit : limit = 2)
      by (unfold limit, submit_assignment.max_submissions;
          rewrite Hmax; reflexivity).
    set (w1 := submitted_world env assignment_id user_id user_email user_name
                               file_id comments w a f).
    set (a1 := submit_assignment.count_submission a).
    set (w2 := submitted_world env assignment_id user_id user_email user_name
                               file_id comments w1 a1 f).
    set (a2 := submit_assignment.count_submission a1).
    assert (Hfirst : first = (fst first, w1)).
    { unfold first; rewrite Hout.
      destruct (Z.geb_spec (count w) limit) as [Hge|_]; [lia | reflexivity]. }
    assert (Hw1 : snd first = w1) by (rewrite Hfirst; reflexivity).
    rewrite Hw1 in Hnew1.
    pose proof (count_after env assignment_id user_id user_email user_name
                            file_id comments w a f Hnew0) as Hc1.
    pose proof (count_after env assignment_id user_id user_email user_name
                            file_id comments w1 a1 f Hnew1) as Hc2.
    pose proof (submittable_after env assignment_id user_id user_email
                                  user_name file_id comments w a f Hok)
      as Hok1.
    pose proof (submittable_after env assignment_id user_id user_email
                                  user_name file_id comments w1 a1 f Hok1)
      as Hok2.
    fold w1 in Hc1, Hc2, Hok1, Hok2; fold a1 in Hok1, Hok2.
    fold w2 in Hc2, Hok2; fold a2 in Hok2.
    fold (count w) in Hc1; fold (count w1) in Hc1, Hc2.
    fold (count w2) in Hc2.
    pose proof (submit_outcome env assignment_id user_id user_email user_name
                               file_id comments w1 a1 f Hok1) as Hout1.
    rewrite Hkey in Hout1.
    fold submit in Hout1; fold (count w1) in Hout1.
    change (submit_assignment.max_submissions a1) with limit in Hout1.
    pose proof (submit_outcome env assignment_id user_id user_email user_name
                               file_id comments w2 a2 f Hok2) as Hout2.
    rewrite Hkey in Hout2.
    fold submit in Hout2; fold (count w2) in Hout2.
    change (submit_assignment.max_submissions a2) with limit in Hout2.
    assert (Hsecond : snd second = w2).
    { unfold second; rewrite Hw1, Hout1.
      destruct (Z.geb_spec (count w1) limit) as [Hge|_]; [lia | reflexivity]. }
    repeat split.
    + unfold first; rewrite Hout.
      destruct (Z.geb_spec (count w) limit) as [Hge|_]; [lia|].
      rewrite Hzero; reflexivity.
    + unfold second; rewrite Hw1, Hout1.
      destruct (Z.geb_spec (count w1) limit) as [Hge|_]; [lia|].
      rewrite Hc1, Hzero; reflexivity.
    + unfold third; rewrite Hsecond, Hout2.
      destruct (Z.geb_spec (count w2) limit) as [_|Hlt]; [|lia].
      rewrite Hlimit; reflexivity.
    + unfold third; rewrite Hsecond, Hout2.
      destruct (Z.geb_spec (count w2) limit) as [_|Hlt]; [|lia].
      reflexivity.
    + unfold third; rewrite Hsecond, Hout2.
      destruct (Z.geb_spec (count w2) limit) as [_|Hlt]; [|lia].
      simpl snd.
      change (count w2 = 2); lia.
Qed.

Lemma sample_submittable (submissions : list Submission.t) :
  submittable "a-essay" "u-alice" "f-report"
              (Sample.world "active" [] submissions)
              Sample.essay (Sample.report "active").
Proof.
  repeat split; try reflexivity;
    try (eexists; reflexivity).
Qed.

(** The three submits of alice for the sample assignment, whose maximum is
    2, on a table that holds a submission of bob for the same assignment
    and one of alice for another. *)
Lemma submit_numbers_up_to_the_maximum_witness :
  let submit :=
    submit_assignment.handle_submit_assignment
      Sample.env
      (submit_assignment.mkSubmitEvent
         (Some "a-essay") (Some (submit_request "f-report" None)))
      "u-alice" "alice@campus.edu" "Alice" in
  let w := Sample.world "active" [] Sample.other_submissions in
  let first := submit w in
  let second := submit (snd first) in
  let third := submit (snd second) in
  List.length (submissions w) = 2%nat
  /\ submission_count "a-essay" "u-alice" w = 0
  /\ body_field "submissionNumber" (fst first) = Some (JNum 1)
  /\ body_field "submissionNumber" (fst second) = Some (JNum 2)
  /\ statusCode (fst third) = 403
  /\ submissions (snd third) = submissions (snd second)
  /\ submission_count "a-essay" "u-alice" (snd third) = 2.
Proof.
  intros submit w first second third.
  destruct (submit_numbers_up_to_the_maximum
              Sample.env "a-essay" "u-alice" "alice@campus.edu" "Alice"
              "f-report" None w Sample.essay (Sample.report "active")
              Submission.submissionId eq_refl
              (sample_submittable Sample.other_submissions))
    as [_ [_ Hthree]].
  destruct (Hthree eq_refl eq_refl) as [H1 [H2 [H3 [H4 H5]]]];
    [vm_compute; reflexivity | vm_compute; reflexivity|].
  split; [reflexivity|].
  split; [reflexivity|].
  split; [exact H1 | split; [exact H2 | split; [|split; [exact H4|exact H5]]]].
  unfold third, second, first, submit; rewrite H3; reflexivity.
Defined.

(** On a table keyed as the grading addresses it, by
    [studentId#submissionNumber], the same submit is refused by the store,
    for its item has no such attribute: the request is answered 500 and
    nothing is written. *)
Lemma submit_is_refused_on_the_key_of_grading
      (env : Env)
      (assignment_id user_id user_email user_name file_id : string)
      (comments : option string) (w : World)
      (a : Assignment.t) (f : FileItem.t) :
  submissions_sort_key env = Submission.StudentAndNumber ->
  submittable assignment_id user_id file_id w a f ->
  submission_count assignment_id user_id w
  < submit_assignment.max_submissions a ->
  let result :=
    submit_assignment.handle_submit_assignment
      env
      (submit_assignment.mkSubmitEvent
         (Some assignment_id) (Some (submit_request file_id comments)))
      user_id user_email user_name w in
  fst result = internal_error submit_assignment.missing_key
  /\ same_tables w (snd result).
Proof.
  intros Hkey Hok Hlt result; unfold result.
  rewrite (submit_outcome env assignment_id user_id user_email user_name
                          file_id comments w a f Hok), Hkey.
  destruct (Z.geb_spec (submission_count assignment_id user_id w)
                       (submit_assignment.max_submissions a)); [lia|].
  split; [reflexivity | unfold same_tables; cbn; tauto].
Qed.

(** C2.  The submissions table is addressed, by the one handler that names
    its key, [handle_grade_submission], by [assignmentId] and
    [studentId#submissionNumber], and the item that
    [handle_submit_assignment] puts has no attribute of that name.  On the
    table keyed so the first submit of alice for the essay, which allows
    two submissions, reaches the count with none stored and is not stored:
    the store refuses the item, the request is answered 500 where the claim
    has a new submission numbered 1, the table of the submissions is as it
    was, and so is the count, so that the next submit fares the same. *)
Theorem first_submit_is_not_stored :
  let w := Sample.world "active" [] Sample.other_submissions in
  let submit :=
    submit_assignment.handle_submit_assignment
      Sample.grading_env
      (submit_assignment.mkSubmitEvent
         (Some "a-essay") (Some (submit_request "f-report" None)))
      "u-alice" "alice@campus.edu" "Alice" in
  submittable "a-essay" "u-alice" "f-report" w
              Sample.essay (Sample.report "active")
  /\ submission_count "a-essay" "u-alice" w = 0
  /\ submit_assignment.max_submissions Sample.essay = 2
  /\ fst (submit w) = internal_error submit_assignment.missing_key
  /\ statusCode (fst (submit w)) = 500
  /\ body_field "submissionNumber" (fst (submit w)) = None
  /\ submissions (snd (submit w)) = submissions w
  /\ assignments (snd (submit w)) = assignments w
  /\ submission_count "a-essay" "u-alice" (snd (submit w)) = 0
  /\ statusCode (fst (submit (snd (submit w)))) = 500.
Proof.
  intros w submit.
  split; [exact (sample_submittable Sample.other_submissions)|].
  repeat split; vm_compute; reflexivity.
Qed.

(** ** Lateness and grading *)




Section Grading.
Import submit_assignment.
Variable env : Env.
Variables assignment_id submission_id user_id user_role user_name : string.

(** What a grading request that reaches the update is answered, and what
    the table then holds under the key of the submission. *)
Lemma grade_outcome (w : World) (a : Assignment.t) (s : Submission.t)
      (fields : list (string * json)) (g m : number) (fb : json) :
  submissions_sort_key env = Submission.StudentAndNumber ->
  gradable assignment_id submission_id user_id user_role w a s ->
  grading env fields g m fb ->
  let now := utcnow_at env (ticks w) in
  let result :=
    handle_grade_submission
      env
      (mkGradeEvent (Some assignment_id) (Some submission_id)
                    (Some (JsonText (JObj fields))))
      user_id user_role user_name w in
  fst result
  = graded_ok submission_id g m
              match field "feedback" fields with
              | Some x => x
              | None => JStr ""
              end now user_id user_name
  /\ get_item (Submission.key Submission.StudentAndNumber) key2_eqb
              (Submission.key Submission.StudentAndNumber s)
              (submissions (snd result))
     = Some (graded g m fb now user_id user_name
                    (field "feedbackFileId" fields) s).
Proof.
  intros Hkey
         (Hrole & Ha & Hs & [others Hfound] & Hown & [others' Hsub] & Hbelongs
          & Hstored)
         (Hg & Hm & Hfb & Hgs & Hms & Hfbs & Hff) now result.
  assert (Hk : Submission.key Submission.StudentAndNumber s
               = (assignment_id,
                  (Submission.studentId s ++ "#"
                     ++ str_int (Submission.submissionNumber s))%string))
    by (unfold Submission.key; rewrite Hbelongs; reflexivity).
  rewrite Hk in Hstored |- *.
  unfold result, handle_grade_submission, present.
  cbn [g_assignmentId g_submissionId g_body].
  rewrite Hrole, Ha, Hs; cbn [negb orb].
  assert (Hgrade : or_null (field "grade" fields) <> JNull)
    by (intros Hnull; rewrite Hnull in Hg; discriminate Hg).
  rewrite Hfound, Hown, Hsub, Hbelongs, !String.eqb_refl; cbn [negb].
  unfold utcnow; cbv beta iota zeta.
  rewrite Hg, Hm, Hfb, Hkey.
  assert (Hser : grade_serialize_error g m fb (field "feedbackFileId" fields)
                 = None).
  { unfold grade_serialize_error; rewrite Hgs, Hms; cbn [negb].
    unfold storable in Hfbs.
    destruct (serialize_error fb); [discriminate|].
    destruct (given (field "feedbackFileId" fields)) eqn:Hgiven;
      [|reflexivity].
    specialize (Hff eq_refl); unfold storable in Hff.
    destruct (field "feedbackFileId" fields) as [v|];
      [|discriminate Hgiven].
    cbn [or_null opt_serialize_error] in *.
    destruct (serialize_error v); [discriminate | reflexivity]. }
  rewrite Hser.
  destruct (or_null (field "grade" fields)); try congruence;
    (split; [reflexivity|]);
    cbn [snd set_submissions submissions];
    (apply (get_item_update (Submission.key Submission.StudentAndNumber)
                            key2_eqb key2_eqb_eq); [|exact Hstored]);
    unfold Submission.key; cbn [Submission.assignmentId Submission.studentId
                                Submission.submissionNumber graded];
    rewrite Hbelongs; reflexivity.
Qed.

End Grading.

(** C3, as the code has it, on a submissions table keyed as the grading
    addresses it.  The grade operation does not look at the status of the
    submission: for a submission in any status, an already graded one
    included, and a request whose values the handler can store, it stores
    the grade, the maximum grade, the feedback cut to 2000 characters, the
    reading of the clock and the grader of this request, and the status
    [graded]; the other attributes of the submission stay as they are. *)
Theorem grading_overwrites_whatever_the_status
        (env : Env)
        (assignment_id submission_id user_id user_role user_name : string)
        (w : World) (a : Assignment.t) (s : Submission.t)
        (fields : list (string * json)) (g m : number) (fb : json) :
  submissions_sort_key env = Submission.StudentAndNumber ->
  gradable assignment_id submission_id user_id user_role w a s ->
  grading env fields g m fb ->
  let result :=
    submit_assignment.handle_grade_submission
      env
      (submit_assignment.mkGradeEvent
         (Some assignment_id) (Some submission_id)
         (Some (JsonText (JObj fields))))
      user_id user_role user_name w in
  statusCode (fst result) = 200
  /\ exists stored,
       get_item (Submission.key Submission.StudentAndNumber) key2_eqb
                (Submission.key Submission.StudentAndNumber s)
                (submissions (snd result)) = Some stored
       /\ Submission.status stored = "graded"
       /\ Submission.grade stored = Some g
       /\ Submission.maxGrade stored = Some m
       /\ Submission.feedback stored = Some fb
       /\ Submission.gradedAt stored = Some (utcnow_at env (ticks w))
       /\ Submission.gradedBy stored = Some user_id
       /\ Submission.gradedByName stored = Some user_name
       /\ Submission.submissionId stored = Submission.submissionId s
       /\ Submission.submittedAt stored = Submission.submittedAt s
       /\ Submission.isLate stored = Submission.isLate s
       /\ Submission.comments stored = Submission.comments s.
Proof.
  intros Hkey Hok Hvalues result.
  destruct (grade_outcome env assignment_id submission_id user_id user_role
                          user_name w a s fields g m fb Hkey Hok Hvalues)
    as [Hresp Hnew].
  fold result in Hresp, Hnew.
  split; [rewrite Hresp; reflexivity|].
  eexists; split; [exact Hnew|]; repeat split.
Qed.

Lemma sample_gradable :
  gradable "a-essay" "sub-1" "u-carol" "instructor"
           (Sample.world "active" [] [Sample.graded_essay])
           Sample.essay Sample.graded_essay.
Proof.
  repeat split; try reflexivity;
    try (eexists; reflexivity).
Qed.

Lemma sample_grading :
  grading Sample.grading_env
          [("grade", JNum 80); ("feedback", JStr "better")]
          (Int 80) (Int 100) (JStr "better").
Proof.
  repeat split; try reflexivity; discriminate.
Qed.

Lemma grading_overwrites_whatever_the_status_witness :
  let w := Sample.world "active" [] [Sample.graded_essay] in
  let result :=
    submit_assignment.handle_grade_submission
      Sample.grading_env
      (submit_assignment.mkGradeEvent
         (Some "a-essay") (Some "sub-1")
         (Some (JsonText (JObj [("grade", JNum 80);
                                ("feedback", JStr "better")]))))
      "u-carol" "instructor" "Carol" w in
  statusCode (fst result) = 200
  /\ exists stored,
       get_item (Submission.key Submission.StudentAndNumber) key2_eqb
                (Submission.key Submission.StudentAndNumber
                                Sample.graded_essay)
                (submissions (snd result)) = Some stored
       /\ Submission.grade stored = Some (Int 80).
Proof.
  intros w result.
  destruct (grading_overwrites_whatever_the_status
              Sample.grading_env "a-essay" "sub-1" "u-carol" "instructor"
              "Carol" w Sample.essay Sample.graded_essay
              [("grade", JNum 80); ("feedback", JStr "better")]
              (Int 80) (Int 100) (JStr "better")
              eq_refl sample_gradable sample_grading)
    as [Hcode [stored [Hstored [_ [Hgrade _]]]]].
  split; [exact Hcode|].
  exists stored; split; assumption.
Defined.

(** C3 as stated fails: a graded submission (50 out of 100, graded at 950)
    is graded again, and its grade, feedback and grading time are those of
    the second request. *)
Lemma regrading_changes_the_grade :
  let old := Sample.graded_essay in
  let w := Sample.world "active" [] [old] in
  let result :=
    submit_assignment.handle_grade_submission
      Sample.grading_env
      (submit_assignment.mkGradeEvent
         (Some "a-essay") (Some "sub-1")
         (Some (JsonText (JObj [("grade", JNum 80);
                                ("feedback", JStr "better")]))))
      "u-carol" "instructor" "Carol" w in
  Submission.status old = "graded"
  /\ get_item (Submission.key Submission.StudentAndNumber) key2_eqb
              (Submission.key Submission.StudentAndNumber old) (submissions w)
     = Some old
  /\ statusCode (fst result) = 200
  /\ exists stored,
       get_item (Submission.key Submission.StudentAndNumber) key2_eqb
                (Submission.key Submission.StudentAndNumber old)
                (submissions (snd result)) = Some stored
       /\ Submission.grade stored <> Submission.grade old
       /\ Submission.feedback stored <> Submission.feedback old
       /\ Submission.gradedAt stored <> Submission.gradedAt old.
Proof.
  split; [reflexivity | split; [reflexivity | split; [reflexivity|]]].
  eexists; split; [vm_compute; reflexivity|].
  repeat split; vm_compute; discriminate.
Qed.

(** On a table keyed by an attribute of the items that a submit puts, the
    key that the grading sends does not match the schema: the request that
    reaches the update is answered 500 and the table is as it was. *)
Lemma grading_is_refused_on_the_key_of_submit
      (env : Env)
      (assignment_id submission_id user_id user_role user_name : string)
      (w : World) (a : Assignment.t) (s : Submission.t)
      (fields : list (string * json)) (g m : number) (fb : json)
      (sort : Submission.t -> string) :
  submissions_sort_key env = Submission.Attribute sort ->
  gradable assignment_id submission_id user_id user_role w a s ->
  grading env fields g m fb ->
  let result :=
    submit_assignment.handle_grade_submission
      env
      (submit_assignment.mkGradeEvent
         (Some assignment_id) (Some submission_id)
         (Some (JsonText (JObj fields))))
      user_id user_role user_name w in
  statusCode (fst result) = 500
  /\ submissions (snd result) = submissions w.
Proof.
  intros Hkey
         (Hrole & Ha & Hs & [others Hfound] & Hown & [others' Hsub] & Hbelongs
          & Hstored)
         (Hg & Hm & Hfb & Hgs & Hms & Hfbs & Hff) result.
  unfold result, submit_assignment.handle_grade_submission, present.
  cbn [submit_assignment.g_assignmentId submit_assignment.g_submissionId
       submit_assignment.g_body].
  rewrite Hrole, Ha, Hs; cbn [negb orb].
  rewrite Hfound, Hown, Hsub, Hbelongs, !String.eqb_refl; cbn [negb].
  unfold utcnow; cbv beta iota zeta.
  rewrite Hg, Hm, Hfb, Hkey.
  destruct (or_null (field "grade" fields));
    try (destruct (submit_assignment.grade_serialize_error
                     g m fb (field "feedbackFileId" fields));
         split; reflexivity).
  discriminate Hg.
Qed.

(** ** Completing an upload *)

Section Completion.
Import complete_upload.
Variable env : Env.
Variable event : complete_event.
Variables user_id user_email : string.
Variable b : complete_body.
Hypothesis event_body : body event = Some b.

Let result (w : World) : response * World :=
  lambda_handler env event user_id user_email w.





End Completion.




(** The failure path reads nothing before it writes: reported as failed,
    an [active] file is marked [failed]. *)
Lemma active_file_marked_failed :
  let w := Sample.world "active" [] [] in
  let event :=
    complete_upload.mkCompleteEvent
      (Some "f-report")
      (Some (complete_upload.mkCompleteBody false None None)) in
  let result :=
    complete_upload.lambda_handler Sample.env event "u-alice"
                                   "alice@campus.edu" w in
  statusCode (fst result) = 200
  /\ option_map FileItem.status
                (get_item FileItem.key key2_eqb ("u-alice", "f-report")
                          (files (snd result))) = Some "failed".
Proof. repeat split; vm_compute; reflexivity. Qed.

(** * Further properties of the handlers *)

(** ** More facts on tables *)

Section TableFacts2.
Context {R K : Type}.
Variable key : R -> K.
Variable eqb : K -> K -> bool.
Hypothesis eqb_eq : forall a b, eqb a b = true <-> a = b.

Lemma get_item_put (r : R) (t : list R) :
  get_item key eqb (key r) (put_item key eqb r t) = Some r.
Proof.
  unfold put_item; destruct (get_item key eqb (key r) t) as [x|] eqn:E.
  - apply (get_item_update key eqb eqb_eq (key r) (fun _ => r) t x);
      [reflexivity | exact E].
  - rewrite (get_item_app_new key eqb _ _ _ E).
    assert (H : eqb (key r) (key r) = true) by (apply eqb_eq; reflexivity).
    rewrite H; reflexivity.
Qed.

Lemma get_item_put_other (k : K) (r : R) (t : list R) :
  k <> key r ->
  get_item key eqb k (put_item key eqb r t) = get_item key eqb k t.
Proof.
  intros Hne; unfold put_item.
  destruct (get_item key eqb (key r) t) as [x|] eqn:E.
  - clear E; unfold get_item; induction t as [|y t IH]; simpl;
      [reflexivity|].
    destruct (eqb (key y) (key r)) eqn:Ey; simpl.
    + apply eqb_eq in Ey.
      rewrite (eqb_neq eqb eqb_eq (key r) k) by congruence.
      rewrite Ey, (eqb_neq eqb eqb_eq (key r) k) by congruence.
      reflexivity.
    + rewrite IH; reflexivity.
  - destruct (get_item key eqb k t) as [y|] eqn:Ek.
    + apply (get_item_app key eqb); exact Ek.
    + rewrite (get_item_app_new key eqb _ _ _ Ek).
      rewrite (eqb_neq eqb eqb_eq (key r) k) by congruence; reflexivity.
Qed.

Lemma put_item_filter_skip (p : R -> bool) (r : R) (t : list R) :
  (forall x, key x = key r -> p x = false) ->
  filter p (put_item key eqb r t) = filter p t.
Proof.
  intros Hp; unfold put_item.
  destruct (get_item key eqb (key r) t) as [x|] eqn:E.
  - clear E; induction t as [|y t IH]; simpl; [reflexivity|].
    destruct (eqb (key y) (key r)) eqn:Ey; simpl.
    + apply eqb_eq in Ey.
      rewrite (Hp r eq_refl), (Hp y Ey); reflexivity.
    + rewrite IH; reflexivity.
  - rewrite filter_app; simpl; rewrite (Hp r eq_refl), app_nil_r.
    reflexivity.
Qed.

Lemma update_item_length (k : K) (set : R -> R) (t : list R) :
  List.length (update_item key eqb k set t) = List.length t.
Proof.
  induction t as [|y t IH]; simpl; [reflexivity|].
  destruct (eqb (key y) k); simpl; [|rewrite IH]; reflexivity.
Qed.

Lemma update_item_In_inv (k : K) (set : R -> R) (t : list R) (x : R) :
  In x (update_item key eqb k set t) ->
  In x t \/ exists r, In r t /\ key r = k /\ x = set r.
Proof.
  induction t as [|y t IH]; simpl; [tauto|].
  destruct (eqb (key y) k) eqn:E; simpl.
  - intros [<- | Hin]; [|tauto].
    right; exists y; apply eqb_eq in E; auto.
  - intros [<- | Hin]; [tauto|].
    destruct (IH Hin) as [H | [r [Hr [Hk Hx]]]]; [tauto|].
    right; exists r; auto.
Qed.

Lemma put_item_In_inv (r : R) (t : list R) (x : R) :
  In x (put_item key eqb r t) -> In x t \/ x = r.
Proof.
  unfold put_item; destruct (get_item key eqb (key r) t).
  - intros H; apply update_item_In_inv in H.
    destruct H as [H | [y [_ [_ ->]]]]; auto.
  - intros H; apply in_app_or in H; destruct H as [H | [<- | []]]; auto.
Qed.

End TableFacts2.

(** ** Listings write nothing *)

Lemma shared_files_loop_world (env : Env) (l : list Share.t) (w w' : World)
      (acc : list json) (o : list json + string) :
  share_file.shared_files_loop env l w acc = (o, w') ->
  same_tables w w' /\ (ticks w <= ticks w')%nat.
Proof.
  revert w acc; induction l as [|share rest IH]; intros w acc; simpl.
  - intros H; inversion H; subst; unfold same_tables; repeat split; lia.
  - destruct (negb (Share.status share =? "active")%string); [apply IH|].
    destruct (share_file.expired env share w) as [[[|]|text] w1] eqn:E;
      apply expired_ticks in E; destruct E as [[Ef [Es [Eu [Ea Eb]]]] Et].
    + intros H; apply IH in H; destruct H as [[Hf [Hs [Hu [Ha Hb]]]] Ht].
      unfold same_tables; repeat split; try congruence; lia.
    + destruct (files_by_id (Share.fileId share) w1) as [|file_item others];
        [|destruct (share_file.shared_file share file_item)];
        intros H;
        try (apply IH in H; destruct H as [[Hf [Hs [Hu [Ha Hb]]]] Ht];
             unfold same_tables; repeat split; try congruence; lia).
      inversion H; subst; unfold same_tables; repeat split;
        try congruence; lia.
    + intros H; inversion H; subst; unfold same_tables; repeat split;
        try congruence; lia.
Qed.

Lemma same_tables_refl (w : World) : same_tables w w.
Proof. unfold same_tables; repeat split. Qed.

Lemma listings_read_only
        (env : Env) (file_id assignment_id : option string)
        (q : page_query) (lq : submit_assignment.list_query)
        (user_id user_role : string) (w : World) :
  same_tables w (snd (share_file.handle_list_shares env file_id user_id w))
  /\ same_tables w (snd (share_file.handle_shared_with_me env q user_id w))
  /\ same_tables
       w (snd (submit_assignment.handle_list_submissions
                 env assignment_id lq user_id user_role w))
  /\ same_tables
       w (snd (submit_assignment.handle_get_my_submissions
                 assignment_id user_id w)).
Proof.
  split; [|split; [|split]].
  - unfold share_file.handle_list_shares.
    repeat match goal with
           | |- context [match ?x with _ => _ end] =>
               lazymatch x with
               | share_file.active_shares_loop _ _ _ _ => fail
               | _ => destruct x
               end
           end; try apply same_tables_refl;
      destruct (share_file.active_shares_loop _ _ _ _) as [[out|text] w1]
        eqn:E; apply active_shares_loop_world in E; destruct E as [E _];
      try destruct (FileItem.filename _); exact E.
  - unfold share_file.handle_shared_with_me.
    destruct (page_limit 20 q); [|apply same_tables_refl].
    destruct (query_page _ _ _ _) as [[page last]|]; [|apply same_tables_refl].
    destruct (share_file.shared_files_loop env page w []) as [[out|text] w1]
      eqn:E; apply shared_files_loop_world in E; destruct E as [E _];
      exact E.
  - unfold submit_assignment.handle_list_submissions.
    repeat match goal with
           | |- context [match ?x with _ => _ end] => destruct x
           end; apply same_tables_refl.
  - unfold submit_assignment.handle_get_my_submissions.
    destruct (negb (present assignment_id)); apply same_tables_refl.
Qed.

(** X3. The four listings (the shares of a file, the files shared with the
    caller, the submissions of an assignment, the submissions of the
    caller) leave every table as it is, whatever the request and whatever
    they answer. *)
Theorem listings_leave_tables_unchanged
        (env : Env) (file_id assignment_id : option string)
        (q : page_query) (lq : submit_assignment.list_query)
        (user_id user_role : string) (w : World) :
  same_tables w (snd (share_file.handle_list_shares env file_id user_id w))
  /\ same_tables w (snd (share_file.handle_shared_with_me env q user_id w))
  /\ same_tables
       w (snd (submit_assignment.handle_list_submissions
                 env assignment_id lq user_id user_role w))
  /\ same_tables
       w (snd (submit_assignment.handle_get_my_submissions
                 assignment_id user_id w)).
Proof. apply listings_read_only. Qed.


(** ** What a share request writes *)

Section ShareWrites.
Import share_file.
Variable env : Env.
Variables file_id user_id user_email : string.
Variable message : json.
Variable expires_at : option json.

Let step : batch -> json -> outcome :=
  share_with env file_id user_id user_email message expires_at.

(** The items that the loop may add to the shares of a world. *)
Let grown (w w' : World) : Prop :=
  files w' = files w /\ users w' = users w
  /\ assignments w' = assignments w /\ submissions w' = submissions w
  /\ bucket w' = bucket w
  /\ filter (fun s => negb (Share.fileId s =? file_id)%string) (shares w')
     = filter (fun s => negb (Share.fileId s =? file_id)%string) (shares w)
  /\ forall s, In s (shares w') ->
       In s (shares w)
       \/ (Share.fileId s = file_id /\ Share.ownerId s = user_id
           /\ Share.status s = "active" /\ Share.accessCount s = 0
           /\ Share.revokedAt s = None).

Lemma grown_refl (w : World) : grown w w.
Proof. unfold grown; repeat split; auto. Qed.

Lemma grown_trans (w1 w2 w3 : World) :
  grown w1 w2 -> grown w2 w3 -> grown w1 w3.
Proof.
  unfold grown.
  intros (Hf & Hu & Ha & Hs & Hb & Ho & Hin) (Hf' & Hu' & Ha' & Hs' & Hb' & Ho'
                                               & Hin').
  repeat split; try congruence.
  intros s Hs3; destruct (Hin' s Hs3) as [H | H]; [apply Hin, H | right; exact H].
Qed.

Lemma grown_reading (w w' : World) :
  files w' = files w -> shares w' = shares w -> users w' = users w ->
  assignments w' = assignments w -> submissions w' = submissions w ->
  bucket w' = bucket w ->
  grown w w'.
Proof.
  intros Hf Hs Hu Ha Hsub Hb; unfold grown.
  repeat split; try congruence.
  rewrite Hs; auto.
Qed.

Lemma share_with_address_grown (b : batch) (address : string) (p : json) :
  grown (world b)
        (world_of (share_with_address env file_id user_id message expires_at
                                      b address p)).
Proof.
  destruct (share_with_address_cases env file_id user_id message expires_at
                                     b address p)
    as [[-> _] | [_ [[text ->] | [-> | [m [_ (_ & _ & ->)]]]]]];
    cbn [world_of world fail];
    try (destruct (get_user_by_email address (world b));
         apply grown_reading; reflexivity).
  eapply (grown_trans _ match get_user_by_email address (world b) with
                        | Some u => world b
                        | None => snd (uuid4 env (world b))
                        end);
    [destruct (get_user_by_email address (world b));
     apply grown_reading; reflexivity|].
  unfold grown, uuid4, utcnow;
    cbn [world files users assignments submissions bucket shares set_shares
         snd].
  repeat split; auto.
  - apply (put_item_filter_skip Share.key key2_eqb key2_eqb_eq).
    intros x Hx; unfold Share.key in Hx; simpl in Hx.
    inversion Hx as [[Hfid Huid]].
    rewrite Hfid, String.eqb_refl; reflexivity.
  - intros ? Hin.
    apply (put_item_In_inv Share.key key2_eqb key2_eqb_eq) in Hin.
    destruct Hin as [Hin | ->]; [left; exact Hin | right; repeat split].
Qed.

Lemma share_with_grown (b : batch) (r : json) :
  grown (world b) (world_of (step b r)).
Proof.
  unfold step, share_with, fail.
  destruct r; try apply grown_refl.
  destruct (email _) as [v|]; [|apply grown_refl].
  destruct (negb (json_truthy v)); [apply grown_refl|].
  destruct v; try apply grown_refl;
    try (destruct (orb _ _); apply grown_refl).
  destruct (orb _ _); [apply grown_refl|].
  destruct (String.eqb _ _); [apply grown_refl|].
  apply share_with_address_grown.
Qed.

Lemma share_loop_grown (l : list json) (b : batch) :
  grown (world b) (world_of (share_all step l b)).
Proof.
  revert b; induction l as [|r l IH]; intros b; simpl; [apply grown_refl|].
  pose proof (share_with_grown b r) as H.
  destruct (step b r) as [b'|text w']; [|exact H].
  eapply grown_trans; [exact H | apply IH].
Qed.

End ShareWrites.

Lemma share_file_world
      (env : Env) (file_id user_id user_email : string) (message : json)
      (expires_at : option json) (recipients : list json) (w : World) :
  snd match
        share_file.share_all
          (share_file.share_with env file_id user_id user_email message
                                 expires_at)
          recipients (share_file.mkBatch w [] [])
      with
      | share_file.Next b =>
          (create_response 200 (share_file.share_result b),
           share_file.world b)
      | share_file.Raised text w' => (internal_error text, w')
      end
  = world_of
      (share_file.share_all
         (share_file.share_with env file_id user_id user_email message
                                expires_at)
         recipients (share_file.mkBatch w [] [])).
Proof. destruct (share_file.share_all _ _ _); reflexivity. Qed.

Lemma share_file_writes
        (env : Env) (event : share_file.share_event)
        (user_id user_email user_name : string) (w : World) :
  let file_id :=
    match share_file.fileId event with Some f => f | None => "" end in
  let w' :=
    snd (share_file.handle_share_file env event user_id user_email user_name
                                      w) in
  files w' = files w /\ users w' = users w
  /\ assignments w' = assignments w /\ submissions w' = submissions w
  /\ bucket w' = bucket w
  /\ filter (fun s => negb (Share.fileId s =? file_id)%string) (shares w')
     = filter (fun s => negb (Share.fileId s =? file_id)%string) (shares w)
  /\ forall s, In s (shares w') ->
       In s (shares w)
       \/ (Share.fileId s = file_id /\ Share.ownerId s = user_id
           /\ Share.status s = "active" /\ Share.accessCount s = 0
           /\ exists file_item others,
                files_by_id file_id w = file_item :: others
                /\ FileItem.userId file_item = user_id
                /\ FileItem.status file_item = "active").
Proof.
  intros file_id w'; unfold w', share_file.handle_share_file; fold file_id.
  destruct (negb (present (share_file.fileId event)));
    [simpl; repeat split; auto|].
  destruct (share_file.body event) as [[v|raw]|];
    [|simpl; repeat split; auto|simpl; repeat split; auto].
  destruct v as [| | | | | | | |fields|];
    try (simpl; repeat split; auto; fail).
  destruct (negb (json_truthy _)); [simpl; repeat split; auto|].
  destruct (len _) as [n|]; [|simpl; repeat split; auto].
  destruct (Nat.eqb n 0); [simpl; repeat split; auto|].
  destruct (Nat.ltb 50 n); [simpl; repeat split; auto|].
  destruct (files_by_id file_id w) as [|file_item others] eqn:Hfound;
    [simpl; repeat split; auto|].
  destruct (FileItem.userId file_item =? user_id)%string eqn:Hown;
    [|simpl; repeat split; auto].
  destruct (FileItem.status file_item =? "active")%string eqn:Hact;
    [|simpl; repeat split; auto].
  cbn [negb]; rewrite share_file_world.
  destruct (share_loop_grown
              env file_id user_id user_email
              match field "message" fields with
              | Some m => m
              | None => JStr ""
              end
              (field "expiresAt" fields)
              (elements match field "recipients" fields with
                        | Some v => v
                        | None => JArr []
                        end)
              (share_file.mkBatch w [] []))
    as (Hf & Hu & Ha & Hs & Hb & Ho & Hin).
  cbn [share_file.world] in *.
  repeat split; try assumption.
  intros s Hs'; destruct (Hin s Hs') as [H | (H1 & H2 & H3 & H4 & _)];
    [left; exact H | right].
  repeat split; try assumption.
  exists file_item, others; repeat split.
  - apply String.eqb_eq, Hown.
  - apply String.eqb_eq, Hact.
Qed.

(** X1. Whatever the request, [handle_share_file] writes to the shares
    table only: the other tables are as before, the shares of other files
    are as before, and an item that was not there is a share of the file of
    the request, owned by the caller, [active], never accessed, and the
    file is one that the caller owns and that is [active]. *)
Theorem sharing_writes_only_shares_of_the_file
        (env : Env) (event : share_file.share_event)
        (user_id user_email user_name : string) (w : World) :
  let file_id :=
    match share_file.fileId event with Some f => f | None => "" end in
  let w' :=
    snd (share_file.handle_share_file env event user_id user_email user_name
                                      w) in
  files w' = files w /\ users w' = users w
  /\ assignments w' = assignments w /\ submissions w' = submissions w
  /\ bucket w' = bucket w
  /\ filter (fun s => negb (Share.fileId s =? file_id)%string) (shares w')
     = filter (fun s => negb (Share.fileId s =? file_id)%string) (shares w)
  /\ forall s, In s (shares w') ->
       In s (shares w)
       \/ (Share.fileId s = file_id /\ Share.ownerId s = user_id
           /\ Share.status s = "active" /\ Share.accessCount s = 0
           /\ exists file_item others,
                files_by_id file_id w = file_item :: others
                /\ FileItem.userId file_item = user_id
                /\ FileItem.status file_item = "active").
Proof. apply share_file_writes. Qed.


(** ** Who may write through the sharing Lambda *)

Lemma share_writes_for_the_owner
      (env : Env) (event : share_file.share_event)
      (user_id user_email user_name : string) (w : World) :
  let w' :=
    snd (share_file.handle_share_file env event user_id user_email user_name
                                      w) in
  shares w' <> shares w ->
  exists f file_item others,
    share_file.fileId event = Some f
    /\ files_by_id f w = file_item :: others
    /\ FileItem.userId file_item = user_id.
Proof.
  unfold share_file.handle_share_file, present.
  destruct (share_file.fileId event) as [f|]; simpl; [|tauto].
  destruct (truthy f); simpl; [|tauto].
  destruct (share_file.body event) as [[v|raw]|]; simpl; [|tauto|tauto].
  destruct v as [| | | | | | | |fields|]; try (simpl; tauto).
  destruct (negb (json_truthy _)); simpl; [tauto|].
  destruct (len _) as [n|]; simpl; [|tauto].
  destruct (Nat.eqb n 0); simpl; [tauto|].
  destruct (Nat.ltb 50 n); simpl; [tauto|].
  destruct (files_by_id f w) as [|file_item others] eqn:Hfound; simpl;
    [tauto|].
  destruct (FileItem.userId file_item =? user_id)%string eqn:Hown; simpl;
    [|tauto].
  intros _; exists f, file_item, others.
  split; [reflexivity | split; [exact Hfound | apply String.eqb_eq, Hown]].
Qed.

Lemma revoke_writes_for_the_owner
      (env : Env) (file_id share_id : option string) (user_id : string)
      (w : World) :
  let w' := snd (share_file.handle_revoke_share env file_id share_id user_id
                                                w) in
  files w' = files w /\ users w' = users w
  /\ assignments w' = assignments w /\ submissions w' = submissions w
  /\ bucket w' = bucket w
  /\ (shares w' <> shares w ->
      exists f file_item others,
        file_id = Some f
        /\ files_by_id f w = file_item :: others
        /\ FileItem.userId file_item = user_id).
Proof.
  unfold share_file.handle_revoke_share, present.
  destruct file_id as [f|]; simpl; [|repeat split; auto; tauto].
  destruct (truthy f); simpl; [|repeat split; auto; tauto].
  destruct share_id as [s|]; simpl; [|repeat split; auto; tauto].
  destruct (truthy s); simpl; [|repeat split; auto; tauto].
  destruct (files_by_id f w) as [|file_item others] eqn:Hfound;
    [simpl; repeat split; auto; tauto|].
  destruct (FileItem.userId file_item =? user_id)%string eqn:Hown; simpl;
    [|repeat split; auto; tauto].
  destruct (share_file.shares_by_id s w) as [|share rest];
    [simpl; repeat split; auto; tauto|].
  destruct (negb (Share.fileId share =? f)%string); simpl;
    [repeat split; auto; tauto|].
  repeat split; auto.
  intros _; exists f, file_item, others.
  split; [reflexivity | split; [exact Hfound | apply String.eqb_eq, Hown]].
Qed.

(** X2. Through the entry point of the sharing Lambda, whatever the method,
    the path and the body: nothing but the shares table is written, and the
    shares table changes only when the caller owns the file that the path
    names. *)
Theorem only_the_owner_changes_shares
        (env : Env) (e : share_file.event) (w : World) :
  let w' := snd (share_file.lambda_handler env e w) in
  files w' = files w /\ users w' = users w
  /\ assignments w' = assignments w /\ submissions w' = submissions w
  /\ (shares w' <> shares w ->
      exists f file_item others,
        share_file.path_fileId e = Some f
        /\ files_by_id f w = file_item :: others
        /\ FileItem.userId file_item = sub (share_file.caller e)).
Proof.
  unfold share_file.lambda_handler.
  destruct (andb _ _).
  { pose proof (share_file_writes
                  env
                  (share_file.mkShareEvent (share_file.path_fileId e)
                                           (share_file.request_body e))
                  (sub (share_file.caller e))
                  (claim_email (share_file.caller e))
                  (name_of (share_file.caller e)) w)
      as (Hf & Hu & Ha & Hs & _).
    repeat split; try assumption.
    apply (share_writes_for_the_owner
             env
             (share_file.mkShareEvent (share_file.path_fileId e)
                                      (share_file.request_body e))). }
  destruct (andb _ _).
  { destruct (listings_read_only
                env (share_file.path_fileId e) None (share_file.query e)
                (submit_assignment.mkListQuery None (share_file.query e))
                (sub (share_file.caller e)) "" w)
      as [(Hf & Hs & Hu & Ha & Hb) _].
    repeat split; try assumption; intros H; contradiction. }
  destruct (andb _ _).
  { destruct (revoke_writes_for_the_owner
                env (share_file.path_fileId e) (share_file.path_shareId e)
                (sub (share_file.caller e)) w)
      as (Hf & Hu & Ha & Hs & _ & Hw).
    repeat split; assumption. }
  destruct (andb _ _).
  { destruct (listings_read_only
                env None None (share_file.query e)
                (submit_assignment.mkListQuery None (share_file.query e))
                (sub (share_file.caller e)) "" w)
      as [_ [(Hf & Hs & Hu & Ha & Hb) _]].
    repeat split; try assumption; intros H; contradiction. }
  simpl; repeat split; auto; intros H; contradiction H; reflexivity.
Qed.

(** ** The shares that a request creates *)

Section ShareCreates.
Import share_file.
Variable env : Env.
Variables file_id user_id user_email : string.
Variable message : json.
Variable expires_at : option json.
Variable registered : list User.t.

Let step : batch -> json -> outcome :=
  share_with env file_id user_id user_email message expires_at.

Lemma share_with_address_creates (b : batch) (address : string) (p : json) :
  contains "@" address = true ->
  contains "." address = true ->
  lower address <> lower user_email ->
  users (world b) = registered ->
  let o :=
    share_with_address env file_id user_id message expires_at b address p in
  users (world_of o) = registered
  /\ forall s, In s (shares (world_of o)) ->
       In s (shares (world b))
       \/ created_share registered file_id user_id user_email s.
Proof.
  intros Hat Hdot Hself Hreg o.
  destruct (share_with_address_cases env file_id user_id message expires_at
                                     b address p)
    as [[Ho _] | [_ [[text Ho] | [Ho | [m [_ (_ & _ & Ho)]]]]]];
    fold o in Ho; rewrite Ho; clear Ho;
    cbn [world_of world fail]; unfold get_user_by_email;
    rewrite Hreg;
    destruct (find _ registered) as [u|] eqn:Hfind;
    unfold uuid4, utcnow; cbn [snd users shares set_shares];
    (split; [exact Hreg|]); auto;
    intros s Hin;
    apply (put_item_In_inv Share.key key2_eqb key2_eqb_eq) in Hin;
    (destruct Hin as [Hin | ->]; [left; exact Hin | right]);
    unfold created_share, share_item;
    cbn [Share.fileId Share.ownerId Share.status Share.accessCount
         Share.revokedAt Share.sharedWithEmail Share.sharedWithUserId];
    rewrite Hfind;
    repeat split; try assumption; try reflexivity;
    eexists; reflexivity.
Qed.

Lemma share_with_creates (b : batch) (r : json) :
  users (world b) = registered ->
  users (world_of (step b r)) = registered
  /\ forall s, In s (shares (world_of (step b r))) ->
       In s (shares (world b))
       \/ created_share registered file_id user_id user_email s.
Proof.
  intros Hreg; unfold step, share_with, fail.
  assert (Hsame : forall o,
             world_of o = world b ->
             users (world_of o) = registered
             /\ forall s, In s (shares (world_of o)) ->
                  In s (shares (world b))
                  \/ created_share registered file_id user_id user_email s)
    by (intros o ->; split; [exact Hreg | intros s Hin; left; exact Hin]).
  destruct r; try (apply Hsame; reflexivity).
  destruct (email _) as [v|]; [|apply Hsame; reflexivity].
  destruct (negb (json_truthy v)); [apply Hsame; reflexivity|].
  destruct v; try (apply Hsame; reflexivity);
    try (destruct (orb _ _); apply Hsame; reflexivity).
  destruct (contains "@" s) eqn:Hat; [|apply Hsame; reflexivity].
  destruct (contains "." s) eqn:Hdot; [|apply Hsame; reflexivity].
  cbn [negb orb].
  destruct (lower s =? lower user_email)%string eqn:Hself;
    [apply Hsame; reflexivity|].
  apply share_with_address_creates; try assumption.
  apply String.eqb_neq, Hself.
Qed.

Lemma share_loop_creates (l : list json) (b : batch) :
  users (world b) = registered ->
  forall s, In s (shares (world_of (share_all step l b))) ->
    In s (shares (world b))
    \/ created_share registered file_id user_id user_email s.
Proof.
  revert b; induction l as [|r l IH]; intros b Hreg s; simpl; [auto|].
  destruct (share_with_creates b r Hreg) as [Hreg' Hstep].
  destruct (step b r) as [b'|text w']; [|apply Hstep].
  intros Hin; destruct (IH _ Hreg' s Hin) as [H | H]; [|right; exact H].
  apply Hstep, H.
Qed.

End ShareCreates.

Lemma share_file_creates
      (env : Env) (event : share_file.share_event)
      (user_id user_email user_name : string) (w : World) (s : Share.t) :
  In s (shares (snd (share_file.handle_share_file env event user_id
                                                   user_email user_name w))) ->
  In s (shares w)
  \/ created_share (users w)
                   match share_file.fileId event with
                   | Some f => f
                   | None => ""
                   end
                   user_id user_email s.
Proof.
  unfold share_file.handle_share_file.
  destruct (negb (present (share_file.fileId event))); [simpl; auto|].
  destruct (share_file.body event) as [[v|raw]|]; [|simpl; auto|simpl; auto].
  destruct v as [| | | | | | | |fields|]; try (simpl; auto; fail).
  destruct (negb (json_truthy _)); [simpl; auto|].
  destruct (len _) as [n|]; [|simpl; auto].
  destruct (Nat.eqb n 0); [simpl; auto|].
  destruct (Nat.ltb 50 n); [simpl; auto|].
  destruct (files_by_id _ w) as [|file_item others]; [simpl; auto|].
  destruct (negb (FileItem.userId file_item =? user_id)%string);
    [simpl; auto|].
  destruct (negb (FileItem.status file_item =? "active")%string);
    [simpl; auto|].
  rewrite share_file_world; apply share_loop_creates; reflexivity.
Qed.

(** X4. A share that [handle_share_file] adds to the table has a recipient
    address with an [@] and a dot that is not the address of the caller
    (letter case aside); its grantee is the registered user with that
    address in lower case, or a [pending-] placeholder when nobody is
    registered with it; it is [active] and owned by the caller. *)
Theorem created_shares_are_well_formed
        (env : Env) (event : share_file.share_event)
        (user_id user_email user_name : string) (w : World) (s : Share.t) :
  In s (shares (snd (share_file.handle_share_file env event user_id
                                                   user_email user_name w))) ->
  ~ In s (shares w) ->
  created_share (users w)
                match share_file.fileId event with
                | Some f => f
                | None => ""
                end
                user_id user_email s.
Proof.
  intros Hin Hnew.
  destruct (share_file_creates env event user_id user_email user_name w s Hin)
    as [H | H]; [contradiction | exact H].
Qed.

(** ** Sharing twice with a registered user *)

Lemma share_item_key (share_id file_id user_id grantee address : string)
      (permissions : json) (t : Z) (message expires_at : option json) :
  Share.key (share_file.share_item share_id file_id user_id grantee address
                                   permissions t message expires_at)
  = (file_id, grantee).
Proof. reflexivity. Qed.

(** X5. When a pass of the recipient loop has shared the file with a
    registered user, the next pass for the same recipient, in the same
    request or in a later one, is turned down with "File already shared
    with this user" and writes nothing. *)
Theorem second_share_with_the_same_user_is_refused
        (env : Env) (file_id user_id user_email : string) (message : json)
        (expires_at : option json) (b b1 : share_file.batch)
        (r : json) (address : string) (u : User.t) :
  share_file.email r = Some (JStr address) ->
  share_file.get_user_by_email address (share_file.world b) = Some u ->
  let step :=
    share_file.share_with env file_id user_id user_email message expires_at in
  step b r = share_file.Next b1 ->
  share_file.successful_shares b1 <> share_file.successful_shares b ->
  step b1 r
  = share_file.Next
      (share_file.fail b1 (share_file.world b1)
         (share_file.failed_entry address
                                  "File already shared with this user")).
Proof.
  intros He Hu step; unfold step.
  rewrite !(share_with_text env file_id user_id user_email message expires_at
                            _ r address He).
  destruct (negb (truthy address));
    [intros H; inversion H; subst b1; intros Hne; contradiction Hne;
     reflexivity|].
  destruct (orb _ _);
    [intros H; inversion H; subst b1; intros Hne; contradiction Hne;
     reflexivity|].
  destruct (String.eqb (lower address) (lower user_email));
    [intros H; inversion H; subst b1; intros Hne; contradiction Hne;
     reflexivity|].
  destruct (share_with_address_cases env file_id user_id message expires_at
                                     b address (share_file.permissions r))
    as [[-> _] | [_ [[text ->] | [-> | [m [_ (_ & _ & ->)]]]]]].
  - intros H; inversion H; subst b1; intros Hne; contradiction Hne;
      reflexivity.
  - discriminate.
  - intros H; inversion H; subst b1; intros Hne; contradiction Hne;
      reflexivity.
  - intros H _; inversion H; subst b1; clear H.
    rewrite Hu.
    unfold share_file.share_with_address, share_file.get_user_by_email in *.
    cbn [share_file.world users set_shares].
    unfold uuid4, utcnow; cbn [snd users].
    rewrite Hu; cbv beta iota zeta.
    unfold share_file.check_existing_share.
    cbn [shares set_shares share_file.world ticks draws].
    match goal with
    | |- context [put_item Share.key key2_eqb ?item ?t] =>
        pose proof (get_item_put Share.key key2_eqb key2_eqb_eq item t)
          as Hget
    end.
    rewrite share_item_key in Hget.
    rewrite Hget.
    reflexivity.
Qed.

(** ** The listing of a file misses no live share *)

Lemma never_expires_passes (env : Env) (s : Share.t) (w : World) :
  never_expires env s ->
  exists w', share_file.expired env s w = (inl false, w').
Proof.
  unfold never_expires, share_file.expired, utcnow.
  destruct (Share.expiresAt s) as [e|]; [|eauto].
  intros [t [-> H]]; specialize (H (ticks w)).
  destruct (Z.gtb_spec (utcnow_at env (ticks w)) t); [lia | eauto].
Qed.

Lemma kept_shares_complete (env : Env) (l : list Share.t) (w w' : World)
      (acc out : list json) :
  share_file.active_shares_loop env l w acc = (inl out, w') ->
  forall s, In s l -> Share.status s = "active" -> never_expires env s ->
    In s (kept_shares env l w).
Proof.
  revert w acc; induction l as [|share rest IH]; intros w acc; simpl;
    [intros _ s []|].
  intros H s [<- | Hin] Hact Hlive.
  - rewrite Hact; simpl.
    destruct (never_expires_passes env share w Hlive) as [w1 ->].
    left; reflexivity.
  - destruct (negb (Share.status share =? "active")%string);
      [apply (IH _ _ H s Hin Hact Hlive)|].
    destruct (share_file.expired env share w) as [[[|]|text] w1];
      [| right |discriminate]; apply (IH _ _ H s Hin Hact Hlive).
Qed.

(** What [handle_list_shares] answers when it answers 200. *)
Lemma list_shares_ok (env : Env) (file_id user_id : string) (w w' : World)
      (r : response) :
  share_file.handle_list_shares env (Some file_id) user_id w = (r, w') ->
  statusCode r = 200 ->
  exists out,
    share_file.active_shares_loop env (shares_of_file file_id w) w []
    = (inl out, w')
    /\ body_field "shares" r = Some (JArr out)
    /\ body_field "total" r = Some (JNum (Z.of_nat (List.length out))).
Proof.
  unfold share_file.handle_list_shares, present.
  destruct (truthy file_id); simpl negb; cbv iota;
    [|intros H; inversion H; subst; simpl; discriminate].
  destruct (files_by_id file_id w) as [|file_item others];
    [intros H; inversion H; subst; simpl; discriminate|].
  destruct (negb (FileItem.userId file_item =? user_id)%string);
    [intros H; inversion H; subst; simpl; discriminate|].
  destruct (share_file.active_shares_loop env (shares_of_file file_id w) w [])
    as [[out|text] w1];
    [|intros H; inversion H; subst; simpl; discriminate].
  destruct (FileItem.filename file_item) as [filename|];
    [|intros H; inversion H; subst; simpl; discriminate].
  intros H _; inversion H; subst r w1.
  exists out; repeat split.
Qed.

Lemma live_share_in_listing
      (env : Env) (file_id user_id : string) (w w' : World) (r : response)
      (s : Share.t) :
  share_file.handle_list_shares env (Some file_id) user_id w = (r, w') ->
  statusCode r = 200 ->
  In s (shares w) ->
  Share.fileId s = file_id ->
  Share.status s = "active" ->
  never_expires env s ->
  exists entries,
    body_field "shares" r = Some (JArr entries)
    /\ In (share_file.formatted_share s) entries.
Proof.
  intros H Hcode Hin Hfile Hact Hlive.
  destruct (list_shares_ok env file_id user_id w w' r H Hcode)
    as [out [Hloop [Hbody _]]].
  exists out; split; [exact Hbody|].
  rewrite (active_shares_loop_kept env _ _ _ _ _ Hloop); simpl.
  apply in_map.
  apply (kept_shares_complete env _ _ _ _ _ Hloop); try assumption.
  unfold shares_of_file; apply filter_In; split; [exact Hin|].
  apply String.eqb_eq, Hfile.
Qed.

(** X6. When the owner lists the shares of a file and is answered 200,
    every stored share of the file that is [active] and has no expiry, or
    an expiry that spells a date, read without its UTC offset, that no
    reading of the clock exceeds, is in the answer. *)
Theorem live_shares_are_listed
        (env : Env) (file_id user_id : string) (w w' : World) (r : response)
        (s : Share.t) :
  share_file.handle_list_shares env (Some file_id) user_id w = (r, w') ->
  statusCode r = 200 ->
  In s (shares w) ->
  Share.fileId s = file_id ->
  Share.status s = "active" ->
  never_expires env s ->
  exists entries,
    body_field "shares" r = Some (JArr entries)
    /\ In (share_file.formatted_share s) entries.
Proof. apply live_share_in_listing. Qed.

(** ** A share that was just created is in the listing *)

(** The world after a pass of the loop that shared the file with a
    registered user. *)
Lemma share_with_shared
      (env : Env) (file_id user_id user_email : string) (message : json)
      (expires_at : option json) (b b1 : share_file.batch)
      (r : json) (address : string) (u : User.t) :
  share_file.email r = Some (JStr address) ->
  share_file.get_user_by_email address (share_file.world b) = Some u ->
  share_file.share_with env file_id user_id user_email message expires_at b r
  = share_file.Next b1 ->
  share_file.successful_shares b1 <> share_file.successful_shares b ->
  exists m,
    shares (share_file.world b1)
    = put_item Share.key key2_eqb
        (share_file.share_item
           (uuid4_at env (draws (share_file.world b))) file_id user_id
           (User.userId u) address (share_file.permissions r)
           (utcnow_at env (ticks (share_file.world b))) m expires_at)
        (shares (share_file.world b)).
Proof.
  intros He Hu.
  rewrite (share_with_text env file_id user_id user_email message expires_at
                           b r address He).
  destruct (negb (truthy address));
    [intros H; inversion H; subst b1; intros Hne; contradiction Hne;
     reflexivity|].
  destruct (orb _ _);
    [intros H; inversion H; subst b1; intros Hne; contradiction Hne;
     reflexivity|].
  destruct (String.eqb (lower address) (lower user_email));
    [intros H; inversion H; subst b1; intros Hne; contradiction Hne;
     reflexivity|].
  destruct (share_with_address_cases env file_id user_id message expires_at
                                     b address (share_file.permissions r))
    as [[-> _] | [_ [[text ->] | [-> | [m [_ (_ & _ & ->)]]]]]].
  - intros H; inversion H; subst b1; intros Hne; contradiction Hne;
      reflexivity.
  - discriminate.
  - intros H; inversion H; subst b1; intros Hne; contradiction Hne;
      reflexivity.
  - intros H _; inversion H; subst b1; clear H.
    exists m; rewrite Hu; reflexivity.
Qed.

(** X7. Round trip.  After a pass of the loop has shared the file with a
    registered user whose address the request gave as a text, a listing of
    the file that is answered 200 has an entry for that user with the
    permissions of the request ([read] when none was given), the recipient
    address as it was given and the expiry as the request gave it, provided
    that expiry is absent, counts as none (empty, [null]), or spells a date
    that, read without its UTC offset, no reading of the clock exceeds. *)
Theorem created_share_is_listed
        (env : Env) (file_id user_id user_email : string) (message : json)
        (expires_at : option json) (b b1 : share_file.batch)
        (r : json) (address : string) (u : User.t)
        (answer : response) (w2 : World) :
  share_file.email r = Some (JStr address) ->
  share_file.get_user_by_email address (share_file.world b) = Some u ->
  share_file.share_with env file_id user_id user_email message expires_at b r
  = share_file.Next b1 ->
  share_file.successful_shares b1 <> share_file.successful_shares b ->
  (forall n, open_at (utcnow_at env n) expires_at) ->
  share_file.handle_list_shares env (Some file_id) user_id
                                (share_file.world b1) = (answer, w2) ->
  statusCode answer = 200 ->
  exists entries fields,
    body_field "shares" answer = Some (JArr entries)
    /\ In (JObj fields) entries
    /\ field "permissions" fields = Some (share_file.permissions r)
    /\ field "sharedWith" fields
       = Some (JObj [("userId", JStr (User.userId u));
                     ("email", JStr address)])
    /\ field "status" fields = Some (JStr "active")
    /\ field "expiresAt" fields
       = if given expires_at then expires_at else None.
Proof.
  intros He Hu Hstep Hshared Hexp Hlist Hcode.
  destruct (share_with_shared env file_id user_id user_email message
                              expires_at b b1 r address u He Hu Hstep Hshared)
    as [m Hworld].
  set (item :=
         share_file.share_item
           (uuid4_at env (draws (share_file.world b))) file_id user_id
           (User.userId u) address (share_file.permissions r)
           (utcnow_at env (ticks (share_file.world b))) m expires_at)
    in *.
  assert (Hin : In item (shares (share_file.world b1)))
    by (rewrite Hworld; apply put_item_In).
  assert (Hlive : never_expires env item).
  { unfold never_expires, item, share_file.share_item.
    cbn [Share.expiresAt].
    destruct (given expires_at) eqn:Hgiven; [|exact I].
    destruct expires_at as [e|]; [|exact I].
    destruct (Hexp 0%nat) as [Hnone | [t [Ht _]]];
      [rewrite Hnone in Hgiven; discriminate|].
    exists t; split; [exact Ht|].
    intros n; destruct (Hexp n) as [Hnone | [t' [Ht' Hle]]];
      [rewrite Hnone in Hgiven; discriminate|].
    cbn [or_null] in Ht, Ht'; rewrite Ht in Ht'; inversion Ht'; subst t'.
    exact Hle. }
  destruct (live_share_in_listing env file_id user_id _ _ _ item Hlist Hcode
                                  Hin eq_refl eq_refl Hlive)
    as [entries [Hbody Hentry]].
  exists entries; eexists; split; [exact Hbody | split; [exact Hentry|]].
  split; [reflexivity|].
  split; [reflexivity|].
  split; [reflexivity|].
  unfold item, share_file.share_item; cbn [Share.expiresAt Share.lastAccessedAt].
  destruct (given expires_at); [|reflexivity].
  destruct expires_at as [e|]; reflexivity.
Qed.

(** ** After a revocation *)

Section UniqueAttribute.
Context {R K A : Type}.
Variable key : R -> K.
Variable eqb : K -> K -> bool.
Variable f : R -> A.

(** In a table where [f] names the items, an update of the item [r] leaves
    [set r] and the items with another name. *)
Lemma update_item_unique (k : K) (set : R -> R) (t : list R) (r x : R) :
  NoDup (map f t) ->
  get_item key eqb k t = Some r ->
  In x (update_item key eqb k set t) ->
  x = set r \/ (In x t /\ f x <> f r).
Proof.
  unfold get_item; induction t as [|y t IH]; simpl; [discriminate|].
  intros Hnd Hget; inversion Hnd as [|? ? Hy Ht]; subst.
  destruct (eqb (key y) k) eqn:E.
  - inversion Hget; subst y; simpl.
    intros [<- | Hin]; [left; reflexivity | right].
    split; [right; exact Hin|].
    intros Heq; apply Hy; rewrite <- Heq; apply in_map, Hin.
  - simpl; intros [<- | Hin].
    + right; split; [left; reflexivity|].
      intros Heq; apply Hy; rewrite Heq; apply in_map.
      apply find_some in Hget; tauto.
    + destruct (IH Ht Hget Hin) as [H | [H1 H2]]; [left; exact H | right].
      split; [right; exact H1 | exact H2].
Qed.

End UniqueAttribute.

Lemma formatted_share_id (s : Share.t) (fields : list (string * json)) :
  share_file.formatted_share s = JObj fields ->
  field "shareId" fields = Some (JStr (Share.shareId s)).
Proof.
  unfold share_file.formatted_share; intros H; inversion H; reflexivity.
Qed.

(** X8. In a table where the share ids are distinct, once the owner has
    revoked a share, a listing of the file that is answered 200 has no
    entry with the id of that share. *)
Theorem revoked_share_leaves_the_listing
        (env : Env) (file_id share_id user_id : string) (w : World)
        (file_item : FileItem.t) (others : list FileItem.t)
        (share : Share.t) (rest : list Share.t)
        (answer : response) (w2 : World)
        (entries : list json) (fields : list (string * json)) :
  truthy file_id = true ->
  truthy share_id = true ->
  files_by_id file_id w = file_item :: others ->
  FileItem.userId file_item = user_id ->
  share_file.shares_by_id share_id w = share :: rest ->
  Share.fileId share = file_id ->
  get_item Share.key key2_eqb (Share.key share) (shares w) = Some share ->
  NoDup (map Share.shareId (shares w)) ->
  share_file.handle_list_shares
    env (Some file_id) user_id
    (snd (share_file.handle_revoke_share env (Some file_id) (Some share_id)
                                         user_id w))
  = (answer, w2) ->
  statusCode answer = 200 ->
  body_field "shares" answer = Some (JArr entries) ->
  In (JObj fields) entries ->
  field "shareId" fields <> Some (JStr share_id).
Proof.
  intros Hf Hs Hfile Hown Hshare Hbelongs Hstored Hnd Hlist Hcode Hbody Hentry.
  assert (Hid : Share.shareId share = share_id).
  { assert (Hin : In share (share_file.shares_by_id share_id w))
      by (rewrite Hshare; left; reflexivity).
    apply filter_In in Hin; apply String.eqb_eq; tauto. }
  assert (Hk : Share.key share = (file_id, Share.sharedWithUserId share))
    by (unfold Share.key; rewrite Hbelongs; reflexivity).
  rewrite Hk in Hstored.
  revert Hlist.
  unfold share_file.handle_revoke_share, present.
  rewrite Hf, Hs, Hfile, Hown, Hshare, Hbelongs, !String.eqb_refl.
  unfold utcnow; cbn [negb orb snd fst shares set_shares].
  intros Hlist.
  destruct (list_shares_ok env file_id user_id _ _ _ Hlist Hcode)
    as [out [Hloop [Hbody' _]]].
  rewrite Hbody in Hbody'; inversion Hbody'; subst out.
  rewrite (active_shares_loop_kept env _ _ _ _ _ Hloop) in Hentry.
  simpl in Hentry; apply in_map_iff in Hentry.
  destruct Hentry as [s [Hfmt Hkept]].
  rewrite (formatted_share_id s fields Hfmt).
  destruct (kept_shares_sound env _ _ _ _ _ Hloop s Hkept) as [Hin [Hact _]].
  unfold shares_of_file in Hin; apply filter_In in Hin; destruct Hin as [Hin _].
  cbn [shares set_shares] in Hin.
  destruct (update_item_unique Share.key key2_eqb Share.shareId
                               _ _ _ _ _ Hnd Hstored Hin)
    as [-> | [_ Hother]].
  - simpl in Hact; discriminate.
  - rewrite Hid in Hother; congruence.
Qed.

(** The attributes of a share that a revocation leaves alone. *)
Lemma revoke_keeps {A : Type} (f : Share.t -> A)
      (env : Env) (file_id share_id : option string) (user_id : string)
      (w : World) :
  (forall t s, f (share_file.revoked t s) = f s) ->
  map f (shares (snd (share_file.handle_revoke_share env file_id share_id
                                                      user_id w)))
  = map f (shares w).
Proof.
  intros Hf; unfold share_file.handle_revoke_share, utcnow.
  repeat match goal with
         | |- context [match ?x with _ => _ end] => destruct x
         end; try reflexivity;
    simpl; apply update_item_map; intros; apply Hf.
Qed.

Lemma revoke_never_activates
      (env : Env) (file_id share_id : option string) (user_id : string)
      (w : World) (s : Share.t) :
  In s (shares (snd (share_file.handle_revoke_share env file_id share_id
                                                     user_id w))) ->
  In s (shares w) \/ Share.status s = "revoked".
Proof.
  unfold share_file.handle_revoke_share, utcnow.
  repeat match goal with
         | |- context [match ?x with _ => _ end] => destruct x
         end; simpl; auto;
    intros Hin;
    apply (update_item_In_inv Share.key key2_eqb key2_eqb_eq) in Hin;
    (destruct Hin as [Hin | [r [_ [_ ->]]]]; [left; exact Hin | right]);
    reflexivity.
Qed.

(** X9. A revocation is a soft delete.  Whatever the request, it keeps
    every item of the shares table in place with its id, file, owner,
    grantee, address, permissions, dates, access count, message and expiry;
    an item that is not as before has the status [revoked]; the other
    tables are as before. *)
Theorem revocation_is_a_soft_delete
        (env : Env) (file_id share_id : option string) (user_id : string)
        (w : World) :
  let w' := snd (share_file.handle_revoke_share env file_id share_id user_id
                                                w) in
  map (fun s => (Share.shareId s, Share.fileId s, Share.ownerId s,
                 Share.sharedWithUserId s, Share.sharedWithEmail s,
                 Share.permissions s, Share.sharedAt s, Share.accessCount s,
                 Share.message s, Share.expiresAt s, Share.ttl s,
                 Share.lastAccessedAt s)) (shares w')
  = map (fun s => (Share.shareId s, Share.fileId s, Share.ownerId s,
                   Share.sharedWithUserId s, Share.sharedWithEmail s,
                   Share.permissions s, Share.sharedAt s, Share.accessCount s,
                   Share.message s, Share.expiresAt s, Share.ttl s,
                   Share.lastAccessedAt s)) (shares w)
  /\ (forall s, In s (shares w') ->
        In s (shares w) \/ Share.status s = "revoked")
  /\ files w' = files w /\ users w' = users w
  /\ assignments w' = assignments w /\ submissions w' = submissions w.
Proof.
  intros w'; split; [apply revoke_keeps; reflexivity|].
  split; [apply revoke_never_activates|].
  destruct (revoke_writes_for_the_owner env file_id share_id user_id w)
    as (Hf & Hu & Ha & Hs & _).
  repeat split; assumption.
Qed.

(** ** Downloads *)

Lemma check_file_share_access_true
      (env : Env) (file_id user_id : string) (w w' : World) :
  generate_presigned_url.check_file_share_access env file_id user_id w
  = (true, w') ->
  same_tables w w'
  /\ exists share,
       get_item Share.key key2_eqb (file_id, user_id) (shares w) = Some share
       /\ Share.status share = "active"
       /\ match Share.expiresAt share with
          | None => True
          | Some e => exists t, expiry_of e = inl t /\ utcnow_at env (ticks w) <= t
          end.
Proof.
  unfold generate_presigned_url.check_file_share_access, utcnow.
  destruct (get_item Share.key key2_eqb (file_id, user_id) (shares w))
    as [share|]; [|discriminate].
  destruct (Share.status share =? "active")%string eqn:Hact;
    [|discriminate].
  apply String.eqb_eq in Hact.
  cbn [negb].
  destruct (Share.expiresAt share) as [e|] eqn:Hexp.
  - destruct (expiry_of e) as [t|text] eqn:He; intros H; [|discriminate].
    injection H as Hb Hw; subst w'.
    split; [unfold same_tables; cbn; tauto|].
    exists share; split; [reflexivity|]; split; [exact Hact|].
    rewrite Hexp; exists t; split; [exact He|].
    destruct (Z.gtb_spec (utcnow_at env (ticks w)) t);
      [discriminate | lia].
  - intros H; injection H as Hw; subst w'.
    split; [apply same_tables_refl|].
    exists share; split; [reflexivity|]; split; [exact Hact|].
    rewrite Hexp; exact I.
Qed.

Lemma download_granted
      (cfg : generate_presigned_url.Config)
      (signer : generate_presigned_url.Signer) (env : Env)
      (file_id user_id : string) (w w' : World) (r : response) :
  generate_presigned_url.handle_download_url cfg signer env (Some file_id)
                                             user_id w = (r, w') ->
  statusCode r = 200 ->
  exists file_item others,
    files_by_id file_id w = file_item :: others
    /\ FileItem.status file_item = "active"
    /\ (FileItem.userId file_item = user_id
        \/ exists share,
             get_item Share.key key2_eqb (file_id, user_id) (shares w)
             = Some share
             /\ Share.status share = "active"
             /\ match Share.expiresAt share with
                | None => True
                | Some e =>
                    exists t, expiry_of e = inl t /\ utcnow_at env (ticks w) <= t
                end)
    /\ files w'
       = update_item FileItem.key key2_eqb
           (FileItem.userId file_item, file_id)
           generate_presigned_url.count_download (files w)
    /\ shares w' = shares w /\ users w' = users w
    /\ assignments w' = assignments w /\ submissions w' = submissions w.
Proof.
  unfold generate_presigned_url.handle_download_url, present.
  destruct (truthy file_id); simpl negb; cbv iota;
    [|intros H; inversion H; subst; simpl; discriminate].
  destruct (files_by_id file_id w) as [|file_item others];
    [intros H; inversion H; subst; simpl; discriminate|].
  intros H Hcode; exists file_item, others.
  destruct (FileItem.userId file_item =? user_id)%string eqn:Hown.
  - cbv beta iota zeta in H; cbn [negb] in H.
    destruct (FileItem.status file_item =? "active")%string eqn:Hact;
      cbn [negb] in H; [|inversion H; subst; simpl in Hcode; discriminate].
    destruct (FileItem.s3Key file_item);
      [|inversion H; subst; simpl in Hcode; discriminate].
    destruct (FileItem.filename file_item);
      [|inversion H; subst; simpl in Hcode; discriminate].
    destruct (FileItem.contentType file_item);
      [|inversion H; subst; simpl in Hcode; discriminate].
    destruct (FileItem.downloadCount file_item);
      [|inversion H; subst; simpl in Hcode; discriminate].
    destruct (FileItem.fileSize file_item);
      inversion H; subst; simpl in Hcode; [|discriminate].
    repeat split; try reflexivity.
    + apply String.eqb_eq, Hact.
    + left; apply String.eqb_eq, Hown.
  - destruct (generate_presigned_url.check_file_share_access
                env file_id user_id w) as [[|] w1] eqn:Haccess;
      cbn [negb] in H; [|inversion H; subst; simpl in Hcode; discriminate].
    apply check_file_share_access_true in Haccess.
    destruct Haccess as [(Hf & Hs & Hu & Ha & Hb) Hshare].
    destruct (FileItem.status file_item =? "active")%string eqn:Hact;
      cbn [negb] in H; [|inversion H; subst; simpl in Hcode; discriminate].
    destruct (FileItem.s3Key file_item);
      [|inversion H; subst; simpl in Hcode; discriminate].
    destruct (FileItem.filename file_item);
      [|inversion H; subst; simpl in Hcode; discriminate].
    destruct (FileItem.contentType file_item);
      [|inversion H; subst; simpl in Hcode; discriminate].
    destruct (FileItem.downloadCount file_item);
      [|inversion H; subst; simpl in Hcode; discriminate].
    destruct (FileItem.fileSize file_item);
      inversion H; subst; simpl in Hcode; [|discriminate].
    cbn [files shares users assignments submissions set_files].
    rewrite Hf.
    repeat split; try assumption.
    + apply String.eqb_eq, Hact.
    + right; exact Hshare.
Qed.

(** X10. [handle_download_url] answers 200 only for a file that is found
    and [active], to its owner or to a caller for whom the shares table
    holds, under (file, caller), a share that is [active] and whose expiry,
    if any, spells a date that, read without its UTC offset, is not behind
    the clock; the request adds one to the download count of the file and
    writes nothing else. *)
Theorem download_needs_ownership_or_a_live_share
        (cfg : generate_presigned_url.Config)
        (signer : generate_presigned_url.Signer) (env : Env)
        (file_id user_id : string) (w w' : World) (r : response) :
  generate_presigned_url.handle_download_url cfg signer env (Some file_id)
                                             user_id w = (r, w') ->
  statusCode r = 200 ->
  exists file_item others,
    files_by_id file_id w = file_item :: others
    /\ FileItem.status file_item = "active"
    /\ (FileItem.userId file_item = user_id
        \/ exists share,
             get_item Share.key key2_eqb (file_id, user_id) (shares w)
             = Some share
             /\ Share.status share = "active"
             /\ match Share.expiresAt share with
                | None => True
                | Some e =>
                    exists t, expiry_of e = inl t /\ utcnow_at env (ticks w) <= t
                end)
    /\ files w'
       = update_item FileItem.key key2_eqb
           (FileItem.userId file_item, file_id)
           generate_presigned_url.count_download (files w)
    /\ shares w' = shares w /\ users w' = users w
    /\ assignments w' = assignments w /\ submissions w' = submissions w.
Proof. apply download_granted. Qed.

Lemma revoked_grantee_is_denied
      (cfg : generate_presigned_url.Config)
      (signer : generate_presigned_url.Signer) (env env' : Env)
      (file_id share_id user_id : string) (w : World)
      (file_item : FileItem.t) (others : list FileItem.t)
      (share : Share.t) (others' : list Share.t) :
  truthy file_id = true ->
  truthy share_id = true ->
  files_by_id file_id w = file_item :: others ->
  FileItem.userId file_item = user_id ->
  share_file.shares_by_id share_id w = share :: others' ->
  Share.fileId share = file_id ->
  get_item Share.key key2_eqb (Share.key share) (shares w) = Some share ->
  Share.sharedWithUserId share <> user_id ->
  let w1 :=
    snd (share_file.handle_revoke_share env (Some file_id) (Some share_id)
                                        user_id w) in
  let result :=
    generate_presigned_url.handle_download_url
      cfg signer env' (Some file_id) (Share.sharedWithUserId share) w1 in
  fst result
  = create_response 403
      (error_body "Forbidden" "You do not have access to this file")
  /\ files (snd result) = files w.
Proof.
  intros Hf Hs Hfile Hown Hshare Hbelongs Hstored Hother w1 result.
  assert (Hk : Share.key share = (file_id, Share.sharedWithUserId share))
    by (unfold Share.key; rewrite Hbelongs; reflexivity).
  assert (Hget : get_item Share.key key2_eqb
                   (file_id, Share.sharedWithUserId share) (shares w1)
                 = Some (share_file.revoked (utcnow_at env (ticks w)) share)).
  { rewrite <- Hk.
    apply (revoke_share_any_status env file_id share_id user_id w
             file_item others share others'); assumption. }
  assert (Hfiles : files w1 = files w).
  { unfold w1, share_file.handle_revoke_share, present.
    rewrite Hf, Hs, Hfile, Hown, Hshare, Hbelongs, !String.eqb_refl.
    reflexivity. }
  assert (Hindex : files_by_id file_id w1 = file_item :: others)
    by (unfold files_by_id in *; rewrite Hfiles; exact Hfile).
  assert (Hneq : (FileItem.userId file_item
                  =? Share.sharedWithUserId share)%string = false).
  { apply String.eqb_neq; rewrite Hown; congruence. }
  unfold result, generate_presigned_url.handle_download_url, present.
  rewrite Hf; cbn [negb]; cbv iota.
  rewrite Hindex, Hneq.
  unfold generate_presigned_url.check_file_share_access.
  rewrite Hget; cbn.
  split; [reflexivity | exact Hfiles].
Qed.

(** X11. Once the owner has revoked a share, the user it was made for is
    refused the download of the file with 403 (unless that user is the
    owner), whatever the clock reads, and the file record is not touched:
    the download path reads the same item that the revocation wrote. *)
Theorem revoked_share_gives_no_download
        (cfg : generate_presigned_url.Config)
        (signer : generate_presigned_url.Signer) (env env' : Env)
        (file_id share_id user_id : string) (w : World)
        (file_item : FileItem.t) (others : list FileItem.t)
        (share : Share.t) (others' : list Share.t) :
  truthy file_id = true ->
  truthy share_id = true ->
  files_by_id file_id w = file_item :: others ->
  FileItem.userId file_item = user_id ->
  share_file.shares_by_id share_id w = share :: others' ->
  Share.fileId share = file_id ->
  get_item Share.key key2_eqb (Share.key share) (shares w) = Some share ->
  Share.sharedWithUserId share <> user_id ->
  let w1 :=
    snd (share_file.handle_revoke_share env (Some file_id) (Some share_id)
                                        user_id w) in
  let result :=
    generate_presigned_url.handle_download_url
      cfg signer env' (Some file_id) (Share.sharedWithUserId share) w1 in
  fst result
  = create_response 403
      (error_body "Forbidden" "You do not have access to this file")
  /\ files (snd result) = files w.
Proof. apply revoked_grantee_is_denied. Qed.

Lemma live_share_downloads
      (cfg : generate_presigned_url.Config)
      (signer : generate_presigned_url.Signer) (env : Env)
      (file_id user_id : string) (w : World)
      (file_item : FileItem.t) (others : list FileItem.t)
      (s3_key filename content_type : string) (size count : Z) :
  truthy file_id = true ->
  files_by_id file_id w = file_item :: others ->
  FileItem.status file_item = "active" ->
  FileItem.s3Key file_item = Some s3_key ->
  FileItem.filename file_item = Some filename ->
  FileItem.contentType file_item = Some content_type ->
  FileItem.fileSize file_item = Some size ->
  FileItem.downloadCount file_item = Some count ->
  FileItem.userId file_item = user_id
  \/ (exists share,
        get_item Share.key key2_eqb (file_id, user_id) (shares w)
        = Some share
        /\ Share.status share = "active"
        /\ match Share.expiresAt share with
           | None => True
           | Some e => exists t, expiry_of e = inl t /\ utcnow_at env (ticks w) <= t
           end) ->
  let result :=
    generate_presigned_url.handle_download_url
      cfg signer env (Some file_id) user_id w in
  fst result
  = create_response 200
      (JObj [("downloadUrl",
              JStr (generate_presigned_url.generate_presigned_url
                      signer (generate_presigned_url.S3_BUCKET cfg) s3_key
                      (generate_presigned_url.content_disposition filename)
                      content_type
                      (generate_presigned_url.DOWNLOAD_URL_EXPIRATION cfg)));
             ("filename", JStr filename);
             ("contentType", JStr content_type);
             ("fileSize", JNum size);
             ("expiresIn",
              JNum (generate_presigned_url.DOWNLOAD_URL_EXPIRATION cfg))])
  /\ files (snd result)
     = update_item FileItem.key key2_eqb (FileItem.userId file_item, file_id)
         generate_presigned_url.count_download (files w).
Proof.
  intros Hf Hfile Hact Hkey Hname Htype Hsize Hcount Haccess result.
  unfold result, generate_presigned_url.handle_download_url, present.
  rewrite Hf; cbn [negb]; cbv iota.
  rewrite Hfile.
  destruct (FileItem.userId file_item =? user_id)%string eqn:Hown.
  - cbv beta iota zeta; cbn [negb].
    rewrite Hact, String.eqb_refl, Hkey, Hname, Htype, Hcount, Hsize.
    split; reflexivity.
  - destruct Haccess as [Howner | (share & Hget & Hstatus & Hexp)].
    + apply String.eqb_neq in Hown; contradiction.
    + unfold generate_presigned_url.check_file_share_access.
      rewrite Hget, Hstatus, String.eqb_refl; cbn [negb].
      destruct (Share.expiresAt share) as [e|].
      * destruct Hexp as (t & -> & Hle).
        unfold utcnow.
        destruct (Z.gtb_spec (utcnow_at env (ticks w)) t) as [Hgt|_];
          [lia|].
        cbn [negb].
        rewrite Hact, String.eqb_refl, Hkey, Hname, Htype, Hcount, Hsize.
        split; reflexivity.
      * cbn [negb].
        rewrite Hact, String.eqb_refl, Hkey, Hname, Htype, Hcount, Hsize.
        split; reflexivity.
Qed.

(** X12. The owner of a file, and a user for whom the shares table holds
    an [active] share of the file whose expiry, if any, spells a date that,
    read without its UTC offset, is not behind the clock, obtain the
    download link of an [active] file that carries its storage key, name,
    type, size and download count: the answer is 200 with the link signed
    for that key and the file's name, type and size, and the download count
    of the file goes up by one. *)
Theorem owner_and_live_grantee_download
        (cfg : generate_presigned_url.Config)
        (signer : generate_presigned_url.Signer) (env : Env)
        (file_id user_id : string) (w : World)
        (file_item : FileItem.t) (others : list FileItem.t)
        (s3_key filename content_type : string) (size count : Z) :
  truthy file_id = true ->
  files_by_id file_id w = file_item :: others ->
  FileItem.status file_item = "active" ->
  FileItem.s3Key file_item = Some s3_key ->
  FileItem.filename file_item = Some filename ->
  FileItem.contentType file_item = Some content_type ->
  FileItem.fileSize file_item = Some size ->
  FileItem.downloadCount file_item = Some count ->
  FileItem.userId file_item = user_id
  \/ (exists share,
        get_item Share.key key2_eqb (file_id, user_id) (shares w)
        = Some share
        /\ Share.status share = "active"
        /\ match Share.expiresAt share with
           | None => True
           | Some e => exists t, expiry_of e = inl t /\ utcnow_at env (ticks w) <= t
           end) ->
  let result :=
    generate_presigned_url.handle_download_url
      cfg signer env (Some file_id) user_id w in
  fst result
  = create_response 200
      (JObj [("downloadUrl",
              JStr (generate_presigned_url.generate_presigned_url
                      signer (generate_presigned_url.S3_BUCKET cfg) s3_key
                      (generate_presigned_url.content_disposition filename)
                      content_type
                      (generate_presigned_url.DOWNLOAD_URL_EXPIRATION cfg)));
             ("filename", JStr filename);
             ("contentType", JStr content_type);
             ("fileSize", JNum size);
             ("expiresIn",
              JNum (generate_presigned_url.DOWNLOAD_URL_EXPIRATION cfg))])
  /\ files (snd result)
     = update_item FileItem.key key2_eqb (FileItem.userId file_item, file_id)
         generate_presigned_url.count_download (files w).
Proof. apply live_share_downloads. Qed.

(** X13. Round trip between the two lambdas.  After a pass of the loop of
    [handle_share_file] has shared an [active] file with a registered user
    whose address the request gave as a text, that user's download request
    is answered 200, provided the expiry of the share request is absent,
    counts as none (empty, [null]), or spells a date that, read without its
    UTC offset, is not behind the clock at the download. *)
Theorem shared_file_can_be_downloaded
        (cfg : generate_presigned_url.Config)
        (signer : generate_presigned_url.Signer) (env env' : Env)
        (file_id user_id user_email : string) (message : json)
        (expires_at : option json) (b b1 : share_file.batch)
        (r : json) (address : string) (u : User.t)
        (file_item : FileItem.t) (others : list FileItem.t)
        (s3_key filename content_type : string) (size count : Z) :
  share_file.email r = Some (JStr address) ->
  share_file.get_user_by_email address (share_file.world b) = Some u ->
  share_file.share_with env file_id user_id user_email message expires_at b r
  = share_file.Next b1 ->
  share_file.successful_shares b1 <> share_file.successful_shares b ->
  truthy file_id = true ->
  files_by_id file_id (share_file.world b) = file_item :: others ->
  FileItem.status file_item = "active" ->
  FileItem.s3Key file_item = Some s3_key ->
  FileItem.filename file_item = Some filename ->
  FileItem.contentType file_item = Some content_type ->
  FileItem.fileSize file_item = Some size ->
  FileItem.downloadCount file_item = Some count ->
  open_at (utcnow_at env' (ticks (share_file.world b1))) expires_at ->
  statusCode
    (fst (generate_presigned_url.handle_download_url
            cfg signer env' (Some file_id) (User.userId u)
            (share_file.world b1))) = 200.
Proof.
  intros He Hu Hstep Hshared Hf Hfile Hact Hkey Hname Htype Hsize Hcount Hexp.
  destruct (share_with_shared env file_id user_id user_email message
                              expires_at b b1 r address u He Hu Hstep Hshared)
    as [m Hworld].
  pose proof (share_with_grown env file_id user_id user_email message
                               expires_at b r) as (Hfiles & _).
  rewrite Hstep in Hfiles; cbn [world_of] in Hfiles.
  assert (Hindex : files_by_id file_id (share_file.world b1)
                   = file_item :: others)
    by (unfold files_by_id in *; rewrite Hfiles; exact Hfile).
  pose proof (live_share_downloads cfg signer env' file_id (User.userId u)
                (share_file.world b1) file_item others s3_key filename
                content_type size count Hf Hindex Hact Hkey Hname Htype
                Hsize Hcount) as Hdown.
  cbv zeta in Hdown.
  destruct Hdown as [-> _]; [|reflexivity].
  right.
  eexists; split; [|split].
  - rewrite Hworld.
    rewrite <- (share_item_key
                  (uuid4_at env (draws (share_file.world b))) file_id user_id
                  (User.userId u) address (share_file.permissions r)
                  (utcnow_at env (ticks (share_file.world b))) m
                  expires_at) at 1.
    apply (get_item_put Share.key key2_eqb key2_eqb_eq).
  - reflexivity.
  - unfold share_file.share_item; cbn [Share.expiresAt].
    destruct Hexp as [-> | [t [Ht Hle]]]; [exact I|].
    destruct (given expires_at); [|exact I].
    destruct expires_at as [e|]; [|exact I].
    exists t; split; [exact Ht | exact Hle].
Qed.

Lemma active_shares_loop_fails
      (env : Env) (l : list Share.t) :
  (exists s e text,
      In s l /\ Share.status s = "active" /\ Share.expiresAt s = Some e
      /\ expiry_of e = inr text) ->
  forall (w : World) (active_shares : list json),
  exists text w',
    share_file.active_shares_loop env l w active_shares = (inr text, w').
Proof.
  induction l as [|x l IH]; intros (s & e & text & Hin & Hact & Hexp & He);
    [contradiction|]; intros w active_shares.
  cbn [share_file.active_shares_loop].
  destruct (Share.status x =? "active")%string eqn:Hx; cbn [negb].
  - unfold share_file.expired.
    destruct (Share.expiresAt x) as [e'|] eqn:Hxe.
    + destruct (expiry_of e') as [t|text'] eqn:He';
        [|eexists; eexists; reflexivity].
      unfold utcnow.
      destruct (utcnow_at env (ticks w) >? t);
        apply IH; destruct Hin as [-> | Hin];
        try congruence; exists s, e, text; auto.
    + apply IH; destruct Hin as [-> | Hin];
        try congruence; exists s, e, text; auto.
  - apply IH; destruct Hin as [-> | Hin]; [|exists s, e, text; auto].
    rewrite Hact in Hx; discriminate.
Qed.

(** X14. A share request whose [expiresAt] is a non-empty text that is not
    a date is accepted and stored as it is.  From then on the owner's
    listing of the shares of that file fails with 500, whatever the clock,
    while the user it was shared with (unless that user owns the file) is
    refused the download with 403: the listing lets the parse error
    through where the download check catches it. *)
Theorem unreadable_expiry_fails_the_listing
        (cfg : generate_presigned_url.Config)
        (signer : generate_presigned_url.Signer) (env env' : Env)
        (file_id user_id user_email : string) (message : json)
        (raw : string) (b b1 : share_file.batch)
        (r : json) (address : string) (u : User.t)
        (file_item : FileItem.t) (others : list FileItem.t) :
  share_file.email r = Some (JStr address) ->
  share_file.get_user_by_email address (share_file.world b) = Some u ->
  raw <> "" ->
  share_file.share_with env file_id user_id user_email message
                        (Some (JIso (NotIso raw))) b r
  = share_file.Next b1 ->
  share_file.successful_shares b1 <> share_file.successful_shares b ->
  truthy file_id = true ->
  files_by_id file_id (share_file.world b) = file_item :: others ->
  FileItem.userId file_item = user_id ->
  statusCode
    (fst (share_file.handle_list_shares env' (Some file_id) user_id
                                        (share_file.world b1))) = 500
  /\ (User.userId u <> user_id ->
      statusCode
        (fst (generate_presigned_url.handle_download_url
                cfg signer env' (Some file_id) (User.userId u)
                (share_file.world b1))) = 403).
Proof.
  intros He Hu Hraw Hstep Hshared Hf Hfile Hown.
  destruct (share_with_shared env file_id user_id user_email message
                              (Some (JIso (NotIso raw))) b b1 r address u
                              He Hu Hstep Hshared) as [m Hworld].
  pose proof (share_with_grown env file_id user_id user_email message
                               (Some (JIso (NotIso raw))) b r)
    as (Hfiles & _).
  rewrite Hstep in Hfiles; cbn [world_of] in Hfiles.
  assert (Hindex : files_by_id file_id (share_file.world b1)
                   = file_item :: others)
    by (unfold files_by_id in *; rewrite Hfiles; exact Hfile).
  assert (Htruthy : truthy raw = true)
    by (destruct raw; [contradiction Hraw; reflexivity | reflexivity]).
  set (item := share_file.share_item
                 (uuid4_at env (draws (share_file.world b))) file_id user_id
                 (User.userId u) address (share_file.permissions r)
                 (utcnow_at env (ticks (share_file.world b))) m
                 (Some (JIso (NotIso raw)))) in *.
  assert (Hexp : Share.expiresAt item = Some (JIso (NotIso raw)))
    by (unfold item, share_file.share_item;
        cbn [Share.expiresAt given json_truthy iso_truthy];
        rewrite Htruthy; reflexivity).
  split.
  - unfold share_file.handle_list_shares, present.
    rewrite Hf; cbn [negb]; cbv iota.
    rewrite Hindex, Hown, String.eqb_refl; cbn [negb].
    destruct (active_shares_loop_fails env'
                (shares_of_file file_id (share_file.world b1)))
      with (w := share_file.world b1) (active_shares := @nil json)
      as (text & w' & ->).
    + exists item, (JIso (NotIso raw)), (isoformat_error (NotIso raw)).
      split; [|split; [reflexivity | split; [exact Hexp | reflexivity]]].
      unfold shares_of_file; apply filter_In; split.
      * rewrite Hworld; apply put_item_In.
      * unfold item; cbn [share_file.share_item Share.fileId].
        apply String.eqb_refl.
    + reflexivity.
  - intros Hother.
    assert (Hneq : (FileItem.userId file_item =? User.userId u)%string
                   = false)
      by (apply String.eqb_neq; congruence).
    unfold generate_presigned_url.handle_download_url, present.
    rewrite Hf; cbn [negb]; cbv iota.
    rewrite Hindex, Hneq.
    unfold generate_presigned_url.check_file_share_access.
    rewrite Hworld.
    replace (file_id, User.userId u) with (Share.key item)
      by reflexivity.
    rewrite (get_item_put Share.key key2_eqb key2_eqb_eq).
    rewrite Hexp.
    replace (Share.status item) with "active" by reflexivity.
    reflexivity.
Qed.

(** ** Uploads *)

Lemma mem_string_In (x : string) (xs : list string) :
  mem_string x xs = true <-> In x xs.
Proof.
  unfold mem_string; rewrite existsb_exists; split.
  - intros (y & Hin & Heq); apply String.eqb_eq in Heq; subst; exact Hin.
  - intros Hin; exists x; split; [exact Hin | apply String.eqb_refl].
Qed.

Lemma validate_upload_request_accepts
      (cfg : generate_presigned_url.Config) (name content_type : string)
      (size : Z) :
  generate_presigned_url.validate_upload_request cfg name content_type
                                                 (Int size)
  = None
  <-> name <> ""
      /\ (String.length name <= 255)%nat
      /\ In content_type generate_presigned_url.ALLOWED_CONTENT_TYPES
      /\ 0 < size <= generate_presigned_url.MAX_FILE_SIZE cfg.
Proof.
  unfold generate_presigned_url.validate_upload_request,
    generate_presigned_url.number_leb.
  rewrite <- mem_string_In.
  destruct name as [|c name'].
  - cbn [truthy negb orb]; split; [discriminate|].
    intros (H & _); contradiction H; reflexivity.
  - cbn [truthy negb orb].
    destruct (Nat.ltb_spec 255 (String.length (String c name'))).
    + split; [discriminate | intros (_ & H' & _); lia].
    + destruct (mem_string content_type
                  generate_presigned_url.ALLOWED_CONTENT_TYPES);
        cbn [negb]; [|split; [discriminate | intros (_ & _ & H' & _);
                                              discriminate]].
      destruct (Z.leb_spec size 0);
        [split; [discriminate | intros (_ & _ & _ & H'); lia]|].
      destruct (Z.leb_spec size (generate_presigned_url.MAX_FILE_SIZE cfg));
        cbn [negb];
        [|split; [discriminate | intros (_ & _ & _ & H'); lia]].
      split; [|reflexivity].
      intros _; repeat split; try assumption; try discriminate; lia.
Qed.

(** A value under a key of an object that the store takes is taken. *)
Lemma field_serializes (k : string) (fields : list (string * json))
      (v : json) :
  serialize_error (JObj fields) = None ->
  field k fields = Some v ->
  serialize_error v = None.
Proof.
  cbn [serialize_error].
  induction fields as [|[k' v'] rest IH]; cbn [field first_error snd];
    [discriminate|].
  destruct (serialize_error v') eqn:Hv'; [discriminate|].
  intros Hrest; destruct (k' =? k)%string; [|apply IH, Hrest].
  intros H; inversion H; subst v'; exact Hv'.
Qed.

(** The values of the item that come from the request are taken when the
    size and the metadata are. *)
Lemma upload_serializes (size : Z) (fields : list (string * json)) :
  serialize_error
    (JArr [JNum size;
           match field "description" fields with
           | Some d => d
           | None => JStr ""
           end;
           match field "tags" fields with Some t => t | None => JArr [] end;
           JObj fields])
  = None
  <-> storable (JArr [JNum size; JObj fields]) = true.
Proof.
  unfold storable.
  change (serialize_error (JArr [JNum size; JObj fields]))
    with (match serialize_error (JNum size) with
          | Some text => Some text
          | None =>
              match serialize_error (JObj fields) with
              | Some text => Some text
              | None => None
              end
          end).
  change (serialize_error
            (JArr [JNum size;
                   match field "description" fields with
                   | Some d => d
                   | None => JStr ""
                   end;
                   match field "tags" fields with
                   | Some t => t
                   | None => JArr []
                   end;
                   JObj fields]))
    with (match serialize_error (JNum size) with
          | Some text => Some text
          | None =>
              match serialize_error
                      match field "description" fields with
                      | Some d => d
                      | None => JStr ""
                      end with
              | Some text => Some text
              | None =>
                  match serialize_error
                          match field "tags" fields with
                          | Some t => t
                          | None => JArr []
                          end with
                  | Some text => Some text
                  | None =>
                      match serialize_error (JObj fields) with
                      | Some text => Some text
                      | None => None
                      end
                  end
              end
          end).
  destruct (serialize_error (JNum size)); [cbn; split; discriminate|].
  destruct (serialize_error (JObj fields)) eqn:Hfields.
  - split; [|cbn; discriminate].
    destruct (serialize_error match field "description" fields with
                              | Some d => d
                              | None => JStr ""
                              end); [intros H; discriminate H|].
    destruct (serialize_error match field "tags" fields with
                              | Some t => t
                              | None => JArr []
                              end); intros H; discriminate H.
  - split; [reflexivity|]; intros _.
    destruct (field "description" fields) as [d|] eqn:Hd;
      [rewrite (field_serializes _ _ _ Hfields Hd)|cbn [serialize_error]];
      (destruct (field "tags" fields) as [t|] eqn:Ht;
       [rewrite (field_serializes _ _ _ Hfields Ht)|cbn]; reflexivity).
Qed.

(** What [handle_upload_url] does with a request that it grants. *)
Lemma upload_granted
      (cfg : generate_presigned_url.Config)
      (signer : generate_presigned_url.Signer) (env : Env)
      (body : generate_presigned_url.upload_request) (user_id : string)
      (w : World) (name content_type : string) (size : Z) :
  uploadable cfg env body user_id w name content_type size ->
  exists fields,
    (exists b, body = generate_presigned_url.Object b
               /\ generate_presigned_url.metadata_of b = JObj fields)
    /\ let file_id := uuid4_at env (draws w) in
       let s3_key := ("users/" ++ user_id ++ "/files/" ++ file_id)%string in
       let presigned_post :=
         generate_presigned_url.generate_presigned_post
           signer (generate_presigned_url.S3_BUCKET cfg) s3_key content_type
           name user_id file_id (size + 1000)
           (generate_presigned_url.UPLOAD_URL_EXPIRATION cfg) in
       generate_presigned_url.handle_upload_url cfg signer env body user_id w
       = (create_response 200
            (JObj [("fileId", JStr file_id);
                   ("uploadUrl", JStr (fst presigned_post));
                   ("uploadFields", snd presigned_post);
                   ("expiresIn",
                    JNum (generate_presigned_url.UPLOAD_URL_EXPIRATION cfg));
                   ("uploadMethod", JStr "POST");
                   ("s3Key", JStr s3_key)]),
          mkWorld
            (put_item FileItem.key key2_eqb
                      (upload_item env user_id w name content_type size
                                   fields)
                      (files w))
            (shares w) (users w) (assignments w) (submissions w) (bucket w)
            (S (ticks w)) (S (draws w))).
Proof.
  intros (b & fields & -> & Hn & Hc & Hs & Hname & Hlen & Htype & Hsize
          & Hmeta & Hstorable & Hput).
  exists fields; split; [exists b; split; [reflexivity | exact Hmeta]|].
  cbv zeta; unfold generate_presigned_url.handle_upload_url.
  rewrite Hn, Hc, Hs.
  assert (Hvalid : generate_presigned_url.validate_upload_request
                     cfg name content_type (Int size) = None)
    by (apply validate_upload_request_accepts; tauto).
  rewrite Hvalid.
  unfold uuid4, utcnow; cbv beta iota zeta.
  rewrite Hmeta.
  apply upload_serializes in Hstorable; rewrite Hstorable.
  unfold upload_item in Hput; cbv zeta in Hput.
  cbn [ticks draws]; rewrite Hput.
  reflexivity.
Qed.

(** The answer by the kind of the request. *)
Lemma upload_url_status
      (cfg : generate_presigned_url.Config)
      (signer : generate_presigned_url.Signer) (env : Env)
      (body : generate_presigned_url.upload_request) (user_id : string)
      (w : World) :
  let result :=
    generate_presigned_url.handle_upload_url cfg signer env body user_id w in
  (statusCode (fst result) = 200
   /\ exists name content_type size,
        uploadable cfg env body user_id w name content_type size)
  \/ (statusCode (fst result) = 400 /\ refused_upload cfg body
      /\ snd result = w)
  \/ (statusCode (fst result) = 500 /\ ~ refused_upload cfg body
      /\ same_tables w (snd result) /\ bucket (snd result) = bucket w
      /\ forall name content_type size,
           ~ uploadable cfg env body user_id w name content_type size).
Proof.
  intros result; unfold result, generate_presigned_url.handle_upload_url.
  destruct body as [b|v|raw|].
  2: { right; right; split; [reflexivity|]; split; [intros []|].
       split; [apply same_tables_refl|]; split; [reflexivity|].
       intros name ct size (b & fields & H & _); discriminate H. }
  2: { right; left; repeat split. }
  2: { right; right; split; [reflexivity|]; split; [intros []|].
       split; [apply same_tables_refl|]; split; [reflexivity|].
       intros name ct size (b & fields & H & _); discriminate H. }
  unfold refused_upload.
  destruct (generate_presigned_url.filename b) as [name|] eqn:Hn;
    [|right; left; repeat split].
  destruct (generate_presigned_url.contentType b) as [content_type|] eqn:Hc;
    [|right; left; repeat split].
  destruct (generate_presigned_url.fileSize b) as [file_size|] eqn:Hs;
    [|right; left; repeat split].
  destruct (generate_presigned_url.validate_upload_request
              cfg name content_type file_size) as [e|] eqn:Hvalid;
    [right; left; repeat split; discriminate|].
  assert (Hno : forall name' ct' size',
             uploadable cfg env (generate_presigned_url.Object b) user_id w
                        name' ct' size' ->
             exists fields,
               generate_presigned_url.metadata_of b = JObj fields
               /\ file_size = Int size'
               /\ storable (JArr [JNum size'; JObj fields]) = true
               /\ put_file_refused
                    env (upload_item env user_id w name content_type size'
                                     fields)
                  = false).
  { intros name' ct' size'
           (b0 & fields & Hb & Hn' & Hc' & Hs' & _ & _ & _ & _ & Hmeta
            & Hstorable & Hput).
    inversion Hb; subst b0.
    rewrite Hn in Hn'; rewrite Hc in Hc'; rewrite Hs in Hs'.
    inversion Hn'; inversion Hc'; subst name' ct'.
    exists fields; repeat split; try assumption.
    inversion Hs'; reflexivity. }
  unfold uuid4, utcnow; cbv beta iota zeta.
  destruct (generate_presigned_url.metadata_of b) as [| | | | | | | |fields|]
    eqn:Hmeta;
    try (right; right; split; [reflexivity|]; split; [intros H; apply H;
                                                      reflexivity|];
         split; [unfold same_tables; cbn; tauto|]; split; [reflexivity|];
         intros n' c' s' Hu;
         destruct (Hno _ _ _ Hu) as (fields' & Hm & _); discriminate Hm).
  destruct file_size as [size|c e].
  2: { right; right; split; [reflexivity|]; split;
         [intros H; apply H; reflexivity|].
       split; [unfold same_tables; cbn; tauto|]; split; [reflexivity|].
       intros n' c' s' Hu;
         destruct (Hno _ _ _ Hu) as (fields' & _ & Hf & _); discriminate Hf. }
  destruct (serialize_error _) as [text|] eqn:Hser.
  { right; right; split; [reflexivity|]; split;
      [intros H; apply H; reflexivity|].
    split; [unfold same_tables; cbn; tauto|]; split; [reflexivity|].
    intros n' c' s' Hu;
      destruct (Hno _ _ _ Hu) as (fields' & Hm & Hf & Hst & _).
    inversion Hm; inversion Hf; subst fields' s'.
    apply upload_serializes in Hst; rewrite Hst in Hser; discriminate. }
  cbn [ticks draws].
  destruct (put_file_refused env _) eqn:Hput.
  { right; right; split; [reflexivity|]; split;
      [intros H; apply H; reflexivity|].
    split; [unfold same_tables; cbn; tauto|]; split; [reflexivity|].
    intros n' c' s' Hu;
      destruct (Hno _ _ _ Hu) as (fields' & Hm & Hf & _ & Hp).
    inversion Hm; inversion Hf; subst fields' s'.
    unfold upload_item in Hp; cbv zeta in Hp.
    rewrite Hp in Hput; discriminate. }
  left; split; [reflexivity|].
  exists name, content_type, size, b, fields.
  apply validate_upload_request_accepts in Hvalid.
  apply upload_serializes in Hser.
  repeat split; try tauto; try assumption.
Qed.

(** X15. For an upload request whose name and content type, where it has
    them, are texts and whose size is a number.  [handle_upload_url]
    answers 200 exactly when the body is a JSON object with a name of 1 to
    255 characters, an allowed content type and a size that is an integer
    above 0 and not above the maximum, whose metadata, if any, is an object
    that the store can hold, and the store takes the item.  It then stores
    one item, [pending], under the caller and the identifier it drew, which
    it returns with the storage key [users/<caller>/files/<identifier>], and
    writes nothing else.  It answers 400 exactly when the body is no JSON,
    lacks one of the three fields, or is turned down by the validation, an
    oversized file included, and then leaves the world as it was.  Any
    other request (no body, a body that is no object, a size with a
    fraction, metadata that is no object or that the store cannot hold, an
    item that the store refuses) is answered 500; it writes to no
    table. *)
Theorem upload_url_is_granted_to_valid_requests_only
        (cfg : generate_presigned_url.Config)
        (signer : generate_presigned_url.Signer) (env : Env)
        (body : generate_presigned_url.upload_request) (user_id : string)
        (w : World) :
  let result :=
    generate_presigned_url.handle_upload_url cfg signer env body user_id w in
  (forall name content_type size,
     uploadable cfg env body user_id w name content_type size ->
     let file_id := uuid4_at env (draws w) in
     let s3_key := ("users/" ++ user_id ++ "/files/" ++ file_id)%string in
     statusCode (fst result) = 200
     /\ body_field "fileId" (fst result) = Some (JStr file_id)
     /\ body_field "s3Key" (fst result) = Some (JStr s3_key)
     /\ (exists fields,
           files (snd result)
           = put_item FileItem.key key2_eqb
               (upload_item env user_id w name content_type size fields)
               (files w)
           /\ exists b,
                body = generate_presigned_url.Object b
                /\ generate_presigned_url.metadata_of b = JObj fields)
     /\ same_tables (set_files (snd result) (files w)) w)
  /\ (statusCode (fst result) = 200 <->
      exists name content_type size,
        uploadable cfg env body user_id w name content_type size)
  /\ (statusCode (fst result) = 400 <-> refused_upload cfg body)
  /\ (statusCode (fst result) = 400 -> snd result = w)
  /\ (statusCode (fst result) = 200 \/ statusCode (fst result) = 400
      \/ statusCode (fst result) = 500)
  /\ (statusCode (fst result) <> 200 ->
      same_tables w (snd result) /\ bucket (snd result) = bucket w).
Proof.
  intros result.
  pose proof (upload_url_status cfg signer env body user_id w) as Hstatus.
  fold result in Hstatus.
  split.
  { intros name content_type size Hup file_id s3_key.
    destruct (upload_granted cfg signer env body user_id w name content_type
                             size Hup) as [fields [Hb Hresult]].
    cbv zeta in Hresult; fold result in Hresult; rewrite Hresult.
    split; [reflexivity|].
    split; [reflexivity|].
    split; [reflexivity|].
    split; [exists fields; split; [reflexivity | exact Hb]|].
    unfold same_tables; cbn; tauto. }
  destruct Hstatus
    as [[Hcode Hup] | [(Hcode & Href & Hw) | (Hcode & Href & Hsame & Hb
                                              & Hno)]];
    rewrite Hcode.
  - split; [tauto|].
    split; [split; [discriminate|]|].
    + intros Href.
      destruct Hup as (name & ct & size & b & fields & -> & Hn & Hc & Hs
                       & Hname & Hlen & Htype & Hsize & _).
      unfold refused_upload in Href; rewrite Hn, Hc, Hs in Href.
      contradiction Href.
      apply validate_upload_request_accepts; tauto.
    + split; [discriminate|].
      split; [tauto|].
      intros H; contradiction H; reflexivity.
  - split; [split; [discriminate|]|].
    + intros (name & ct & size & b & fields & -> & Hn & Hc & Hs
              & Hname & Hlen & Htype & Hsize & _).
      unfold refused_upload in Href; rewrite Hn, Hc, Hs in Href.
      contradiction Href.
      apply validate_upload_request_accepts; tauto.
    + split; [tauto|].
      split; [intros _; exact Hw|].
      split; [tauto|].
      intros _; rewrite Hw; split; [apply same_tables_refl | reflexivity].
  - split; [split; [discriminate|]|].
    + intros (name & ct & size & Hup); contradiction (Hno name ct size).
    + split; [split; [discriminate | intros H; contradiction]|].
      split; [discriminate|].
      split; [tauto|].
      intros _; split; assumption.
Qed.

Lemma unused_file_id (file_id user_id : string) (w : World) :
  files_by_id file_id w = [] ->
  get_item FileItem.key key2_eqb (user_id, file_id) (files w) = None.
Proof.
  intros Hnone.
  apply (get_item_none FileItem.key key2_eqb key2_eqb_eq).
  intros f Hin Hk.
  assert (Hf : In f (files_by_id file_id w)).
  { unfold files_by_id; apply filter_In; split; [exact Hin|].
    unfold FileItem.key in Hk; inversion Hk; apply String.eqb_refl. }
  rewrite Hnone in Hf; exact Hf.
Qed.

(** The files table after an upload request that was granted, the
    identifier it drew being that of no file yet. *)
Lemma uploaded_file
      (cfg : generate_presigned_url.Config)
      (signer : generate_presigned_url.Signer) (env : Env)
      (body : generate_presigned_url.upload_request) (user_id : string)
      (w : World) (name content_type : string) (size : Z) :
  uploadable cfg env body user_id w name content_type size ->
  files_by_id (uuid4_at env (draws w)) w = [] ->
  let file_id := uuid4_at env (draws w) in
  let w1 :=
    snd (generate_presigned_url.handle_upload_url cfg signer env body
                                                  user_id w) in
  exists fields,
    let item := upload_item env user_id w name content_type size fields in
    files w1 = files w ++ [item]
    /\ files_by_id file_id w1 = [item]
    /\ get_item FileItem.key key2_eqb (user_id, file_id) (files w1)
       = Some item
    /\ shares w1 = shares w /\ bucket w1 = bucket w
    /\ submissions w1 = submissions w /\ assignments w1 = assignments w.
Proof.
  intros Hup Hfresh file_id w1.
  destruct (upload_granted cfg signer env body user_id w name content_type
                           size Hup) as [fields [_ Hresult]].
  cbv zeta in Hresult.
  exists fields; intros item.
  pose proof (unused_file_id file_id user_id w Hfresh) as Hnew.
  assert (Hfiles : files w1 = files w ++ [item]).
  { unfold w1; rewrite Hresult; cbn [snd files].
    apply (put_item_new FileItem.key key2_eqb); exact Hnew. }
  split; [exact Hfiles|].
  split; [|split].
  - unfold files_by_id in *; rewrite Hfiles, filter_app.
    fold file_id in Hfresh; rewrite Hfresh.
    cbn [filter app item upload_item generate_presigned_url.pending_file
         FileItem.fileId].
    fold file_id; rewrite String.eqb_refl; reflexivity.
  - rewrite Hfiles.
    rewrite (get_item_app_new FileItem.key key2_eqb _ _ _ Hnew).
    replace (FileItem.key item) with (user_id, file_id) by reflexivity.
    unfold key2_eqb; cbn [fst snd]; rewrite !String.eqb_refl; reflexivity.
  - unfold w1; rewrite Hresult; repeat split; reflexivity.
Qed.

(** X16. Until its upload is completed, a file for which an upload link
    was granted is served by no handler: its owner's download request is
    answered 400 with the status [pending], a share request for it is
    answered 400 "Cannot share inactive file", and a submit request that
    names it is never answered 201; none of the three writes anything but
    the clock.  The identifier drawn for the file is supposed to be that
    of no file yet. *)
Theorem pending_upload_is_not_served
        (cfg : generate_presigned_url.Config)
        (signer : generate_presigned_url.Signer) (env : Env)
        (body : generate_presigned_url.upload_request) (user_id : string)
        (w : World) (name content_type : string) (size : Z) :
  uploadable cfg env body user_id w name content_type size ->
  truthy (uuid4_at env (draws w)) = true ->
  files_by_id (uuid4_at env (draws w)) w = [] ->
  let file_id := uuid4_at env (draws w) in
  let w1 :=
    snd (generate_presigned_url.handle_upload_url cfg signer env body
                                                  user_id w) in
  (forall cfg' signer' env',
     generate_presigned_url.handle_download_url
       cfg' signer' env' (Some file_id) user_id w1
     = (create_response 400
          (error_body "Bad Request"
                      "File is not available (status: pending)"), w1))
  /\ (forall env' event fields recipients n user_email user_name,
        share_file.fileId event = Some file_id ->
        share_file.body event = Some (JsonText (JObj fields)) ->
        field "recipients" fields = Some recipients ->
        len recipients = Some n ->
        (1 <= n <= 50)%nat ->
        share_file.handle_share_file env' event user_id user_email
                                     user_name w1
        = (create_response 400
             (error_body "Bad Request" "Cannot share inactive file"), w1))
  /\ (forall env' event fields user_email user_name,
        submit_assignment.body event = Some (JsonText (JObj fields)) ->
        field "fileId" fields = Some (JStr file_id) ->
        let result :=
          submit_assignment.handle_submit_assignment
            env' event user_id user_email user_name w1 in
        statusCode (fst result) <> 201
        /\ same_tables (snd result) w1).
Proof.
  intros Hup Hid Hfresh file_id w1.
  destruct (uploaded_file cfg signer env body user_id w name content_type
                          size Hup Hfresh)
    as (meta & _ & Hindex & Hget & _).
  fold file_id w1 in Hindex, Hget.
  set (item := upload_item env user_id w name content_type size meta) in *.
  clearbody w1.
  split; [|split].
  - intros cfg' signer' env'.
    unfold generate_presigned_url.handle_download_url, present.
    fold file_id in Hid; rewrite Hid; cbn [negb]; cbv iota.
    rewrite Hindex.
    replace (FileItem.userId item) with user_id by reflexivity.
    rewrite String.eqb_refl; cbv beta iota zeta; cbn [negb].
    replace (FileItem.status item) with "pending" by reflexivity.
    reflexivity.
  - intros env' event fields recipients n user_email user_name Hevent Hbody
           Hrec Hlen [Hlo Hhi].
    unfold share_file.handle_share_file, present.
    fold file_id in Hid; rewrite Hevent, Hid, Hbody, Hrec, Hlen;
      cbn [negb]; cbv iota.
    assert (Htruthy : json_truthy recipients = true).
    { destruct recipients as [| | |s| | | |items|fs|]; try discriminate Hlen;
        cbn [len] in Hlen; inversion Hlen; subst n.
      - destruct s; [cbn in Hlo; lia | reflexivity].
      - destruct items; [cbn in Hlo; lia | reflexivity].
      - destruct fs; [cbn in Hlo; lia | reflexivity]. }
    rewrite Htruthy; cbn [negb].
    destruct (Nat.eqb_spec n 0) as [Hz|_]; [lia|].
    destruct (Nat.ltb_spec 50 n) as [Hz|_]; [lia|].
    rewrite Hindex.
    replace (FileItem.userId item) with user_id by reflexivity.
    rewrite String.eqb_refl; cbn [negb].
    replace (FileItem.status item) with "pending" by reflexivity.
    reflexivity.
  - intros env' event fields user_email user_name Hbody Hfile result.
    unfold result, submit_assignment.handle_submit_assignment, present, given.
    fold file_id in Hid; rewrite Hbody, Hfile.
    cbn [json_truthy or_null]; rewrite Hid.
    destruct (match submit_assignment.assignmentId event with
              | Some s => truthy s
              | None => false
              end); cbn [negb]; cbv iota;
      [|split; [discriminate | apply same_tables_refl]].
    destruct (submit_assignment.assignments_by_id _ w1) as [|a ?];
      [split; [discriminate | apply same_tables_refl]|].
    destruct (Assignment.status a =? "active")%string; cbn [negb];
      [|split; [discriminate | apply same_tables_refl]].
    destruct (fromisoformat (Assignment.dueDate a));
      [|split; [discriminate | apply same_tables_refl]].
    unfold utcnow; cbv beta iota zeta; cbn [files].
    rewrite Hget.
    replace (FileItem.status item) with "pending" by reflexivity.
    cbn; split; [discriminate | unfold same_tables; cbn; tauto].
Qed.


(** ** Submissions *)

Lemma submit_writes
      (env : Env) (event : submit_assignment.submit_event)
      (user_id user_email user_name : string) (w w' : World)
      (r : response) :
  submit_assignment.handle_submit_assignment env event user_id user_email
                                             user_name w = (r, w') ->
  files w' = files w /\ shares w' = shares w /\ users w' = users w
  /\ forall s, In s (submissions w') ->
       In s (submissions w)
       \/ submitted_by user_id (submit_assignment.assignmentId event) w s.
Proof.
  intros H.
  destruct (Z.eq_dec (statusCode r) 201) as [Hcode | Hcode].
  2: { destruct (submit_writes_only_on_201 env event user_id user_email
                   user_name w w' r H Hcode) as (Hf & Hs & Hu & _ & Hsub).
       repeat split; try assumption.
       intros s Hin; left; rewrite <- Hsub; exact Hin. }
  revert H.
  unfold submit_assignment.handle_submit_assignment, present.
  destruct (submit_assignment.assignmentId event) as [assignment_id|];
    [|intros H; inversion H; subst; discriminate].
  destruct (truthy assignment_id); cbn [negb]; cbv iota;
    [|intros H; inversion H; subst; discriminate].
  destruct (submit_assignment.body event) as [[v|raw]|];
    [|intros H; inversion H; subst; discriminate
     |intros H; inversion H; subst; discriminate].
  destruct v as [| | | | | | | |fields|];
    try (intros H; inversion H; subst; discriminate).
  cbv zeta.
  destruct (given (field "fileId" fields)); cbn [negb]; cbv iota;
    [|intros H; inversion H; subst; discriminate].
  destruct (submit_assignment.assignments_by_id assignment_id w)
    as [|a others] eqn:Hfound;
    [intros H; inversion H; subst; discriminate|].
  destruct (Assignment.status a =? "active")%string eqn:Hact; cbn [negb];
    [|intros H; inversion H; subst; discriminate].
  destruct (fromisoformat (Assignment.dueDate a)) as [due_date|];
    [|intros H; inversion H; subst; discriminate].
  unfold utcnow, uuid4; cbv beta iota zeta; cbn [files].
  destruct (or_null (field "fileId" fields))
    as [| | |file_id| | | | | |];
    try (intros H; inversion H; subst; discriminate).
  destruct (get_item FileItem.key key2_eqb (user_id, file_id) (files w))
    as [f|] eqn:Hfile;
    [|intros H; inversion H; subst; discriminate].
  destruct (FileItem.status f =? "active")%string eqn:Hfact; cbn [negb];
    [|intros H; inversion H; subst; discriminate].
  destruct (match Assignment.allowedFileTypes a with
            | Some allowed =>
                match FileItem.contentType f with
                | Some content_type =>
                    if negb (mem_string content_type allowed)
                    then inl (Some (content_type, allowed))
                    else inl None
                | None => inr "'contentType'"
                end
            | None => inl None
            end) as [[[? ?]|]|?];
    [intros H; inversion H; subst; discriminate | |
     intros H; inversion H; subst; discriminate].
  destruct (match Assignment.maxFileSize a with
            | Some max_size =>
                match FileItem.fileSize f with
                | Some file_size =>
                    if file_size >? max_size then inl (Some max_size)
                    else inl None
                | None => inr "'fileSize'"
                end
            | None => inl None
            end) as [[?|]|?];
    [intros H; inversion H; subst; discriminate | |
     intros H; inversion H; subst; discriminate].
  match goal with
  | |- context [?c >=? submit_assignment.max_submissions a] =>
      destruct (Z.geb_spec c (submit_assignment.max_submissions a))
        as [Hmax | Hmax]
  end;
    [intros H; inversion H; subst; discriminate|].
  destruct (FileItem.filename f) as [filename|];
    [|intros H; inversion H; subst; discriminate].
  destruct (FileItem.fileSize f) as [file_size|];
    [|intros H; inversion H; subst; discriminate].
  destruct (submit_assignment.comments_attribute _) as [stored|text];
    [|intros H; inversion H; subst; discriminate].
  destruct (opt_serialize_error stored);
    [intros H; inversion H; subst; discriminate|].
  destruct (submissions_sort_key env) as [|sort] eqn:Hkey;
    [intros H; inversion H; subst; discriminate|].
  intros H; inversion H; subst; clear H.
  cbn [files shares users submissions set_submissions set_assignments].
  repeat split.
  intros s Hin.
  apply (put_item_In_inv (Submission.key (Submission.Attribute sort))
                         key2_eqb key2_eqb_eq) in Hin.
  destruct Hin as [Hin | ->]; [left; exact Hin | right].
  unfold submitted_by, submit_assignment.submission_item;
    cbn [Submission.studentId Submission.assignmentId Submission.status
         Submission.grade Submission.gradedAt Submission.gradedBy
         Submission.fileId Submission.submissionNumber].
  repeat split.
  - exists f; split; [exact Hfile | apply String.eqb_eq, Hfact].
  - exists a, others; split; [exact Hfound|].
    split; [apply String.eqb_eq, Hact|].
    cbn [submissions] in Hmax; lia.
Qed.

(** X18. Whatever the request, [handle_submit_assignment] leaves the
    files, shares and users as they are, and every submission stored
    afterwards was stored before or is a new one of the caller: for the
    assignment of the path, which is [active], with the status [submitted]
    and no grade, for a file that the caller holds [active], and numbered
    between 1 and the maximum of the assignment. *)
Theorem submit_writes_a_submission_of_the_caller
        (env : Env) (event : submit_assignment.submit_event)
        (user_id user_email user_name : string) (w w' : World)
        (r : response) :
  submit_assignment.handle_submit_assignment env event user_id user_email
                                             user_name w = (r, w') ->
  files w' = files w /\ shares w' = shares w /\ users w' = users w
  /\ forall s, In s (submissions w') ->
       In s (submissions w)
       \/ submitted_by user_id (submit_assignment.assignmentId event) w s.
Proof. apply submit_writes. Qed.

Lemma grade_writes
      (env : Env) (event : submit_assignment.grade_event)
      (user_id user_role user_name : string) (w w' : World) (r : response) :
  submit_assignment.handle_grade_submission env event user_id user_role
                                            user_name w = (r, w') ->
  files w' = files w /\ shares w' = shares w /\ users w' = users w
  /\ assignments w' = assignments w
  /\ forall s, In s (submissions w') ->
       In s (submissions w)
       \/ graded_by user_id user_role user_name
                    (submit_assignment.g_assignmentId event) w s.
Proof.
  unfold submit_assignment.handle_grade_submission, present.
  destruct (submit_assignment.is_instructor user_role) eqn:Hrole;
    cbn [negb]; [|intros H; inversion H; subst; repeat split; auto].
  destruct (submit_assignment.g_assignmentId event) as [assignment_id|];
    [|intros H; inversion H; subst; repeat split; auto].
  destruct (truthy assignment_id); cbn [negb orb];
    [|intros H; inversion H; subst; repeat split; auto].
  destruct (submit_assignment.g_submissionId event) as [submission_id|];
    [|intros H; inversion H; subst; repeat split; auto].
  destruct (truthy submission_id); cbn [negb orb]; cbv iota;
    [|intros H; inversion H; subst; repeat split; auto].
  destruct (submit_assignment.g_body event) as [[v|raw]|];
    [|intros H; inversion H; subst; repeat split; auto
     |intros H; inversion H; subst; repeat split; auto].
  destruct v as [| | | | | | | |fields|];
    try (intros H; inversion H; subst; repeat split; auto; fail).
  cbv zeta.
  assert (Hgraded :
            match submit_assignment.assignments_by_id assignment_id w with
            | [] =>
                (create_response 404
                   (error_body "Not Found" "Assignment not found"), w)
            | assignment :: _ =>
                if negb (Assignment.instructorId assignment =? user_id)%string
                then
                  (create_response 403
                     (error_body "Forbidden"
                        "You can only grade submissions for your own assignments"),
                   w)
                else
                  match submit_assignment.submissions_by_id submission_id w with
                  | [] =>
                      (create_response 404
                         (error_body "Not Found" "Submission not found"), w)
                  | submission :: _ =>
                      if negb (Submission.assignmentId submission
                               =? assignment_id)%string
                      then
                        (create_response 400
                           (error_body "Bad Request"
                              "Submission does not belong to this assignment"),
                         w)
                      else
                        let (timestamp, w1) := utcnow env w in
                        match submit_assignment.decimal
                                env (or_null (field "grade" fields)) with
                        | None =>
                            (internal_error
                               submit_assignment.invalid_operation, w1)
                        | Some grade_value =>
                            match submit_assignment.decimal
                                    env match field "maxGrade" fields with
                                        | Some m => m
                                        | None => JNum 100
                                        end with
                            | None =>
                                (internal_error
                                   submit_assignment.invalid_operation, w1)
                            | Some max_grade_value =>
                                match slice 2000
                                            match field "feedback" fields with
                                            | Some f => f
                                            | None => JStr ""
                                            end with
                                | None =>
                                    (internal_error
                                       (not_subscriptable
                                          match field "feedback" fields with
                                          | Some f => f
                                          | None => JStr ""
                                          end), w1)
                                | Some stored_feedback =>
                                    match submit_assignment.grade_serialize_error
                                            grade_value max_grade_value
                                            stored_feedback
                                            (field "feedbackFileId" fields)
                                    with
                                    | Some text => (internal_error text, w1)
                                    | None =>
                                        match submissions_sort_key env with
                                        | Submission.Attribute _ =>
                                            (internal_error
                                               (submit_assignment.key_mismatch
                                                  "UpdateItem"), w1)
                                        | Submission.StudentAndNumber =>
                                            (submit_assignment.graded_ok
                                               submission_id grade_value
                                               max_grade_value
                                               match field "feedback" fields
                                               with
                                               | Some f => f
                                               | None => JStr ""
                                               end timestamp user_id user_name,
                                             set_submissions w1
                                               (update_item
                                                  (Submission.key
                                                     Submission.StudentAndNumber)
                                                  key2_eqb
                                                  (assignment_id,
                                                   (Submission.studentId
                                                      submission ++ "#"
                                                      ++ str_int
                                                           (Submission.submissionNumber
                                                              submission))
                                                   %string)
                                                  (submit_assignment.graded
                                                     grade_value
                                                     max_grade_value
                                                     stored_feedback timestamp
                                                     user_id user_name
                                                     (field "feedbackFileId"
                                                            fields))
                                                  (submissions w1)))
                                        end
                                    end
                                end
                            end
                        end
                  end
            end = (r, w') ->
            files w' = files w /\ shares w' = shares w /\ users w' = users w
            /\ assignments w' = assignments w
            /\ forall s, In s (submissions w') ->
                 In s (submissions w)
                 \/ graded_by user_id user_role user_name
                              (Some assignment_id) w s).
  { destruct (submit_assignment.assignments_by_id assignment_id w)
      as [|a others] eqn:Hfound;
      [intros H; inversion H; subst; repeat split; auto|].
    destruct (Assignment.instructorId a =? user_id)%string eqn:Hown;
      cbn [negb]; [|intros H; inversion H; subst; repeat split; auto].
    destruct (submit_assignment.submissions_by_id submission_id w)
      as [|submission rest];
      [intros H; inversion H; subst; repeat split; auto|].
    destruct (Submission.assignmentId submission =? assignment_id)%string;
      cbn [negb]; [|intros H; inversion H; subst; repeat split; auto].
    unfold utcnow; cbv beta iota zeta.
    destruct (submit_assignment.decimal env (or_null (field "grade" fields)))
      as [g|]; [|intros H; inversion H; subst; repeat split; auto].
    destruct (submit_assignment.decimal env _)
      as [m|]; [|intros H; inversion H; subst; repeat split; auto].
    destruct (slice 2000 _)
      as [fb|]; [|intros H; inversion H; subst; repeat split; auto].
    destruct (submit_assignment.grade_serialize_error _ _ _ _);
      [intros H; inversion H; subst; repeat split; auto|].
    destruct (submissions_sort_key env);
      [|intros H; inversion H; subst; repeat split; auto].
    intros H; inversion H; subst; clear H.
    cbn [files shares users assignments submissions set_submissions].
    repeat split.
    intros s Hin.
    apply (update_item_In_inv (Submission.key Submission.StudentAndNumber)
                              key2_eqb key2_eqb_eq) in Hin.
    destruct Hin as [Hin | (s0 & Hin & Hk & ->)]; [left; exact Hin | right].
    assert (Hid : Submission.assignmentId s0 = assignment_id)
      by (unfold Submission.key in Hk; inversion Hk; reflexivity).
    split; [exact Hrole|].
    eexists s0, a, others, _, _, _, _, _.
    split; [exact Hin|].
    split; [reflexivity|].
    rewrite Hid.
    split; [reflexivity|].
    split; [exact Hfound | apply String.eqb_eq, Hown]. }
  destruct (or_null (field "grade" fields));
    first [exact Hgraded | intros H; inversion H; subst; repeat split; auto].
Qed.

Lemma list_submissions_reads
      (env : Env) (assignment_id : option string)
      (q : submit_assignment.list_query) (user_id user_role : string)
      (w : World) :
  snd (submit_assignment.handle_list_submissions env assignment_id q user_id
                                                 user_role w) = w.
Proof.
  unfold submit_assignment.handle_list_submissions.
  repeat match goal with
         | |- context [match ?x with _ => _ end] => destruct x
         end; reflexivity.
Qed.

Lemma my_submissions_reads (assignment_id : option string) (user_id : string)
      (w : World) :
  snd (submit_assignment.handle_get_my_submissions assignment_id user_id w)
  = w.
Proof.
  unfold submit_assignment.handle_get_my_submissions.
  destruct (negb (present assignment_id)); reflexivity.
Qed.

(** X19. Whatever the request, once [lambda_handler] of the submission
    Lambda has answered, the files, shares and users are as they were and
    every stored submission was stored before, or is a new submission of
    the caller (not graded, for a file the caller holds [active]), or is a
    stored submission graded by the caller, who then has an instructor
    role and is the instructor of the assignment that the submission
    belongs to.  The two [GET] routes write nothing. *)
Theorem submissions_change_by_submit_or_by_the_instructor
        (env : Env) (e : submit_assignment.event) (w w' : World)
        (r : response) :
  submit_assignment.lambda_handler env e w = (r, w') ->
  files w' = files w /\ shares w' = shares w /\ users w' = users w
  /\ (submit_assignment.httpMethod e = "GET" -> w' = w)
  /\ forall s, In s (submissions w') ->
       In s (submissions w)
       \/ submitted_by (sub (submit_assignment.caller e))
                       (submit_assignment.path_assignmentId e) w s
       \/ graded_by (sub (submit_assignment.caller e))
                    (role_of (submit_assignment.caller e))
                    (name_of (submit_assignment.caller e))
                    (submit_assignment.path_assignmentId e) w s.
Proof.
  unfold submit_assignment.lambda_handler.
  destruct (submit_assignment.httpMethod e =? "POST")%string eqn:Hpost.
  - apply String.eqb_eq in Hpost.
    destruct (endswith "/submit" (submit_assignment.path e)); cbn [andb].
    + intros H; apply submit_writes in H.
      destruct H as (Hf & Hs & Hu & Hin).
      repeat split; try assumption.
      * rewrite Hpost; discriminate.
      * intros s Hs'; destruct (Hin s Hs') as [H | H]; auto.
    + rewrite Hpost; cbn.
      intros H; inversion H; subst; repeat split; auto.
  - cbn [andb].
    destruct (submit_assignment.httpMethod e =? "GET")%string eqn:Hget.
    + cbn [andb].
      destruct (contains "/submissions" (submit_assignment.path e));
        cbn [andb].
      * destruct (endswith "/me" (submit_assignment.path e)).
        -- intros H.
           pose proof (my_submissions_reads
                         (submit_assignment.path_assignmentId e)
                         (sub (submit_assignment.caller e)) w) as Hw.
           rewrite H in Hw; cbn [snd] in Hw; subst w'.
           repeat split; auto.
        -- intros H.
           pose proof (list_submissions_reads
                         env (submit_assignment.path_assignmentId e)
                         (submit_assignment.query e)
                         (sub (submit_assignment.caller e))
                         (role_of (submit_assignment.caller e)) w) as Hw.
           rewrite H in Hw; cbn [snd] in Hw; subst w'.
           repeat split; auto.
      * apply String.eqb_eq in Hget; rewrite Hget; cbn.
        intros H; inversion H; subst; repeat split; auto.
    + cbn [andb].
      destruct (andb (submit_assignment.httpMethod e =? "PUT")%string
                     (contains "/grade" (submit_assignment.path e))).
      * intros H; apply grade_writes in H.
        destruct H as (Hf & Hs & Hu & _ & Hin).
        repeat split; try assumption.
        -- intros Hm; rewrite Hm in Hget; discriminate.
        -- intros s Hs'; destruct (Hin s Hs') as [H | H]; auto.
      * intros H; inversion H; subst; repeat split; auto.
Qed.

(** ** The listings of submissions *)

Lemma filter_split_length {A : Type} (p : A -> bool) (l : list A) :
  (List.length (filter p l) + List.length (filter (fun x => negb (p x)) l)
   = List.length l)%nat.
Proof.
  induction l as [|x l IH]; simpl; [reflexivity|].
  destruct (p x); simpl; lia.
Qed.

Lemma filter_true_length {A : Type} (l : list A) :
  List.length (filter (fun _ => true) l) = List.length l.
Proof. induction l as [|x l IH]; simpl; [|rewrite IH]; reflexivity. Qed.

Lemma filter_disjoint_length {A : Type} (p q : A -> bool) (l : list A) :
  (forall x, p x = true -> q x = false) ->
  (List.length (filter p l) + List.length (filter q l) <= List.length l)%nat.
Proof.
  intros Hpq; induction l as [|x l IH]; simpl; [lia|].
  destruct (p x) eqn:Hp; [rewrite (Hpq x Hp)|destruct (q x)]; simpl; lia.
Qed.

(** X20. Whatever the page, the limit, the token and the status filter of
    the query, a listing of the submissions of an assignment that is
    answered 200 reports the statistics of all the submissions of the
    assignment: their number, which is the sum of those on time and those
    late, and the numbers of the graded and of the pending ones, which
    together do not exceed it.  The listing writes nothing. *)
Theorem statistics_cover_the_whole_assignment
        (env : Env) (assignment_id : string)
        (q : submit_assignment.list_query) (user_id user_role : string)
        (w w' : World) (r : response) :
  submit_assignment.handle_list_submissions env (Some assignment_id) q
                                            user_id user_role w = (r, w') ->
  statusCode r = 200 ->
  exists on_time late graded pending : nat,
    body_field "statistics" r
    = Some (JObj [("totalSubmissions",
                   JNum (Z.of_nat
                           (List.length
                              (submit_assignment.submissions_of
                                 assignment_id w))));
                  ("onTime", JNum (Z.of_nat on_time));
                  ("late", JNum (Z.of_nat late));
                  ("graded", JNum (Z.of_nat graded));
                  ("pending", JNum (Z.of_nat pending))])
    /\ (on_time + late
        = List.length (submit_assignment.submissions_of assignment_id w))%nat
    /\ (graded + pending
        <= List.length (submit_assignment.submissions_of assignment_id w))%nat
    /\ w' = w.
Proof.
  intros H Hcode.
  set (all := submit_assignment.submissions_of assignment_id w).
  exists (List.length (filter (fun s => negb (Submission.isLate s)) all)),
         (List.length (filter Submission.isLate all)),
         (List.length
            (filter (fun s => (Submission.status s =? "graded")%string) all)),
         (List.length
            (filter (fun s => (Submission.status s =? "submitted")%string)
                    all)).
  split; [|split; [|split]].
  - revert H; unfold submit_assignment.handle_list_submissions, present.
    repeat match goal with
           | |- context [match ?x with _ => _ end] => destruct x
           end;
      intros H; inversion H; subst; try discriminate Hcode;
      unfold body_field, submit_assignment.statistics,
        submit_assignment.count; cbn;
      unfold all; rewrite filter_true_length; reflexivity.
  - rewrite Nat.add_comm; apply filter_split_length.
  - apply filter_disjoint_length.
    intros x Hx; apply String.eqb_eq in Hx; rewrite Hx; reflexivity.
  - pose proof (list_submissions_reads env (Some assignment_id) q user_id
                                       user_role w) as Hw.
    rewrite H in Hw; exact Hw.
Qed.

(** X21. Round trip of a submission, on a submissions table whose sort
    key is an attribute of the items that a submit puts.  After a submit
    that was accepted (the count of the caller's submissions being below
    the maximum) and put its item under a key that was new, the caller's
    own listing for the assignment is answered 200 with an entry for the
    new submission and one for each of the caller's submissions listed
    before, and a total one higher. *)
Theorem accepted_submission_is_in_my_submissions
        (env : Env)
        (assignment_id user_id user_email user_name file_id : string)
        (comments : option string) (w : World)
        (a : Assignment.t) (f : FileItem.t)
        (sort : Submission.t -> string) :
  submissions_sort_key env = Submission.Attribute sort ->
  submittable assignment_id user_id file_id w a f ->
  submission_count assignment_id user_id w
  < submit_assignment.max_submissions a ->
  let item :=
    new_submission env assignment_id user_id user_email user_name file_id
                   comments w a f in
  key_is_new env item w ->
  let w' :=
    snd (submit_assignment.handle_submit_assignment
           env
           (submit_assignment.mkSubmitEvent
              (Some assignment_id) (Some (submit_request file_id comments)))
           user_id user_email user_name w) in
  exists entries,
    submit_assignment.handle_get_my_submissions (Some assignment_id) user_id w'
    = (create_response 200
         (JObj [("assignmentId", JStr assignment_id);
                ("submissions", JArr entries);
                ("total",
                 JNum (submission_count assignment_id user_id w + 1))]),
       w')
    /\ Z.of_nat (List.length entries)
       = submission_count assignment_id user_id w + 1
    /\ In (submit_assignment.format_submission item) entries
    /\ forall s,
         In s (submit_assignment.existing_submissions assignment_id user_id w)
         -> In (submit_assignment.format_submission s) entries.
Proof.
  intros Hkey Hsub Hroom item Hnew w'.
  assert (Hw : w' = submitted_world env assignment_id user_id user_email
                                    user_name file_id comments w a f).
  { unfold w'.
    rewrite (submit_outcome env assignment_id user_id user_email user_name
                            file_id comments w a f Hsub), Hkey.
    destruct (Z.geb_spec (submission_count assignment_id user_id w)
                         (submit_assignment.max_submissions a));
      [lia | reflexivity]. }
  assert (Hid : truthy assignment_id = true) by apply Hsub.
  assert (Hexisting :
            submit_assignment.existing_submissions assignment_id user_id w'
            = submit_assignment.existing_submissions assignment_id user_id w
              ++ [item]).
  { rewrite Hw.
    unfold submit_assignment.existing_submissions,
      submit_assignment.submissions_of, submitted_world.
    cbn [submissions]; fold item.
    rewrite (put_item_new _ key2_eqb _ _ Hnew).
    rewrite !filter_app.
    assert (Ha : Submission.assignmentId item = assignment_id)
      by reflexivity.
    assert (Hs : Submission.studentId item = user_id) by reflexivity.
    cbn [filter]; rewrite Ha, String.eqb_refl.
    cbn [filter]; rewrite Hs, String.eqb_refl.
    reflexivity. }
  exists (map submit_assignment.format_submission
              (submit_assignment.existing_submissions assignment_id user_id w
               ++ [item])).
  assert (Hlen : Z.of_nat
                   (List.length
                      (map submit_assignment.format_submission
                           (submit_assignment.existing_submissions
                              assignment_id user_id w ++ [item])))
                 = submission_count assignment_id user_id w + 1).
  { rewrite length_map, length_app; cbn [List.length].
    rewrite <- (existing_submissions_count assignment_id user_id w); lia. }
  split; [|split; [exact Hlen|split]].
  - unfold submit_assignment.handle_get_my_submissions, present.
    rewrite Hid; cbn [negb]; cbv iota zeta.
    rewrite Hexisting, Hlen; reflexivity.
  - apply in_map, in_or_app; right; left; reflexivity.
  - intros s Hin; apply in_map, in_or_app; left; exact Hin.
Qed.

(** X22. Round trip of a grade, on a submissions table keyed as the
    grading addresses it.  After the instructor of the assignment has
    graded a submission with values that the handler can store, the
    student's own listing for the assignment is answered 200 with an entry
    for that submission that has the status [graded], the grade and the
    maximum grade of the request (100 when none was given) as floats, and
    the feedback cut to 2000 characters. *)
Theorem grade_is_reported_to_the_student
        (env : Env)
        (assignment_id submission_id user_id user_role user_name : string)
        (w : World) (a : Assignment.t) (s : Submission.t)
        (request : list (string * json)) (g m : number) (fb : json) :
  submissions_sort_key env = Submission.StudentAndNumber ->
  gradable assignment_id submission_id user_id user_role w a s ->
  grading env request g m fb ->
  let w' :=
    snd (submit_assignment.handle_grade_submission
           env
           (submit_assignment.mkGradeEvent
              (Some assignment_id) (Some submission_id)
              (Some (JsonText (JObj request))))
           user_id user_role user_name w) in
  exists entries fields,
    fst (submit_assignment.handle_get_my_submissions
           (Some assignment_id) (Submission.studentId s) w')
    = create_response 200
        (JObj [("assignmentId", JStr assignment_id);
               ("submissions", JArr entries);
               ("total", JNum (Z.of_nat (List.length entries)))])
    /\ In (JObj fields) entries
    /\ field "submissionId" fields = Some (JStr (Submission.submissionId s))
    /\ field "status" fields = Some (JStr "graded")
    /\ field "grade" fields = Some (JFloat g)
    /\ field "maxGrade" fields = Some (JFloat m)
    /\ field "feedback" fields = Some fb.
Proof.
  intros Hkey Hgradable Hvalues w'.
  destruct (grade_outcome env assignment_id submission_id user_id user_role
                          user_name w a s request g m fb Hkey Hgradable
                          Hvalues)
    as [_ Hstored].
  cbv zeta in Hstored; fold w' in Hstored.
  destruct Hgradable as (_ & Hid & _ & _ & _ & _ & Hbelongs & _).
  apply (get_item_In (Submission.key Submission.StudentAndNumber) key2_eqb)
    in Hstored.
  set (item := submit_assignment.graded
                 g m fb (utcnow_at env (ticks w)) user_id user_name
                 (field "feedbackFileId" request) s) in *.
  clearbody w'.
  unfold submit_assignment.handle_get_my_submissions, present.
  rewrite Hid; cbn [negb fst]; cbv iota zeta.
  exists (map submit_assignment.format_submission
              (submit_assignment.existing_submissions
                 assignment_id (Submission.studentId s) w')).
  eexists.
  split; [reflexivity|].
  split; [|].
  - apply in_map_iff; exists item; split; [reflexivity|].
    unfold submit_assignment.existing_submissions,
      submit_assignment.submissions_of.
    apply filter_In; split; [apply filter_In; split; [exact Hstored|]|].
    + unfold item; cbn [submit_assignment.graded Submission.assignmentId].
      rewrite Hbelongs; apply String.eqb_refl.
    + unfold item; cbn [submit_assignment.graded Submission.studentId].
      apply String.eqb_refl.
  - unfold item; cbn [submit_assignment.graded Submission.submissionId
                      Submission.status Submission.grade Submission.maxGrade
                      Submission.feedback Submission.comments
                      Submission.feedbackFileId Submission.gradedAt
                      Submission.gradedBy Submission.gradedByName].
    destruct (Submission.comments s); repeat split; reflexivity.
Qed.

(** ** Reports on an upload *)

Section TableFacts3.
Context {R K : Type}.
Variable key : R -> K.
Variable eqb : K -> K -> bool.
Hypothesis eqb_eq : forall a b, eqb a b = true <-> a = b.

Lemma get_item_app_other (k : K) (t : list R) (x : R) :
  key x <> k ->
  get_item key eqb k (t ++ [x]) = get_item key eqb k t.
Proof.
  intros Hne; unfold get_item; induction t as [|y t IH]; simpl.
  - rewrite (eqb_neq eqb eqb_eq _ _ Hne); reflexivity.
  - destruct (eqb (key y) k); [reflexivity | exact IH].
Qed.

Lemma get_item_upsert (k : K) (set : R -> R) (stub : R) (t : list R) :
  (forall r, key (set r) = key r) ->
  key stub = k ->
  exists r,
    get_item key eqb k (upsert_item key eqb k set stub t) = Some (set r)
    /\ match get_item key eqb k t with
       | Some x => r = x
       | None => r = stub
       end.
Proof.
  intros Hset Hstub; unfold upsert_item.
  destruct (get_item key eqb k t) as [x|] eqn:E.
  - exists x; split; [|reflexivity].
    apply (get_item_update key eqb eqb_eq); [|exact E].
    rewrite Hset; apply (get_item_key key eqb eqb_eq _ _ _ E).
  - exists stub; split; [|reflexivity].
    rewrite (get_item_app_new key eqb _ _ _ E).
    assert (H : eqb (key (set stub)) k = true)
      by (apply eqb_eq; rewrite Hset; exact Hstub).
    rewrite H; reflexivity.
Qed.

Lemma get_item_upsert_other (k k' : K) (set : R -> R) (stub : R)
      (t : list R) :
  (forall r, key (set r) = key r) ->
  key stub = k ->
  k' <> k ->
  get_item key eqb k' (upsert_item key eqb k set stub t)
  = get_item key eqb k' t.
Proof.
  intros Hset Hstub Hne; unfold upsert_item.
  destruct (get_item key eqb k t).
  - apply (get_item_update_other key eqb eqb_eq); assumption.
  - apply get_item_app_other; rewrite Hset, Hstub; congruence.
Qed.

End TableFacts3.

(** X23. A completion request that reports a failure is answered 200 with
    [success] false, whatever the state of the file: afterwards the files
    table holds, under the caller and the file id, an item with the status
    [failed] stamped with the clock reading of the request, made from the
    key alone when the caller had no such file; the item stored under any
    other key, and every other table, is as it was. *)
Theorem failure_report_marks_the_file_of_the_caller
        (env : Env) (event : complete_upload.complete_event)
        (user_id user_email file_id : string)
        (b : complete_upload.complete_body) (w : World) :
  complete_upload.fileId event = Some file_id ->
  truthy file_id = true ->
  complete_upload.body event = Some b ->
  complete_upload.uploadSuccess b = false ->
  let result :=
    complete_upload.lambda_handler env event user_id user_email w in
  fst result
  = create_response 200
      (JObj [("success", JBool false);
             ("message", JStr "Upload marked as failed");
             ("fileId", JStr file_id)])
  /\ (exists f,
        get_item FileItem.key key2_eqb (user_id, file_id)
                 (files (snd result))
        = Some (complete_upload.marked_failed (utcnow_at env (ticks w)) f)
        /\ match get_item FileItem.key key2_eqb (user_id, file_id)
                          (files w) with
           | Some stored => f = stored
           | None => f = FileItem.stub (user_id, file_id)
           end)
  /\ (forall k, k <> (user_id, file_id) ->
        get_item FileItem.key key2_eqb k (files (snd result))
        = get_item FileItem.key key2_eqb k (files w))
  /\ same_tables (set_files (snd result) (files w)) w.
Proof.
  intros Hevent Hid Hbody Hfail result.
  unfold result, complete_upload.lambda_handler, present.
  rewrite Hevent, Hid, Hbody, Hfail; cbn [negb]; cbv iota.
  unfold complete_upload.handle_failed_upload, utcnow.
  cbn [fst snd files set_files].
  split; [reflexivity|].
  split; [|split].
  - apply (get_item_upsert FileItem.key key2_eqb key2_eqb_eq);
      reflexivity.
  - intros k Hk.
    apply (get_item_upsert_other FileItem.key key2_eqb key2_eqb_eq);
      [reflexivity | reflexivity | exact Hk].
  - unfold same_tables; cbn; tauto.
Qed.

(** X24. A completion request that reports success writes at most one
    item.  Either every table is as it was, or the caller holds, under the
    file id of the path, a file that is not [active], the bucket holds an
    object under the key of the request, and that file alone is updated:
    to [active], with the clock reading of the request, the size of the
    object when it differs from the stored one, the checksum of the request
    or else the [ETag] of the object without its quotes, and a pending
    virus scan.  The file of another user is never written, and no file
    is made [active] without an object in the bucket. *)
Theorem completion_updates_the_file_of_the_caller_only
        (env : Env) (event : complete_upload.complete_event)
        (user_id user_email : string) (b : complete_upload.complete_body)
        (w w' : World) (r : response) :
  complete_upload.body event = Some b ->
  complete_upload.uploadSuccess b = true ->
  complete_upload.lambda_handler env event user_id user_email w = (r, w') ->
  same_tables w w'
  \/ exists file_id s3_key f o,
       complete_upload.fileId event = Some file_id
       /\ complete_upload.s3Key b = Some s3_key
       /\ get_item FileItem.key key2_eqb (user_id, file_id) (files w)
          = Some f
       /\ FileItem.status f <> "active"
       /\ complete_upload.head_object s3_key w = Some o
       /\ files w'
          = update_item FileItem.key key2_eqb (user_id, file_id)
              (complete_upload.completed
                 (utcnow_at env (ticks w)) (S3Object.ContentLength o)
                 (complete_upload.checksum b) (complete_upload.s3_etag o))
              (files w)
       /\ same_tables (set_files w' (files w)) w.
Proof.
  intros Hbody Hsuccess.
  unfold complete_upload.lambda_handler, present.
  rewrite Hbody, Hsuccess.
  destruct (complete_upload.fileId event) as [file_id|];
    [|intros H; inversion H; subst; left; apply same_tables_refl].
  destruct (truthy file_id); cbn [negb]; cbv iota;
    [|intros H; inversion H; subst; left; apply same_tables_refl].
  destruct (complete_upload.s3Key b) as [s3_key|];
    [|intros H; inversion H; subst; left; apply same_tables_refl].
  destruct (truthy s3_key); cbn [negb]; cbv iota;
    [|intros H; inversion H; subst; left; apply same_tables_refl].
  destruct (get_item FileItem.key key2_eqb (user_id, file_id) (files w))
    as [f|] eqn:Hfile;
    [|intros H; inversion H; subst; left; apply same_tables_refl].
  destruct (FileItem.userId f =? user_id)%string; cbn [negb];
    [|intros H; inversion H; subst; left; apply same_tables_refl].
  destruct (String.eqb_spec (FileItem.status f) "active") as [|Hstatus];
    [intros H; inversion H; subst; left; apply same_tables_refl|].
  destruct (complete_upload.head_object s3_key w) as [o|] eqn:Hobject;
    [|intros H; inversion H; subst; left; apply same_tables_refl].
  unfold utcnow; cbv beta iota zeta; cbn [files set_files].
  intros H; right; exists file_id, s3_key, f, o.
  repeat split; try assumption;
    destruct (get_item FileItem.key key2_eqb (user_id, file_id)
                (update_item FileItem.key key2_eqb (user_id, file_id) _
                             (files w)));
    inversion H; subst; reflexivity.
Qed.


(** ** Sharing again *)

Section ShareAgain.
Import share_file.
Variable env : Env.
Variables file_id user_id user_email : string.
Variable message : json.
Variable expires_at : option json.
Hypothesis store_accepts : forall s, put_share_refused env s = false.
Hypothesis message_is_regular : regular_message message = true.
Hypothesis expiry_is_regular : regular_expiry expires_at = true.

Let step : batch -> json -> outcome :=
  share_with env file_id user_id user_email message expires_at.

(** A pass for a registered user whose share of the file, if any, is not
    [active]. *)
Lemma share_with_registered (b : batch) (r : json) (address : string)
      (u : User.t) :
  email r = Some (JStr address) ->
  storable (permissions r) = true ->
  truthy address = true ->
  contains "@" address = true ->
  contains "." address = true ->
  lower address <> lower user_email ->
  get_user_by_email address (world b) = Some u ->
  match get_item Share.key key2_eqb (file_id, User.userId u)
                 (shares (world b)) with
  | Some old => Share.status old <> "active"
  | None => True
  end ->
  exists m b',
    let item :=
      share_item (uuid4_at env (draws (world b))) file_id user_id
                 (User.userId u) address (permissions r)
                 (utcnow_at env (ticks (world b))) m expires_at in
    step b r = Next b'
    /\ shares (world b')
       = put_item Share.key key2_eqb item (shares (world b))
    /\ List.length (successful_shares b')
       = S (List.length (successful_shares b))
    /\ failed_shares b' = failed_shares b.
Proof.
  intros He Hp Ht Hat Hdot Hself Hu Hold.
  unfold step.
  rewrite (share_with_text env file_id user_id user_email message expires_at
                           b r address He).
  rewrite Ht, Hat, Hdot; cbn [negb orb].
  destruct (String.eqb_spec (lower address) (lower user_email));
    [contradiction|].
  unfold share_with_address; rewrite Hu.
  cbv beta iota zeta; unfold check_existing_share.
  assert (Hfree : match get_item Share.key key2_eqb (file_id, User.userId u)
                                 (shares (world b)) with
                  | Some existing_share =>
                      (Share.status existing_share =? "active")%string
                  | None => false
                  end = false).
  { destruct (get_item Share.key key2_eqb (file_id, User.userId u)
                       (shares (world b))) as [old|]; [|reflexivity].
    apply String.eqb_neq; exact Hold. }
  rewrite Hfree.
  unfold uuid4, utcnow; cbv beta iota zeta.
  pose proof message_is_regular as Hm; unfold regular_message in Hm.
  destruct (message_attribute message) as [m|text]; [|discriminate].
  assert (Hm' : match m with Some x => storable x = true | None => True end)
    by (destruct m; [exact Hm | exact I]).
  rewrite (share_item_serializes env file_id user_id user_email message
                                 expires_at _ _ _ _ _ _
                                 Hp Hm' expiry_is_regular).
  rewrite store_accepts.
  exists m; eexists; cbv zeta.
  split; [reflexivity|].
  cbn [world successful_shares failed_shares shares set_shares ticks draws].
  split; [reflexivity|].
  split; [rewrite length_app; cbn; lia | reflexivity].
Qed.

(** A pass for an address that no user is registered under, the
    placeholder drawn for it having no share of the file. *)
Lemma share_with_unregistered (b : batch) (r : json) (address : string) :
  email r = Some (JStr address) ->
  storable (permissions r) = true ->
  truthy address = true ->
  contains "@" address = true ->
  contains "." address = true ->
  lower address <> lower user_email ->
  get_user_by_email address (world b) = None ->
  let grantee := ("pending-" ++ uuid4_at env (draws (world b)))%string in
  get_item Share.key key2_eqb (file_id, grantee) (shares (world b)) = None ->
  exists m b',
    let item :=
      share_item (uuid4_at env (S (draws (world b)))) file_id user_id
                 grantee address (permissions r)
                 (utcnow_at env (ticks (world b))) m expires_at in
    step b r = Next b'
    /\ shares (world b') = shares (world b) ++ [item]
    /\ users (world b') = users (world b)
    /\ draws (world b') = S (S (draws (world b)))
    /\ List.length (successful_shares b')
       = S (List.length (successful_shares b))
    /\ failed_shares b' = failed_shares b.
Proof.
  intros He Hp Ht Hat Hdot Hself Hu grantee Hnew.
  unfold step.
  rewrite (share_with_text env file_id user_id user_email message expires_at
                           b r address He).
  rewrite Ht, Hat, Hdot; cbn [negb orb].
  destruct (String.eqb_spec (lower address) (lower user_email));
    [contradiction|].
  unfold share_with_address; rewrite Hu.
  unfold uuid4, utcnow, check_existing_share; cbv beta iota zeta.
  cbn [shares draws ticks].
  fold grantee; rewrite Hnew.
  pose proof message_is_regular as Hm; unfold regular_message in Hm.
  destruct (message_attribute message) as [m|text]; [|discriminate].
  assert (Hm' : match m with Some x => storable x = true | None => True end)
    by (destruct m; [exact Hm | exact I]).
  rewrite (share_item_serializes env file_id user_id user_email message
                                 expires_at _ _ _ _ _ _
                                 Hp Hm' expiry_is_regular).
  rewrite store_accepts.
  exists m; eexists; cbv zeta.
  split; [reflexivity|].
  cbn [world successful_shares failed_shares shares set_shares ticks draws
       users].
  rewrite (put_item_new Share.key key2_eqb) by exact Hnew.
  repeat split; try reflexivity.
  rewrite length_app; cbn; lia.
Qed.

End ShareAgain.

(** X26. A revoked share can be granted again.  After the owner has
    revoked a share, a pass of the sharing loop for the registered user it
    was made for, with values that the store can hold, is not turned down
    as a duplicate: it succeeds and puts a new [active] share, with a new
    share id, in the place of the revoked one, so that the table keeps its
    size. *)
Theorem revoked_share_can_be_granted_again
        (env env' : Env)
        (file_id share_id user_id user_email : string) (message : json)
        (expires_at : option json) (w : World)
        (file_item : FileItem.t) (others : list FileItem.t)
        (share : Share.t) (others' : list Share.t)
        (r : json) (address : string) (u : User.t) :
  truthy file_id = true ->
  truthy share_id = true ->
  files_by_id file_id w = file_item :: others ->
  FileItem.userId file_item = user_id ->
  share_file.shares_by_id share_id w = share :: others' ->
  Share.fileId share = file_id ->
  get_item Share.key key2_eqb (Share.key share) (shares w) = Some share ->
  (forall s, put_share_refused env' s = false) ->
  regular_message message = true ->
  regular_expiry expires_at = true ->
  share_file.email r = Some (JStr address) ->
  storable (share_file.permissions r) = true ->
  truthy address = true ->
  contains "@" address = true ->
  contains "." address = true ->
  lower address <> lower user_email ->
  share_file.get_user_by_email address w = Some u ->
  User.userId u = Share.sharedWithUserId share ->
  let w1 :=
    snd (share_file.handle_revoke_share env (Some file_id) (Some share_id)
                                        user_id w) in
  exists b1,
    share_file.share_with env' file_id user_id user_email message expires_at
                          (share_file.mkBatch w1 [] []) r
    = share_file.Next b1
    /\ (exists item,
          get_item Share.key key2_eqb (Share.key share)
                   (shares (share_file.world b1)) = Some item
          /\ Share.status item = "active"
          /\ Share.revokedAt item = None
          /\ Share.shareId item = uuid4_at env' (draws w1))
    /\ List.length (shares (share_file.world b1)) = List.length (shares w)
    /\ List.length (share_file.successful_shares b1) = 1%nat
    /\ share_file.failed_shares b1 = [].
Proof.
  intros Hf Hs Hfile Hown Hshare Hbelongs Hstored Haccepts Hmsg Hexp He Hp Ht
         Hat Hdot Hself Hu Hsame w1.
  assert (Hk : Share.key share = (file_id, User.userId u))
    by (unfold Share.key; rewrite Hbelongs, Hsame; reflexivity).
  assert (Hget : get_item Share.key key2_eqb (file_id, User.userId u)
                          (shares w1)
                 = Some (share_file.revoked (utcnow_at env (ticks w)) share)).
  { rewrite <- Hk.
    apply (revoke_share_any_status env file_id share_id user_id w
             file_item others share others'); assumption. }
  assert (Hw1 : users w1 = users w
                /\ List.length (shares w1) = List.length (shares w)).
  { unfold w1, share_file.handle_revoke_share, present.
    rewrite Hf, Hs, Hfile, Hown, Hshare, Hbelongs, !String.eqb_refl.
    cbn [negb orb]; cbv iota; unfold utcnow; cbv beta iota zeta.
    cbn [snd users shares set_shares].
    split; [reflexivity | apply update_item_length]. }
  destruct Hw1 as [Husers Hlength].
  assert (Hu1 : share_file.get_user_by_email
                  address (share_file.world (share_file.mkBatch w1 [] []))
                = Some u)
    by (unfold share_file.get_user_by_email in *; cbn [share_file.world];
        rewrite Husers; exact Hu).
  clearbody w1.
  destruct (share_with_registered env' file_id user_id user_email message
              expires_at Haccepts Hmsg Hexp (share_file.mkBatch w1 [] []) r
              address u He Hp Ht Hat Hdot Hself Hu1)
    as (m & b1 & Hstep & Hshares & Hok & Hfailed).
  { cbn [share_file.world]; rewrite Hget.
    cbn [share_file.revoked Share.status]; discriminate. }
  cbn [share_file.world share_file.successful_shares
       share_file.failed_shares List.length] in Hshares, Hok, Hfailed.
  set (item := share_file.share_item
                 (uuid4_at env' (draws w1)) file_id user_id (User.userId u)
                 address (share_file.permissions r)
                 (utcnow_at env' (ticks w1)) m expires_at) in *.
  exists b1; split; [exact Hstep|].
  split; [|split; [|split; [exact Hok | exact Hfailed]]].
  - exists item; split; [|repeat split].
    rewrite Hshares, Hk.
    exact (get_item_put Share.key key2_eqb key2_eqb_eq item (shares w1)).
  - rewrite Hshares; unfold put_item.
    replace (Share.key item) with (file_id, User.userId u) by reflexivity.
    rewrite Hget, update_item_length; exact Hlength.
Qed.

(** X27. The duplicate test does not see a recipient who is not
    registered: each pass of the sharing loop for such an address draws a
    new placeholder user id, so two passes for the same address, with values
    that the store can hold, store two shares of the file (the placeholders
    drawn being different and unused), both reported as shared. *)
Theorem unregistered_address_is_shared_with_twice
        (env : Env) (file_id user_id user_email : string) (message : json)
        (expires_at : option json) (b : share_file.batch)
        (r : json) (address : string) :
  (forall s, put_share_refused env s = false) ->
  regular_message message = true ->
  regular_expiry expires_at = true ->
  share_file.email r = Some (JStr address) ->
  storable (share_file.permissions r) = true ->
  truthy address = true ->
  contains "@" address = true ->
  contains "." address = true ->
  lower address <> lower user_email ->
  share_file.get_user_by_email address (share_file.world b) = None ->
  let d := draws (share_file.world b) in
  let first := ("pending-" ++ uuid4_at env d)%string in
  let second := ("pending-" ++ uuid4_at env (S (S d)))%string in
  first <> second ->
  get_item Share.key key2_eqb (file_id, first)
           (shares (share_file.world b)) = None ->
  get_item Share.key key2_eqb (file_id, second)
           (shares (share_file.world b)) = None ->
  let step :=
    share_file.share_with env file_id user_id user_email message
                          expires_at in
  exists b1 b2,
    step b r = share_file.Next b1
    /\ step b1 r = share_file.Next b2
    /\ (exists s1 s2,
          shares (share_file.world b2)
          = shares (share_file.world b) ++ [s1; s2]
          /\ Share.sharedWithEmail s1 = address
          /\ Share.sharedWithEmail s2 = address
          /\ Share.sharedWithUserId s1 = first
          /\ Share.sharedWithUserId s2 = second
          /\ Share.status s1 = "active" /\ Share.status s2 = "active")
    /\ List.length (share_file.successful_shares b2)
       = S (S (List.length (share_file.successful_shares b)))
    /\ share_file.failed_shares b2 = share_file.failed_shares b.
Proof.
  intros Haccepts Hmsg Hexp He Hp Ht Hat Hdot Hself Hu d first second Hdiff
         Hnew1 Hnew2 step.
  destruct (share_with_unregistered env file_id user_id user_email message
              expires_at Haccepts Hmsg Hexp b r address He Hp Ht Hat Hdot
              Hself Hu Hnew1)
    as (m1 & b1 & Hstep1 & Hshares1 & Husers1 & Hdraws1 & Hok1 & Hfailed1).
  fold d first step in Hstep1, Hshares1, Husers1, Hdraws1, Hok1, Hfailed1.
  assert (Hu1 : share_file.get_user_by_email address (share_file.world b1)
                = None)
    by (unfold share_file.get_user_by_email in *; rewrite Husers1; exact Hu).
  assert (Hnew : get_item Share.key key2_eqb
                   (file_id,
                    ("pending-"
                       ++ uuid4_at env (draws (share_file.world b1)))
                      %string)
                   (shares (share_file.world b1)) = None).
  { rewrite Hdraws1, Hshares1; fold second.
    rewrite (get_item_app_other Share.key key2_eqb key2_eqb_eq);
      [exact Hnew2|].
    cbn [Share.key share_file.share_item Share.fileId
         Share.sharedWithUserId].
    intros Heq; apply Hdiff; unfold first, second.
    inversion Heq as [Hid]; rewrite Hid; reflexivity. }
  destruct (share_with_unregistered env file_id user_id user_email message
              expires_at Haccepts Hmsg Hexp b1 r address He Hp Ht Hat Hdot
              Hself Hu1 Hnew)
    as (m2 & b2 & Hstep2 & Hshares2 & _ & _ & Hok2 & Hfailed2).
  fold step in Hstep2.
  exists b1, b2.
  split; [exact Hstep1|].
  split; [exact Hstep2|].
  split; [|split].
  - eexists; eexists; split.
    + rewrite Hshares2, Hshares1, <- app_assoc; reflexivity.
    + rewrite Hdraws1; repeat split; reflexivity.
  - rewrite Hok2, Hok1; reflexivity.
  - rewrite Hfailed2, Hfailed1; reflexivity.
Qed.

(** ** The share count of the file list *)

Lemma active_shares_loop_length
      (env : Env) (l : list Share.t) (w w' : World) (acc out : list json) :
  share_file.active_shares_loop env l w acc = (inl out, w') ->
  (List.length out
   <= List.length acc
      + List.length (filter (fun s => (Share.status s =? "active")%string) l)
  )%nat
  /\ ((forall s, In s l -> Share.status s = "active" ->
                 Share.expiresAt s = None) ->
      List.length out
      = (List.length acc
         + List.length
             (filter (fun s => (Share.status s =? "active")%string) l))%nat).
Proof.
  revert w acc; induction l as [|share rest IH]; intros w acc;
    cbn [share_file.active_shares_loop filter].
  - intros H; inversion H; subst; cbn; split; [lia | intros _; lia].
  - destruct (Share.status share =? "active")%string eqn:Hact; cbn [negb].
    + unfold share_file.expired.
      destruct (Share.expiresAt share) as [e|] eqn:Hexp.
      * destruct (expiry_of e) as [expiry|]; [|discriminate].
        unfold utcnow.
        destruct (utcnow_at env (ticks w) >? expiry); intros H;
          apply IH in H; destruct H as [Hle _];
          (split; [rewrite ?length_app in Hle; cbn [List.length] in *; lia|]);
          intros Hnone;
          (assert (Hn : Share.expiresAt share = None)
            by (apply Hnone; [left; reflexivity
                             | apply String.eqb_eq, Hact]));
          rewrite Hn in Hexp; discriminate.
      * intros H; apply IH in H; destruct H as [Hle Heq].
        rewrite length_app in Hle, Heq; cbn [List.length] in *.
        split; [lia|].
        intros Hnone; rewrite Heq; [lia|].
        intros s Hin; apply Hnone; right; exact Hin.
    + intros H; apply IH in H; destruct H as [Hle Heq].
      split; [exact Hle|].
      intros Hnone; apply Heq.
      intros s Hin; apply Hnone; right; exact Hin.
Qed.

(** X28. The number of shares that [handle_list_shares] returns for a file
    never exceeds the share count that the file list computes for it with
    [get_share_count], which counts the [active] shares of the file
    without looking at their expiry; the two agree when no [active] share
    of the file has an expiry. *)
Theorem listed_shares_never_exceed_the_share_count
        (env : Env) (file_id user_id : string) (w w' : World)
        (r : response) :
  share_file.handle_list_shares env (Some file_id) user_id w = (r, w') ->
  statusCode r = 200 ->
  exists n : nat,
    body_field "total" r = Some (JNum (Z.of_nat n))
    /\ Z.of_nat n <= list_files.get_share_count file_id w
    /\ ((forall s, In s (shares_of_file file_id w) ->
                   Share.status s = "active" ->
                   Share.expiresAt s = None) ->
        Z.of_nat n = list_files.get_share_count file_id w).
Proof.
  intros H Hcode.
  destruct (list_shares_ok env file_id user_id w w' r H Hcode)
    as (out & Hloop & _ & Htotal).
  apply active_shares_loop_length in Hloop.
  destruct Hloop as [Hle Heq]; cbn [List.length] in Hle, Heq.
  exists (List.length out); unfold list_files.get_share_count.
  split; [exact Htotal|].
  split; [lia|].
  intros Hnone; rewrite (Heq Hnone); reflexivity.
Qed.

(** * The further properties on sample requests *)

Lemma created_shares_are_well_formed_witness :
  let w := Sample.world "active" [] [] in
  let event :=
    share_file.mkShareEvent
      (Some "f-report")
      (Some (share_request [Example.to_bob] None None)) in
  exists s,
    In s (shares (snd (share_file.handle_share_file
                         Sample.env event "u-alice" "alice@campus.edu"
                         "Alice" w)))
    /\ created_share (users w) "f-report" "u-alice" "alice@campus.edu" s.
Proof.
  intros w event.
  eexists; split; [vm_compute; left; reflexivity|].
  apply (created_shares_are_well_formed
           Sample.env event "u-alice" "alice@campus.edu" "Alice" w);
    [vm_compute; left; reflexivity | vm_compute; intros []].
Defined.

Lemma second_share_with_the_same_user_is_refused_witness :
  let step :=
    share_file.share_with Sample.env "f-report" "u-alice" "alice@campus.edu"
                          (JStr "") None in
  let b := share_file.mkBatch (Sample.world "active" [] []) [] [] in
  let b1 := batch_of (step b Example.to_bob) in
  step b Example.to_bob = share_file.Next b1
  /\ step b1 Example.to_bob
     = share_file.Next
         (share_file.fail b1 (share_file.world b1)
            (share_file.failed_entry "bob@campus.edu"
                                     "File already shared with this user")).
Proof.
  intros step b b1.
  split; [reflexivity|].
  apply (second_share_with_the_same_user_is_refused
           Sample.env "f-report" "u-alice" "alice@campus.edu" (JStr "") None
           b b1 Example.to_bob "bob@campus.edu" Sample.bob);
    [reflexivity | reflexivity | reflexivity | vm_compute; discriminate].
Defined.

Lemma live_shares_are_listed_witness :
  let live := Sample.share_with_bob "active" None None in
  let w := Sample.world "active" [live] [] in
  exists entries,
    body_field "shares"
               (fst (share_file.handle_list_shares
                       Sample.env (Some "f-report") "u-alice" w))
    = Some (JArr entries)
    /\ In (share_file.formatted_share live) entries.
Proof.
  intros live w.
  apply (live_shares_are_listed
           Sample.env "f-report" "u-alice" w
           (snd (share_file.handle_list_shares Sample.env (Some "f-report")
                                               "u-alice" w))
           (fst (share_file.handle_list_shares Sample.env (Some "f-report")
                                               "u-alice" w))
           live);
    [vm_compute; reflexivity | vm_compute; reflexivity
     | left; reflexivity | reflexivity | reflexivity | exact I].
Defined.

Lemma created_share_is_listed_witness :
  let b := share_file.mkBatch (Sample.world "active" [] []) [] [] in
  let b1 :=
    batch_of
      (share_file.share_with Sample.env "f-report" "u-alice"
                             "alice@campus.edu" (JStr "") None b
                             Example.to_bob) in
  exists entries fields,
    body_field "shares"
               (fst (share_file.handle_list_shares
                       Sample.env (Some "f-report") "u-alice"
                       (share_file.world b1)))
    = Some (JArr entries)
    /\ In (JObj fields) entries
    /\ field "permissions" fields = Some (JStr "read")
    /\ field "sharedWith" fields
       = Some (JObj [("userId", JStr "u-bob");
                     ("email", JStr "bob@campus.edu")])
    /\ field "status" fields = Some (JStr "active")
    /\ field "expiresAt" fields = None.
Proof.
  intros b b1.
  apply (created_share_is_listed
           Sample.env "f-report" "u-alice" "alice@campus.edu" (JStr "") None
           b b1 Example.to_bob "bob@campus.edu" Sample.bob
           (fst (share_file.handle_list_shares
                   Sample.env (Some "f-report") "u-alice"
                   (share_file.world b1)))
           (snd (share_file.handle_list_shares
                   Sample.env (Some "f-report") "u-alice"
                   (share_file.world b1))));
    [reflexivity | reflexivity | reflexivity | vm_compute; discriminate
     | intros n; left; reflexivity
     | vm_compute; reflexivity | vm_compute; reflexivity].
Defined.

Lemma revoked_share_leaves_the_listing_witness :
  let revoked := Sample.share_with_bob "active" None None in
  let kept :=
    Share.mk "s-2" "f-report" "u-alice" "u-erin" "erin@campus.edu"
             (JStr "read") 25
             "active" 0 None None None None None None in
  let w := Sample.world "active" [revoked; kept] [] in
  let w1 :=
    snd (share_file.handle_revoke_share Sample.env (Some "f-report")
                                        (Some "s-1") "u-alice" w) in
  let answer :=
    fst (share_file.handle_list_shares Sample.env (Some "f-report")
                                       "u-alice" w1) in
  body_field "shares" answer = Some (JArr [share_file.formatted_share kept])
  /\ field "shareId"
           match share_file.formatted_share kept with
           | JObj fields => fields
           | _ => []
           end
     <> Some (JStr "s-1").
Proof.
  intros revoked kept w w1 answer.
  split; [vm_compute; reflexivity|].
  apply (revoked_share_leaves_the_listing
           Sample.env "f-report" "s-1" "u-alice" w
           (Sample.report "active") [] revoked []
           answer
           (snd (share_file.handle_list_shares Sample.env (Some "f-report")
                                               "u-alice" w1))
           [share_file.formatted_share kept]);
    try (vm_compute; reflexivity).
  - vm_compute; repeat constructor; simpl; intuition discriminate.
  - left; reflexivity.
Defined.

Lemma download_needs_ownership_or_a_live_share_witness :
  let w := Example.world "active" [Example.share_of_notes "active" None] in
  let result :=
    generate_presigned_url.handle_download_url
      generate_presigned_url.default_config Example.signer Sample.env
      (Some "f-notes") "u-bob" w in
  statusCode (fst result) = 200
  /\ exists file_item others,
       files_by_id "f-notes" w = file_item :: others
       /\ FileItem.status file_item = "active"
       /\ files (snd result)
          = update_item FileItem.key key2_eqb
              (FileItem.userId file_item, "f-notes")
              generate_presigned_url.count_download (files w)
       /\ shares (snd result) = shares w.
Proof.
  intros w result.
  split; [vm_compute; reflexivity|].
  destruct (download_needs_ownership_or_a_live_share
              generate_presigned_url.default_config Example.signer Sample.env
              "f-notes" "u-bob" w (snd result) (fst result))
    as (file_item & others & Hfound & Hact & _ & Hfiles & Hshares & _);
    [vm_compute; reflexivity | vm_compute; reflexivity|].
  exists file_item, others; repeat split; assumption.
Defined.

Lemma revoked_share_gives_no_download_witness :
  let share := Example.share_of_notes "active" None in
  let w := Example.world "active" [share] in
  let w1 :=
    snd (share_file.handle_revoke_share Sample.env (Some "f-notes")
                                        (Some "s-9") "u-alice" w) in
  let result :=
    generate_presigned_url.handle_download_url
      generate_presigned_url.default_config Example.signer Sample.env
      (Some "f-notes") "u-bob" w1 in
  fst result
  = create_response 403
      (error_body "Forbidden" "You do not have access to this file")
  /\ files (snd result) = files w.
Proof.
  intros share w w1 result.
  apply (revoked_share_gives_no_download
           generate_presigned_url.default_config Example.signer
           Sample.env Sample.env "f-notes" "s-9" "u-alice" w
           (Example.notes "active") [] share []);
    try reflexivity.
  vm_compute; discriminate.
Defined.

Lemma owner_and_live_grantee_download_witness :
  let w :=
    Example.world "active"
                  [Example.share_of_notes "active" (Some (Sample.utc 1000))]
  in
  let result :=
    generate_presigned_url.handle_download_url
      generate_presigned_url.default_config Example.signer Sample.env
      (Some "f-notes") "u-bob" w in
  fst result
  = create_response 200
      (JObj [("downloadUrl",
              JStr "https://campus-cloud-files-bucket/users/u-alice/files/f-notes");
             ("filename", JStr "notes.pdf");
             ("contentType", JStr "application/pdf");
             ("fileSize", JNum 2048);
             ("expiresIn", JNum 900)])
  /\ map FileItem.downloadCount (files (snd result)) = [Some 4].
Proof.
  intros w result.
  destruct (owner_and_live_grantee_download
              generate_presigned_url.default_config Example.signer Sample.env
              "f-notes" "u-bob" w (Example.notes "active") []
              "users/u-alice/files/f-notes" "notes.pdf" "application/pdf"
              2048 3)
    as [Hanswer Hfiles]; try reflexivity.
  - right; exists (Example.share_of_notes "active" (Some (Sample.utc 1000))).
    split; [reflexivity|]; split; [reflexivity|].
    exists 1000; split; [reflexivity | vm_compute; discriminate].
  - fold result in Hanswer, Hfiles.
    split; [rewrite Hanswer; reflexivity | rewrite Hfiles; reflexivity].
Defined.

Lemma shared_file_can_be_downloaded_witness :
  let b := share_file.mkBatch (Example.world "active" []) [] [] in
  let b1 :=
    batch_of
      (share_file.share_with Sample.env "f-notes" "u-alice"
                             "alice@campus.edu" (JStr "")
                             (Some (Sample.utc 5000)) b Example.to_bob) in
  statusCode
    (fst (generate_presigned_url.handle_download_url
            generate_presigned_url.default_config Example.signer Sample.env
            (Some "f-notes") "u-bob" (share_file.world b1))) = 200.
Proof.
  intros b b1.
  apply (shared_file_can_be_downloaded
           generate_presigned_url.default_config Example.signer
           Sample.env Sample.env "f-notes" "u-alice" "alice@campus.edu"
           (JStr "") (Some (Sample.utc 5000)) b b1 Example.to_bob
           "bob@campus.edu" Sample.bob (Example.notes "active") []
           "users/u-alice/files/f-notes" "notes.pdf" "application/pdf"
           2048 3);
    try reflexivity.
  - vm_compute; discriminate.
  - right; exists 5000; split; [reflexivity | vm_compute; discriminate].
Defined.

Lemma unreadable_expiry_fails_the_listing_witness :
  let b := share_file.mkBatch (Example.world "active" []) [] [] in
  let b1 :=
    batch_of
      (share_file.share_with Sample.env "f-notes" "u-alice"
                             "alice@campus.edu" (JStr "")
                             (Some (JIso (NotIso "soon"))) b
                             Example.to_bob) in
  statusCode
    (fst (share_file.handle_list_shares Sample.env (Some "f-notes") "u-alice"
                                        (share_file.world b1))) = 500
  /\ statusCode
       (fst (generate_presigned_url.handle_download_url
               generate_presigned_url.default_config Example.signer
               Sample.env (Some "f-notes") "u-bob" (share_file.world b1)))
     = 403.
Proof.
  intros b b1.
  destruct (unreadable_expiry_fails_the_listing
              generate_presigned_url.default_config Example.signer
              Sample.env Sample.env "f-notes" "u-alice" "alice@campus.edu"
              (JStr "") "soon" b b1 Example.to_bob "bob@campus.edu" Sample.bob
              (Example.notes "active") [])
    as [Hlist Hdown]; try reflexivity; try (vm_compute; discriminate).
  split; [exact Hlist | apply Hdown; vm_compute; discriminate].
Defined.

Lemma sample_uploadable :
  uploadable generate_presigned_url.default_config Sample.env Example.upload
             "u-alice" (Example.world "active" [])
             "essay.pdf" "application/pdf" 4096.
Proof.
  eexists; exists []; repeat split; try reflexivity; try discriminate;
    vm_compute; first [lia | tauto | discriminate].
Qed.

Lemma upload_url_is_granted_to_valid_requests_only_witness :
  let w := Example.world "active" [] in
  let result :=
    generate_presigned_url.handle_upload_url
      generate_presigned_url.default_config Example.signer Sample.env
      Example.upload "u-alice" w in
  uploadable generate_presigned_url.default_config Sample.env Example.upload
             "u-alice" w "essay.pdf" "application/pdf" 4096
  /\ statusCode (fst result) = 200
  /\ body_field "s3Key" (fst result)
     = Some (JStr "users/u-alice/files/id-0")
  /\ map FileItem.status (files (snd result)) = ["active"; "pending"].
Proof.
  intros w result.
  pose proof sample_uploadable as Hup.
  split; [exact Hup|].
  destruct (upload_url_is_granted_to_valid_requests_only
              generate_presigned_url.default_config Example.signer Sample.env
              Example.upload "u-alice" w) as [Hok _].
  destruct (Hok "essay.pdf" "application/pdf" 4096 Hup)
    as (Hcode & _ & Hkey & (fields & Hfiles & _) & _).
  fold result in Hcode, Hkey, Hfiles.
  split; [exact Hcode|].
  split; [exact Hkey|].
  rewrite Hfiles; reflexivity.
Defined.

Lemma pending_upload_is_not_served_witness :
  let w := Example.world "active" [] in
  let w1 :=
    snd (generate_presigned_url.handle_upload_url
           generate_presigned_url.default_config Example.signer Sample.env
           Example.upload "u-alice" w) in
  generate_presigned_url.handle_download_url
    generate_presigned_url.default_config Example.signer Sample.env
    (Some "id-0") "u-alice" w1
  = (create_response 400
       (error_body "Bad Request" "File is not available (status: pending)"),
     w1).
Proof.
  intros w w1.
  destruct (pending_upload_is_not_served
              generate_presigned_url.default_config Example.signer Sample.env
              Example.upload "u-alice" w "essay.pdf" "application/pdf" 4096)
    as [Hdown _]; [exact sample_uploadable | reflexivity | reflexivity |].
  apply Hdown.
Defined.


Lemma submit_writes_a_submission_of_the_caller_witness :
  let w := Sample.world "active" [] [] in
  let result :=
    submit_assignment.handle_submit_assignment
      Sample.env
      (submit_assignment.mkSubmitEvent
         (Some "a-essay")
         (Some (submit_request "f-report" None)))
      "u-alice" "alice@campus.edu" "Alice" w in
  statusCode (fst result) = 201
  /\ List.length (submissions (snd result)) = 1%nat
  /\ Forall (submitted_by "u-alice" (Some "a-essay") w)
            (submissions (snd result)).
Proof.
  intros w result.
  split; [reflexivity|]; split; [reflexivity|].
  destruct (submit_writes_a_submission_of_the_caller
              Sample.env
              (submit_assignment.mkSubmitEvent
                 (Some "a-essay")
                 (Some (submit_request "f-report" None)))
              "u-alice" "alice@campus.edu" "Alice" w (snd result)
              (fst result))
    as (_ & _ & _ & Hin); [apply surjective_pairing|].
  apply Forall_forall; intros s Hs.
  destruct (Hin s Hs) as [[] | Hnew]; exact Hnew.
Defined.

Lemma submissions_change_by_submit_or_by_the_instructor_witness :
  let w := Sample.world "active" [] [Sample.graded_essay] in
  let carol :=
    mkClaims "u-carol" "carol@campus.edu" (Some "Carol")
             (Some "instructors") in
  let e :=
    submit_assignment.mkEvent
      carol "PUT" "/assignments/a-essay/submissions/sub-1/grade"
      (Some "a-essay") (Some "sub-1")
      (submit_assignment.mkListQuery None (mkPageQuery None None))
      (Some (JsonText (JObj [("grade", JNum 80);
                             ("feedback", JStr "better")]))) in
  let result := submit_assignment.lambda_handler Sample.grading_env e w in
  statusCode (fst result) = 200
  /\ files (snd result) = files w
  /\ Forall (fun s =>
               In s (submissions w)
               \/ submitted_by "u-carol" (Some "a-essay") w s
               \/ graded_by "u-carol" "instructors" "Carol" (Some "a-essay")
                            w s)
            (submissions (snd result)).
Proof.
  intros w carol e result.
  split; [reflexivity|].
  destruct (submissions_change_by_submit_or_by_the_instructor
              Sample.grading_env e w (snd result) (fst result))
    as (Hfiles & _ & _ & _ & Hin); [apply surjective_pairing|].
  split; [exact Hfiles|].
  apply Forall_forall; intros s Hs; exact (Hin s Hs).
Defined.

Lemma statistics_cover_the_whole_assignment_witness :
  let w := Sample.world "active" [] [Sample.graded_essay] in
  let result :=
    submit_assignment.handle_list_submissions
      Sample.env (Some "a-essay")
      (submit_assignment.mkListQuery (Some "submitted")
                                     (mkPageQuery None None))
      "u-carol" "instructor" w in
  body_field "submissions" (fst result) = Some (JArr [])
  /\ exists on_time late graded pending : nat,
       body_field "statistics" (fst result)
       = Some (JObj [("totalSubmissions", JNum 1);
                     ("onTime", JNum (Z.of_nat on_time));
                     ("late", JNum (Z.of_nat late));
                     ("graded", JNum (Z.of_nat graded));
                     ("pending", JNum (Z.of_nat pending))])
       /\ (on_time + late = 1)%nat.
Proof.
  intros w result.
  split; [reflexivity|].
  destruct (statistics_cover_the_whole_assignment
              Sample.env "a-essay"
              (submit_assignment.mkListQuery (Some "submitted")
                                             (mkPageQuery None None))
              "u-carol" "instructor" w (snd result) (fst result))
    as (on_time & late & graded & pending & Hstat & Hsum & _);
    [apply surjective_pairing | reflexivity|].
  exists on_time, late, graded, pending; split; [exact Hstat | exact Hsum].
Defined.

Lemma accepted_submission_is_in_my_submissions_witness :
  let w := Sample.world "active" [] Sample.other_submissions in
  let w' :=
    snd (submit_assignment.handle_submit_assignment
           Sample.env
           (submit_assignment.mkSubmitEvent
              (Some "a-essay") (Some (submit_request "f-report" None)))
           "u-alice" "alice@campus.edu" "Alice" w) in
  body_field "total"
             (fst (submit_assignment.handle_get_my_submissions
                     (Some "a-essay") "u-alice" w'))
  = Some (JNum 1).
Proof.
  intros w w'.
  destruct (accepted_submission_is_in_my_submissions
              Sample.env "a-essay" "u-alice" "alice@campus.edu" "Alice"
              "f-report" None w Sample.essay (Sample.report "active")
              Submission.submissionId eq_refl
              (sample_submittable Sample.other_submissions) eq_refl eq_refl)
    as (entries & Hlist & _).
  exact (f_equal (fun x => body_field "total" (fst x)) Hlist).
Defined.

Lemma grade_is_reported_to_the_student_witness :
  let w := Sample.world "active" [] [Sample.graded_essay] in
  let w' :=
    snd (submit_assignment.handle_grade_submission
           Sample.grading_env
           (submit_assignment.mkGradeEvent
              (Some "a-essay") (Some "sub-1")
              (Some (JsonText (JObj [("grade", JNum 80);
                                     ("feedback", JStr "better")]))))
           "u-carol" "instructor" "Carol" w) in
  exists entries fields,
    body_field "submissions"
               (fst (submit_assignment.handle_get_my_submissions
                       (Some "a-essay") "u-alice" w'))
    = Some (JArr entries)
    /\ In (JObj fields) entries
    /\ field "grade" fields = Some (JFloat (Int 80))
    /\ field "maxGrade" fields = Some (JFloat (Int 100))
    /\ field "feedback" fields = Some (JStr "better").
Proof.
  intros w w'.
  destruct (grade_is_reported_to_the_student
              Sample.grading_env "a-essay" "sub-1" "u-carol" "instructor"
              "Carol" w Sample.essay Sample.graded_essay
              [("grade", JNum 80); ("feedback", JStr "better")]
              (Int 80) (Int 100) (JStr "better")
              eq_refl sample_gradable sample_grading)
    as (entries & fields & Hanswer & Hin & _ & _ & Hgrade & Hmax & Hfb).
  exists entries, fields.
  split; [exact (f_equal (body_field "submissions") Hanswer)|].
  repeat split; assumption.
Defined.

Lemma failure_report_marks_the_file_of_the_caller_witness :
  let w := Sample.world "active" [] [] in
  let result :=
    complete_upload.lambda_handler
      Sample.env
      (complete_upload.mkCompleteEvent
         (Some "f-report")
         (Some (complete_upload.mkCompleteBody false None None)))
      "u-alice" "alice@campus.edu" w in
  statusCode (fst result) = 200
  /\ map FileItem.status (files (snd result)) = ["failed"]
  /\ exists f,
       get_item FileItem.key key2_eqb ("u-alice", "f-report")
                (files (snd result))
       = Some (complete_upload.marked_failed 1000 f).
Proof.
  intros w result.
  destruct (failure_report_marks_the_file_of_the_caller
              Sample.env
              (complete_upload.mkCompleteEvent
                 (Some "f-report")
                 (Some (complete_upload.mkCompleteBody false None None)))
              "u-alice" "alice@campus.edu" "f-report"
              (complete_upload.mkCompleteBody false None None) w)
    as (Hanswer & (f & Hget & _) & _);
    [reflexivity | reflexivity | reflexivity | reflexivity |].
  split; [exact (f_equal statusCode Hanswer)|].
  split; [reflexivity|].
  exists f; exact Hget.
Defined.

Lemma completion_updates_the_file_of_the_caller_only_witness :
  let w := Sample.world "pending" [] [] in
  let body :=
    complete_upload.mkCompleteBody
      true (Some "users/u-alice/files/f-report") (Some "c0ffee") in
  let event := complete_upload.mkCompleteEvent (Some "f-report") (Some body) in
  let result :=
    complete_upload.lambda_handler Sample.env event "u-alice"
                                   "alice@campus.edu" w in
  map (fun f => (FileItem.status f, FileItem.checksum f))
      (files (snd result)) = [("active", Some "c0ffee")]
  /\ (same_tables w (snd result)
      \/ exists file_id s3_key f o,
           complete_upload.fileId event = Some file_id
           /\ complete_upload.s3Key body = Some s3_key
           /\ get_item FileItem.key key2_eqb ("u-alice", file_id) (files w)
              = Some f
           /\ FileItem.status f <> "active"
           /\ complete_upload.head_object s3_key w = Some o
           /\ files (snd result)
              = update_item FileItem.key key2_eqb ("u-alice", file_id)
                  (complete_upload.completed
                     (utcnow_at Sample.env (ticks w))
                     (S3Object.ContentLength o)
                     (complete_upload.checksum body)
                     (complete_upload.s3_etag o))
                  (files w)
           /\ same_tables (set_files (snd result) (files w)) w).
Proof.
  intros w body event result.
  split; [reflexivity|].
  apply (completion_updates_the_file_of_the_caller_only
           Sample.env event "u-alice" "alice@campus.edu" body w (snd result)
           (fst result));
    [reflexivity | reflexivity | apply surjective_pairing].
Defined.


Lemma revoked_share_can_be_granted_again_witness :
  let old := Sample.share_with_bob "active" None None in
  let w := Sample.world "active" [old] [] in
  let w1 :=
    snd (share_file.handle_revoke_share Sample.env (Some "f-report")
                                        (Some "s-1") "u-alice" w) in
  let b1 :=
    batch_of
      (share_file.share_with Sample.env "f-report" "u-alice"
                             "alice@campus.edu" (JStr "") None
                             (share_file.mkBatch w1 [] []) Example.to_bob) in
  map (fun s => (Share.shareId s, Share.status s))
      (shares (share_file.world b1)) = [("id-0", "active")]
  /\ List.length (share_file.successful_shares b1) = 1%nat
  /\ share_file.failed_shares b1 = [].
Proof.
  intros old w w1 b1.
  split; [reflexivity|].
  destruct (revoked_share_can_be_granted_again
              Sample.env Sample.env "f-report" "s-1" "u-alice"
              "alice@campus.edu" (JStr "") None w (Sample.report "active") []
              old [] Example.to_bob "bob@campus.edu" Sample.bob)
    as (b1' & Hstep & _ & _ & Hok & Hfailed); try reflexivity.
  - vm_compute; discriminate.
  - fold w1 in Hstep; unfold b1; rewrite Hstep.
    split; [exact Hok | exact Hfailed].
Defined.

Lemma unregistered_address_is_shared_with_twice_witness :
  let step :=
    share_file.share_with Sample.env "f-report" "u-alice" "alice@campus.edu"
                          (JStr "") None in
  let b := share_file.mkBatch (Sample.world "active" [] []) [] [] in
  let b2 := batch_of (step (batch_of (step b Example.to_dave))
                           Example.to_dave) in
  map (fun s => (Share.sharedWithEmail s, Share.sharedWithUserId s))
      (shares (share_file.world b2))
  = [("dave@campus.edu", "pending-id-0"); ("dave@campus.edu", "pending-id-2")]
  /\ List.length (share_file.successful_shares b2) = 2%nat
  /\ share_file.failed_shares b2 = [].
Proof.
  intros step b b2.
  split; [reflexivity|].
  destruct (unregistered_address_is_shared_with_twice
              Sample.env "f-report" "u-alice" "alice@campus.edu" (JStr "")
              None b Example.to_dave "dave@campus.edu")
    as (b1' & b2' & Hstep1 & Hstep2 & _ & Hok & Hfailed); try reflexivity.
  - vm_compute; discriminate.
  - vm_compute; discriminate.
  - fold step in Hstep1, Hstep2.
    unfold b2; rewrite Hstep1; cbn [batch_of]; rewrite Hstep2.
    split; [exact Hok | exact Hfailed].
Defined.

Lemma listed_shares_never_exceed_the_share_count_witness :
  let w :=
    Sample.world "active"
                 [Sample.share_with_bob "active" (Some (Sample.utc 500))
                                        None] [] in
  let result :=
    share_file.handle_list_shares Sample.env (Some "f-report") "u-alice" w in
  list_files.get_share_count "f-report" w = 1
  /\ exists n : nat,
       body_field "total" (fst result) = Some (JNum (Z.of_nat n))
       /\ Z.of_nat n <= 1.
Proof.
  intros w result.
  split; [reflexivity|].
  destruct (listed_shares_never_exceed_the_share_count
              Sample.env "f-report" "u-alice" w (snd result) (fst result))
    as (n & Htotal & Hle & _);
    [apply surjective_pairing | reflexivity|].
  exists n; split; [exact Htotal | exact Hle].
Defined.
